(** * EduFin dataset generator: a shallow embedding of
    [SQL_V2_data_Code_5Lakh.py] and the properties of its tables.

    Conventions of the embedding.
    - Python [int] is [Z]; a [datetime.date] is its proleptic ordinal, a [Z],
      and a [timedelta(days=k)] is the integer [k] (the birth date of a
      customer, built from its fields, is kept as those fields).
    - Python [float] is an exact rational ([Q]): every arithmetic operation
      is the real one.  Where a statement is sensitive to binary64 rounding
      the same source lines are also transcribed over the primitive
      binary64 floats ([float]), which are Python's floats bit for bit.
      The thresholds of the loan status are kept on binary64 throughout:
      the draw they are compared with is a float, so the comparisons of
      the code are the exact comparisons of these values.
    - [round(x, 2)] rounds the exact value of [x] half to even on the second
      decimal.
    - The module-level [random] generator is threaded explicitly: a
      computation takes the generator state and returns the new one.
    - A [pandas.DataFrame] is the list of its rows, in order; the Delta
      catalog is a finite map from table names to tables. *)

From Stdlib Require Import ZArith QArith Qround Qabs Qpower Lqa Lia Floats.
From stdpp Require Import base option list gmap strings pretty.

Local Open Scope Z_scope.

(** ** Configuration constants (module level of the script) *)

Definition CUSTOMER_RECORDS : Z := 500000.
Definition OTHER_TABLE_RECORDS : Z := 350000.
Definition BATCH_SIZE : Z := 10000.

(** ** Reference data: states and cities *)

Record state_info := mk_state_info {
  si_state_name : string;
  si_region : string
}.

Record city_info := mk_city_info {
  ci_city_name : string;
  ci_state_name : string;
  ci_tier : string
}.

Definition INDIAN_STATES : list state_info := [
    mk_state_info "Andhra Pradesh" "South";
    mk_state_info "Arunachal Pradesh" "Northeast";
    mk_state_info "Assam" "Northeast";
    mk_state_info "Bihar" "East";
    mk_state_info "Chhattisgarh" "Central";
    mk_state_info "Goa" "West";
    mk_state_info "Gujarat" "West";
    mk_state_info "Haryana" "North";
    mk_state_info "Himachal Pradesh" "North";
    mk_state_info "Jharkhand" "East";
    mk_state_info "Karnataka" "South";
    mk_state_info "Kerala" "South";
    mk_state_info "Madhya Pradesh" "Central";
    mk_state_info "Maharashtra" "West";
    mk_state_info "Manipur" "Northeast";
    mk_state_info "Meghalaya" "Northeast";
    mk_state_info "Mizoram" "Northeast";
    mk_state_info "Nagaland" "Northeast";
    mk_state_info "Odisha" "East";
    mk_state_info "Punjab" "North";
    mk_state_info "Rajasthan" "North";
    mk_state_info "Sikkim" "Northeast";
    mk_state_info "Tamil Nadu" "South";
    mk_state_info "Telangana" "South";
    mk_state_info "Tripura" "Northeast";
    mk_state_info "Uttar Pradesh" "North";
    mk_state_info "Uttarakhand" "North";
    mk_state_info "West Bengal" "East"
].

Definition INDIAN_CITIES : list city_info := [
    mk_city_info "Visakhapatnam" "Andhra Pradesh" "Tier2";
    mk_city_info "Vijayawada" "Andhra Pradesh" "Tier2";
    mk_city_info "Guntur" "Andhra Pradesh" "Tier3";
    mk_city_info "Tirupati" "Andhra Pradesh" "Tier2";
    mk_city_info "Kurnool" "Andhra Pradesh" "Tier3";
    mk_city_info "Nellore" "Andhra Pradesh" "Tier3";
    mk_city_info "Rajahmundry" "Andhra Pradesh" "Tier3";
    mk_city_info "Anantapur" "Andhra Pradesh" "Tier3";
    mk_city_info "Kadapa" "Andhra Pradesh" "Tier3";
    mk_city_info "Chittoor" "Andhra Pradesh" "Tier3";
    mk_city_info "Eluru" "Andhra Pradesh" "Tier3";
    mk_city_info "Srikakulam" "Andhra Pradesh" "Tier3";
    mk_city_info "Ongole" "Andhra Pradesh" "Tier3";
    mk_city_info "Proddatur" "Andhra Pradesh" "Tier3";
    mk_city_info "Nandyal" "Andhra Pradesh" "Tier3";
    mk_city_info "Kakinada" "Andhra Pradesh" "Tier3";
    mk_city_info "Bapatla" "Andhra Pradesh" "Tier3";
    mk_city_info "Tenali" "Andhra Pradesh" "Tier3";
    mk_city_info "Bhimavaram" "Andhra Pradesh" "Tier3";
    mk_city_info "Amalapuram" "Andhra Pradesh" "Tier3";
    mk_city_info "Itanagar" "Arunachal Pradesh" "Tier3";
    mk_city_info "Tawang" "Arunachal Pradesh" "Tier3";
    mk_city_info "Ziro" "Arunachal Pradesh" "Tier3";
    mk_city_info "Pasighat" "Arunachal Pradesh" "Tier3";
    mk_city_info "Naharlagun" "Arunachal Pradesh" "Tier3";
    mk_city_info "Roing" "Arunachal Pradesh" "Tier3";
    mk_city_info "Tezu" "Arunachal Pradesh" "Tier3";
    mk_city_info "Namsai" "Arunachal Pradesh" "Tier3";
    mk_city_info "Aalo" "Arunachal Pradesh" "Tier3";
    mk_city_info "Bomdila" "Arunachal Pradesh" "Tier3";
    mk_city_info "Seppa" "Arunachal Pradesh" "Tier3";
    mk_city_info "Yingkiong" "Arunachal Pradesh" "Tier3";
    mk_city_info "Changlang" "Arunachal Pradesh" "Tier3";
    mk_city_info "Guwahati" "Assam" "Tier2";
    mk_city_info "Dibrugarh" "Assam" "Tier3";
    mk_city_info "Jorhat" "Assam" "Tier3";
    mk_city_info "Nagaon" "Assam" "Tier3";
    mk_city_info "Silchar" "Assam" "Tier3";
    mk_city_info "Tinsukia" "Assam" "Tier3";
    mk_city_info "Bongaigaon" "Assam" "Tier3";
    mk_city_info "Barpeta" "Assam" "Tier3";
    mk_city_info "Tezpur" "Assam" "Tier3";
    mk_city_info "Sivasagar" "Assam" "Tier3";
    mk_city_info "Nalbari" "Assam" "Tier3";
    mk_city_info "Dhemaji" "Assam" "Tier3";
    mk_city_info "Goalpara" "Assam" "Tier3";
    mk_city_info "Patna" "Bihar" "Tier2";
    mk_city_info "Gaya" "Bihar" "Tier3";
    mk_city_info "Bhagalpur" "Bihar" "Tier3";
    mk_city_info "Muzaffarpur" "Bihar" "Tier3";
    mk_city_info "Darbhanga" "Bihar" "Tier3";
    mk_city_info "Munger" "Bihar" "Tier3";
    mk_city_info "Begusarai" "Bihar" "Tier3";
    mk_city_info "Purnia" "Bihar" "Tier3";
    mk_city_info "Arrah" "Bihar" "Tier3";
    mk_city_info "Siwan" "Bihar" "Tier3";
    mk_city_info "Samastipur" "Bihar" "Tier3";
    mk_city_info "Nalanda" "Bihar" "Tier3";
    mk_city_info "Buxar" "Bihar" "Tier3";
    mk_city_info "Raipur" "Chhattisgarh" "Tier2";
    mk_city_info "Bhilai" "Chhattisgarh" "Tier3";
    mk_city_info "Bilaspur" "Chhattisgarh" "Tier3";
    mk_city_info "Korba" "Chhattisgarh" "Tier3";
    mk_city_info "Durg" "Chhattisgarh" "Tier3";
    mk_city_info "Rajnandgaon" "Chhattisgarh" "Tier3";
    mk_city_info "Raigarh" "Chhattisgarh" "Tier3";
    mk_city_info "Jagdalpur" "Chhattisgarh" "Tier3";
    mk_city_info "Ambikapur" "Chhattisgarh" "Tier3";
    mk_city_info "Dhamtari" "Chhattisgarh" "Tier3";
    mk_city_info "Panaji" "Goa" "Tier3";
    mk_city_info "Vasco da Gama" "Goa" "Tier3";
    mk_city_info "Margao" "Goa" "Tier3";
    mk_city_info "Mapusa" "Goa" "Tier3";
    mk_city_info "Ponda" "Goa" "Tier3";
    mk_city_info "Bicholim" "Goa" "Tier3";
    mk_city_info "Ahmedabad" "Gujarat" "Tier1";
    mk_city_info "Surat" "Gujarat" "Tier1";
    mk_city_info "Vadodara" "Gujarat" "Tier2";
    mk_city_info "Rajkot" "Gujarat" "Tier2";
    mk_city_info "Gandhinagar" "Gujarat" "Tier3";
    mk_city_info "Bhavnagar" "Gujarat" "Tier3";
    mk_city_info "Jamnagar" "Gujarat" "Tier3";
    mk_city_info "Junagadh" "Gujarat" "Tier3";
    mk_city_info "Anand" "Gujarat" "Tier3";
    mk_city_info "Nadiad" "Gujarat" "Tier3";
    mk_city_info "Valsad" "Gujarat" "Tier3";
    mk_city_info "Bharuch" "Gujarat" "Tier3";
    mk_city_info "Porbandar" "Gujarat" "Tier3";
    mk_city_info "Patan" "Gujarat" "Tier3";
    mk_city_info "Faridabad" "Haryana" "Tier1";
    mk_city_info "Gurgaon" "Haryana" "Tier1";
    mk_city_info "Ambala" "Haryana" "Tier3";
    mk_city_info "Hisar" "Haryana" "Tier3";
    mk_city_info "Panipat" "Haryana" "Tier3";
    mk_city_info "Rohtak" "Haryana" "Tier3";
    mk_city_info "Karnal" "Haryana" "Tier3";
    mk_city_info "Sonipat" "Haryana" "Tier3";
    mk_city_info "Yamunanagar" "Haryana" "Tier3";
    mk_city_info "Sirsa" "Haryana" "Tier3";
    mk_city_info "Shimla" "Himachal Pradesh" "Tier3";
    mk_city_info "Dharamshala" "Himachal Pradesh" "Tier3";
    mk_city_info "Manali" "Himachal Pradesh" "Tier3";
    mk_city_info "Solan" "Himachal Pradesh" "Tier3";
    mk_city_info "Kullu" "Himachal Pradesh" "Tier3";
    mk_city_info "Mandi" "Himachal Pradesh" "Tier3";
    mk_city_info "Nahan" "Himachal Pradesh" "Tier3";
    mk_city_info "Palampur" "Himachal Pradesh" "Tier3";
    mk_city_info "Bilaspur" "Himachal Pradesh" "Tier3";
    mk_city_info "Hamirpur" "Himachal Pradesh" "Tier3";
    mk_city_info "Ranchi" "Jharkhand" "Tier2";
    mk_city_info "Jamshedpur" "Jharkhand" "Tier2";
    mk_city_info "Dhanbad" "Jharkhand" "Tier3";
    mk_city_info "Bokaro Steel City" "Jharkhand" "Tier3";
    mk_city_info "Hazaribagh" "Jharkhand" "Tier3";
    mk_city_info "Deoghar" "Jharkhand" "Tier3";
    mk_city_info "Dumka" "Jharkhand" "Tier3";
    mk_city_info "Giridih" "Jharkhand" "Tier3";
    mk_city_info "Chaibasa" "Jharkhand" "Tier3";
    mk_city_info "Bengaluru" "Karnataka" "Tier1";
    mk_city_info "Mysuru" "Karnataka" "Tier2";
    mk_city_info "Mangaluru" "Karnataka" "Tier2";
    mk_city_info "Hubballi" "Karnataka" "Tier3";
    mk_city_info "Belagavi" "Karnataka" "Tier3";
    mk_city_info "Davangere" "Karnataka" "Tier3";
    mk_city_info "Ballari" "Karnataka" "Tier3";
    mk_city_info "Tumakuru" "Karnataka" "Tier3";
    mk_city_info "Udupi" "Karnataka" "Tier3";
    mk_city_info "Chikkamagaluru" "Karnataka" "Tier3";
    mk_city_info "Thiruvananthapuram" "Kerala" "Tier2";
    mk_city_info "Kochi" "Kerala" "Tier1";
    mk_city_info "Kozhikode" "Kerala" "Tier2";
    mk_city_info "Thrissur" "Kerala" "Tier3";
    mk_city_info "Kollam" "Kerala" "Tier3";
    mk_city_info "Kannur" "Kerala" "Tier3";
    mk_city_info "Alappuzha" "Kerala" "Tier3";
    mk_city_info "Palakkad" "Kerala" "Tier3";
    mk_city_info "Kottayam" "Kerala" "Tier3";
    mk_city_info "Malappuram" "Kerala" "Tier3";
    mk_city_info "Bhopal" "Madhya Pradesh" "Tier2";
    mk_city_info "Indore" "Madhya Pradesh" "Tier1";
    mk_city_info "Gwalior" "Madhya Pradesh" "Tier2";
    mk_city_info "Jabalpur" "Madhya Pradesh" "Tier2";
    mk_city_info "Ujjain" "Madhya Pradesh" "Tier3";
    mk_city_info "Sagar" "Madhya Pradesh" "Tier3";
    mk_city_info "Rewa" "Madhya Pradesh" "Tier3";
    mk_city_info "Satna" "Madhya Pradesh" "Tier3";
    mk_city_info "Khandwa" "Madhya Pradesh" "Tier3";
    mk_city_info "Burhanpur" "Madhya Pradesh" "Tier3";
    mk_city_info "Mumbai" "Maharashtra" "Tier1";
    mk_city_info "Pune" "Maharashtra" "Tier1";
    mk_city_info "Nagpur" "Maharashtra" "Tier1";
    mk_city_info "Nashik" "Maharashtra" "Tier2";
    mk_city_info "Aurangabad" "Maharashtra" "Tier2";
    mk_city_info "Thane" "Maharashtra" "Tier1";
    mk_city_info "Solapur" "Maharashtra" "Tier2";
    mk_city_info "Kolhapur" "Maharashtra" "Tier3";
    mk_city_info "Amravati" "Maharashtra" "Tier3";
    mk_city_info "Jalgaon" "Maharashtra" "Tier3";
    mk_city_info "Nanded" "Maharashtra" "Tier3";
    mk_city_info "Sangli" "Maharashtra" "Tier3";
    mk_city_info "Akola" "Maharashtra" "Tier3";
    mk_city_info "Chandrapur" "Maharashtra" "Tier3";
    mk_city_info "Parbhani" "Maharashtra" "Tier3";
    mk_city_info "Imphal" "Manipur" "Tier3";
    mk_city_info "Thoubal" "Manipur" "Tier3";
    mk_city_info "Kakching" "Manipur" "Tier3";
    mk_city_info "Bishnupur" "Manipur" "Tier3";
    mk_city_info "Churachandpur" "Manipur" "Tier3";
    mk_city_info "Shillong" "Meghalaya" "Tier3";
    mk_city_info "Tura" "Meghalaya" "Tier3";
    mk_city_info "Jowai" "Meghalaya" "Tier3";
    mk_city_info "Nongpoh" "Meghalaya" "Tier3";
    mk_city_info "Williamnagar" "Meghalaya" "Tier3";
    mk_city_info "Aizawl" "Mizoram" "Tier3";
    mk_city_info "Lunglei" "Mizoram" "Tier3";
    mk_city_info "Champhai" "Mizoram" "Tier3";
    mk_city_info "Kolasib" "Mizoram" "Tier3";
    mk_city_info "Serchhip" "Mizoram" "Tier3";
    mk_city_info "Kohima" "Nagaland" "Tier3";
    mk_city_info "Dimapur" "Nagaland" "Tier3";
    mk_city_info "Mokokchung" "Nagaland" "Tier3";
    mk_city_info "Wokha" "Nagaland" "Tier3";
    mk_city_info "Zunheboto" "Nagaland" "Tier3";
    mk_city_info "Bhubaneswar" "Odisha" "Tier2";
    mk_city_info "Cuttack" "Odisha" "Tier2";
    mk_city_info "Rourkela" "Odisha" "Tier3";
    mk_city_info "Berhampur" "Odisha" "Tier3";
    mk_city_info "Sambalpur" "Odisha" "Tier3";
    mk_city_info "Balasore" "Odisha" "Tier3";
    mk_city_info "Jharsuguda" "Odisha" "Tier3";
    mk_city_info "Amritsar" "Punjab" "Tier2";
    mk_city_info "Ludhiana" "Punjab" "Tier2";
    mk_city_info "Jalandhar" "Punjab" "Tier2";
    mk_city_info "Patiala" "Punjab" "Tier3";
    mk_city_info "Bathinda" "Punjab" "Tier3";
    mk_city_info "Mohali" "Punjab" "Tier2";
    mk_city_info "Hoshiarpur" "Punjab" "Tier3";
    mk_city_info "Moga" "Punjab" "Tier3";
    mk_city_info "Jaipur" "Rajasthan" "Tier1";
    mk_city_info "Jodhpur" "Rajasthan" "Tier2";
    mk_city_info "Udaipur" "Rajasthan" "Tier2";
    mk_city_info "Kota" "Rajasthan" "Tier2";
    mk_city_info "Ajmer" "Rajasthan" "Tier3";
    mk_city_info "Bikaner" "Rajasthan" "Tier3";
    mk_city_info "Alwar" "Rajasthan" "Tier3";
    mk_city_info "Chittorgarh" "Rajasthan" "Tier3";
    mk_city_info "Pali" "Rajasthan" "Tier3";
    mk_city_info "Sikar" "Rajasthan" "Tier3";
    mk_city_info "Gangtok" "Sikkim" "Tier3";
    mk_city_info "Namchi" "Sikkim" "Tier3";
    mk_city_info "Mangan" "Sikkim" "Tier3";
    mk_city_info "Chennai" "Tamil Nadu" "Tier1";
    mk_city_info "Coimbatore" "Tamil Nadu" "Tier1";
    mk_city_info "Madurai" "Tamil Nadu" "Tier2";
    mk_city_info "Tiruchirappalli" "Tamil Nadu" "Tier2";
    mk_city_info "Salem" "Tamil Nadu" "Tier2";
    mk_city_info "Tirunelveli" "Tamil Nadu" "Tier3";
    mk_city_info "Erode" "Tamil Nadu" "Tier3";
    mk_city_info "Vellore" "Tamil Nadu" "Tier3";
    mk_city_info "Dindigul" "Tamil Nadu" "Tier3";
    mk_city_info "Hyderabad" "Telangana" "Tier1";
    mk_city_info "Warangal" "Telangana" "Tier2";
    mk_city_info "Khammam" "Telangana" "Tier3";
    mk_city_info "Karimnagar" "Telangana" "Tier3";
    mk_city_info "Nizamabad" "Telangana" "Tier3";
    mk_city_info "Mahabubnagar" "Telangana" "Tier3";
    mk_city_info "Agartala" "Tripura" "Tier3";
    mk_city_info "Kailashahar" "Tripura" "Tier3";
    mk_city_info "Udaipur" "Tripura" "Tier3";
    mk_city_info "Belonia" "Tripura" "Tier3";
    mk_city_info "Lucknow" "Uttar Pradesh" "Tier1";
    mk_city_info "Kanpur" "Uttar Pradesh" "Tier1";
    mk_city_info "Varanasi" "Uttar Pradesh" "Tier2";
    mk_city_info "Agra" "Uttar Pradesh" "Tier2";
    mk_city_info "Allahabad" "Uttar Pradesh" "Tier2";
    mk_city_info "Ghaziabad" "Uttar Pradesh" "Tier1";
    mk_city_info "Meerut" "Uttar Pradesh" "Tier2";
    mk_city_info "Noida" "Uttar Pradesh" "Tier1";
    mk_city_info "Bareilly" "Uttar Pradesh" "Tier3";
    mk_city_info "Aligarh" "Uttar Pradesh" "Tier3";
    mk_city_info "Dehradun" "Uttarakhand" "Tier2";
    mk_city_info "Haridwar" "Uttarakhand" "Tier3";
    mk_city_info "Nainital" "Uttarakhand" "Tier3";
    mk_city_info "Roorkee" "Uttarakhand" "Tier3";
    mk_city_info "Haldwani" "Uttarakhand" "Tier3";
    mk_city_info "Kolkata" "West Bengal" "Tier1";
    mk_city_info "Darjeeling" "West Bengal" "Tier3";
    mk_city_info "Siliguri" "West Bengal" "Tier2";
    mk_city_info "Asansol" "West Bengal" "Tier3";
    mk_city_info "Howrah" "West Bengal" "Tier2";
    mk_city_info "Durgapur" "West Bengal" "Tier3";
    mk_city_info "Kalyani" "West Bengal" "Tier3"
].

(** [enumerate(xs, start)] *)
Fixpoint enumerate {A} (start : Z) (xs : list A) : list (Z * A) :=
  match xs with
  | [] => []
  | x :: xs' => (start, x) :: enumerate (start + 1) xs'
  end.

Module DimState.

Record row := mk_row {
  state_id : Z;
  state_name : string;
  region : string
}.

(** [create_dim_state]: one row per entry of [INDIAN_STATES], ids from 1. *)
Definition create_dim_state : list row :=
  map (fun '(i, state_info) =>
         mk_row i (si_state_name state_info) (si_region state_info))
      (enumerate 1 INDIAN_STATES).

End DimState.

Module DimCity.

Record row := mk_row {
  city_id : Z;
  city_name : string;
  state_id : Z;
  tier_classification : string
}.

(** The dict comprehension
    [{row['state_name']: row['state_id'] for _, row in state_df.iterrows()}]:
    rows are inserted in order, a later row overwrites an earlier one with
    the same name. *)
Definition state_lookup (state_df : list DimState.row) : gmap string Z :=
  foldl (fun m r => <[DimState.state_name r := DimState.state_id r]> m)
        ∅ state_df.

(** The loop body; [state_lookup[...]] raises [KeyError] on a missing
    name, which is [None] here. *)
Definition city_row (lookup : gmap string Z) (i : Z) (c : city_info)
  : option row :=
  sid ← lookup !! ci_state_name c;
  Some (mk_row i (ci_city_name c) sid (ci_tier c)).

Definition create_dim_city_from (cities : list city_info)
    (state_df : list DimState.row) : option (list row) :=
  let lookup := state_lookup state_df in
  mapM (fun '(i, c) => city_row lookup i c) (enumerate 1 cities).

Definition create_dim_city (state_df : list DimState.row)
  : option (list row) :=
  create_dim_city_from INDIAN_CITIES state_df.

(** What it means for a city row to carry the id of the state row whose
    name is the city's state. *)
Definition references_state (state_df : list DimState.row)
    (c : city_info) (r : row) : Prop :=
  Exists (fun s => DimState.state_name s = ci_state_name c
                   ∧ DimState.state_id s = state_id r) state_df.

End DimCity.

(** ** Numbers: [round(x, 2)], [int(x)], [max], [range] *)

(** Round half to even to the nearest integer, the rule of Python's
    [round] on the exact value of its argument. *)
Definition round_half_even (x : Q) : Z :=
  let f := Qfloor x in
  match (x - inject_Z f ?= 1 # 2)%Q with
  | Lt => f
  | Gt => f + 1
  | Eq => if Z.even f then f else f + 1
  end.

(** [round(x, 2)] *)
Definition round2 (x : Q) : Q :=
  (inject_Z (round_half_even (x * 100)) / 100)%Q.

(** [int(x)] on a float: truncation toward zero. *)
Definition py_int (x : Q) : Z := Z.quot (Qnum x) (Z.pos (Qden x)).

(** The exact value of a finite binary64 float. *)
Definition Q_of_float (x : float) : Q :=
  match Prim2SF x with
  | S754_finite s m e =>
      let v := (inject_Z (Z.pos m) * 2 ^ e)%Q in
      if s then (- v)%Q else v
  | _ => 0%Q
  end.

(** [max(a, b)] on floats: Python returns the first argument unless the
    second is strictly larger. *)
Definition py_max (a b : Q) : Q := if Qlt_le_dec a b then b else a.

(** [range(start, stop)] *)
Definition py_range (start stop : Z) : list Z := seqZ start (stop - start).

(** [range(start, stop, step)] for a positive [step]: the
    [ceil((stop - start) / step)] multiples of [step] from [start]. *)
Definition py_range_step (start stop step : Z) : list Z :=
  map (fun k => start + k * step) (seqZ 0 ((stop - start + step - 1) / step)).

(** The indices visited by the nested batch loops: for each
    [batch_start], the range up to [min(batch_start + B, L)]. *)
Definition batch_indices (L B : Z) (starts : list Z) : list Z :=
  concat (map (fun batch_start =>
                 py_range batch_start (Z.min (batch_start + B) L)) starts).

(** ** The seeded random source *)

(** The [random] module's generator, abstractly: a state, the primitive
    [random()] returning a float in [[0, 1)] and the primitive
    [_randbelow(n)] returning an integer in [[0, n)].  Seeding
    ([random.seed(42)]) fixes the initial state. *)
Class RandomSource := {
  rng : Type;
  rng_random : rng -> Q * rng;
  rng_randbelow : Z -> rng -> Z * rng;
  rng_random_range : forall g, (0 <= fst (rng_random g) < 1)%Q;
  rng_randbelow_range :
    forall n g, 0 < n -> 0 <= fst (rng_randbelow n g) < n
}.

(** A computation that consumes randomness. *)
Definition Rand `{RandomSource} (A : Type) : Type := rng -> A * rng.

Definition ret `{RandomSource} {A} (a : A) : Rand A := fun g => (a, g).

Definition bind `{RandomSource} {A B} (c : Rand A) (k : A -> Rand B)
  : Rand B :=
  fun g => let (a, g') := c g in k a g'.

Notation "'let!' x ':=' c 'in' k" := (bind c (fun x => k))
  (at level 10, x name, c at level 100, k at level 200, only parsing).

Section PyRandom.
Context `{RandomSource}.

(** [random.random()] *)
Definition random : Rand Q := rng_random.

(** [random.randint(a, b)] is [a + _randbelow(b - a + 1)]. *)
Definition randint (a b : Z) : Rand Z :=
  let! k := rng_randbelow (b - a + 1) in ret (a + k).

(** [random.uniform(a, b)] is [a + (b - a) * random()]. *)
Definition uniform (a b : Q) : Rand Q :=
  let! u := random in ret (a + (b - a) * u)%Q.

(** [random.choice(seq)] is [seq[_randbelow(len(seq))]]; [dflt] stands
    for the [IndexError] of an empty sequence, which no caller passes. *)
Definition choice {A} (dflt : A) (seq : list A) : Rand A :=
  let! k := rng_randbelow (Z.of_nat (length seq)) in
  ret (nth (Z.to_nat k) seq dflt).

(** [itertools.accumulate(weights)] *)
Fixpoint accumulate (acc : Q) (weights : list Q) : list Q :=
  match weights with
  | [] => []
  | w :: ws => (acc + w)%Q :: accumulate (acc + w)%Q ws
  end.

(** [bisect.bisect(a, x, 0, hi)] on a sorted [a]: the first index below
    [hi] whose entry is strictly greater than [x], else [hi]. *)
Fixpoint bisect (a : list Q) (x : Q) (hi : nat) : nat :=
  match hi, a with
  | S hi', y :: a' => if Qlt_le_dec x y then O else S (bisect a' x hi')
  | _, _ => O
  end.

(** [random.choices(population, weights=weights)[0]] *)
Definition choices1 {A} (dflt : A) (population : list A)
    (weights : list Q) : Rand A :=
  let cum_weights := accumulate 0 weights in
  let total := default 0%Q (last cum_weights) in
  let! u := random in
  ret (nth (bisect cum_weights (u * total)%Q (length population - 1))
           population dflt).

(** [x[i], x[j] = x[j], x[i]] *)
Definition swap {A} (x : list A) (i j : nat) : list A :=
  match x !! i, x !! j with
  | Some xi, Some xj => <[j := xi]> (<[i := xj]> x)
  | _, _ => x
  end.

(** [random.shuffle(x)]:
    [for i in reversed(range(1, len(x))): j = randbelow(i + 1); swap].
    [shuffle_from n x] runs the iterations [i = n, n - 1, ..., 1]. *)
Fixpoint shuffle_from {A} (n : nat) (x : list A) : Rand (list A) :=
  match n with
  | O => ret x
  | S n' =>
      let! j := rng_randbelow (Z.of_nat n + 1) in
      shuffle_from n' (swap x n (Z.to_nat j))
  end.

Definition shuffle {A} (x : list A) : Rand (list A) :=
  shuffle_from (length x - 1) x.

End PyRandom.

(** ** 5. The loans table *)

Module Loans.

Inductive status := Active | Closed | Overdue | Defaulted.

(** A row of the [loans] table, as appended to [loans_data]. *)
Record row := mk_row {
  loan_id : Z;
  customer_id : Z;
  institution_id : Z;
  loan_amount : Q;
  loan_status : status;
  interest_rate : Q;
  loan_tenure_months : Z;
  application_date : Z;
  disbursement_date : Z;
  maturity_date : Z;
  emi_amount : Q;
  purpose_of_loan : string
}.

(** The local variables of one iteration of the row loop, before the
    roundings of the stored row. *)
Record locals := mk_locals {
  v_customer_id : Z;
  v_institution_id : Z;
  v_loan_amount : Q;
  v_cibil_score : Z;
  v_interest_rate : Q;
  v_tenure_months : Z;
  v_days_back : Z;
  v_app_date : Z;
  v_disbursement_date : Z;
  v_maturity_date : Z;
  v_emi_amount : Q;
  v_months_since : Z;
  v_status_rand : Q;
  v_loan_status : status;
  v_purpose : string
}.

Definition LOAN_RECORDS : Z := 400000.

(** The EMI computation. *)
Definition monthly_rate_of (interest_rate : Q) : Q :=
  (interest_rate / 100 / 12)%Q.

Definition emi (loan_amount interest_rate : Q) (tenure_months : Z) : Q :=
  let monthly_rate := monthly_rate_of interest_rate in
  if Qlt_le_dec 0 monthly_rate then
    ((loan_amount * monthly_rate * (1 + monthly_rate) ^ tenure_months)
     / ((1 + monthly_rate) ^ tenure_months - 1))%Q
  else
    (loan_amount / inject_Z tenure_months)%Q.

(** [max(1, (current_date - disbursement_date).days // 30)] *)
Definition months_since_of (current_date disbursement_date : Z) : Z :=
  Z.max 1 ((current_date - disbursement_date) / 30).

(** The literals [0.08], [0.15] and [0.06] as Python reads them: the
    nearest binary64 floats. *)
Definition float_0_08 : float := 0x1.47ae147ae147bp-4%float.
Definition float_0_15 : float := 0x1.3333333333333p-3%float.
Definition float_0_06 : float := 0x1.eb851eb851eb8p-5%float.

(** [default_prob] after the two credit-score adjustments, with the
    binary64 additions of the code ([0.08 + 0.15] is
    [0.22999999999999998]). *)
Definition default_prob_of (cibil_score : Z) : float :=
  let default_prob := float_0_08 in
  if decide (cibil_score < 600) then (default_prob + float_0_15)%float
  else if decide (cibil_score < 700) then (default_prob + float_0_08)%float
  else default_prob.

(** The [if]/[elif] chain that sets [loan_status].  [status_rand] is the
    value of a float, and the two thresholds are floats: the comparisons
    are exact. *)
Definition status_of (status_rand : Q) (default_prob : float)
    (months_since tenure_months : Z) : status :=
  if Qlt_le_dec status_rand (Q_of_float default_prob) then Defaulted
  else if Qlt_le_dec status_rand
            (Q_of_float (default_prob + float_0_06)%float) then Overdue
  else if decide (tenure_months <= months_since) then Closed
  else Active.

Definition purpose_options : list string :=
  ["Course Fees"; "Living Expenses"; "Course Fees + Living";
   "Equipment & Books"]%string.
Definition purpose_weights : list Q := [35; 15; 35; 15]%Q.

(** The dict appended to [loans_data]. *)
Definition to_row (loan_id : Z) (v : locals) : row :=
  {| loan_id := loan_id;
     customer_id := v_customer_id v;
     institution_id := v_institution_id v;
     loan_amount := round2 (v_loan_amount v);
     loan_status := v_loan_status v;
     interest_rate := round2 (v_interest_rate v);
     loan_tenure_months := v_tenure_months v;
     application_date := v_app_date v;
     disbursement_date := v_disbursement_date v;
     maturity_date := v_maturity_date v;
     emi_amount := round2 (v_emi_amount v);
     purpose_of_loan := v_purpose v |}.

(** [int(0.6 * LOAN_RECORDS)] and the other two pool sizes. *)
Definition customers_with_1_loan (L : Z) : Z := py_int (0.6 * inject_Z L).
Definition customers_with_2_loans (L : Z) : Z := py_int (0.25 * inject_Z L).
Definition customers_with_3_loans (L : Z) : Z :=
  L - customers_with_1_loan L - customers_with_2_loans L.

(** The same product on binary64 floats, as Python evaluates it. *)
Definition customers_with_1_loan_binary64 (L : float) : float :=
  (0x1.3333333333333p-1 * L)%float.

Section Generator.
Context `{RandomSource}.

(** The draws of the row loop that come before the status draw, in the
    order of the code: the institution, the two amounts, the score, the
    rate, the tenure and the two delays. *)
Definition loan_parameters : Rand (Z * Q * Q * Z * Q * Z * Z * Z) :=
  let! institution_id := randint 1 OTHER_TABLE_RECORDS in
  let! base_amount := uniform 150000 800000 in
  let! living_expenses := uniform 50000 250000 in
  let! cibil_score := randint 300 900 in
  let! interest_rate :=
    (if decide (750 <= cibil_score) then uniform 8.5 11.5
     else if decide (650 <= cibil_score) then uniform 10.5 14.0
     else uniform 12.5 17.5) in
  let! tenure_months := choice 36 [36; 48; 60; 72; 84; 96] in
  let! days_back := randint 60 1460 in
  let! delay := randint 7 45 in
  ret (institution_id, base_amount, living_expenses, cibil_score,
       interest_rate, tenure_months, days_back, delay).

(** The body of the row loop, from [institution_id = ...] to the draw
    of the purpose inside the appended dict. *)
Definition loan_locals (current_date customer_id : Z) : Rand locals :=
  let! institution_id := randint 1 OTHER_TABLE_RECORDS in
  let! base_amount := uniform 150000 800000 in
  let! living_expenses := uniform 50000 250000 in
  let loan_amount := (base_amount + living_expenses)%Q in
  let! cibil_score := randint 300 900 in
  let! interest_rate :=
    (if decide (750 <= cibil_score) then uniform 8.5 11.5
     else if decide (650 <= cibil_score) then uniform 10.5 14.0
     else uniform 12.5 17.5) in
  let! tenure_months := choice 36 [36; 48; 60; 72; 84; 96] in
  let! days_back := randint 60 1460 in
  let app_date := current_date - days_back in
  let! delay := randint 7 45 in
  let disbursement_date := app_date + delay in
  let maturity_date := disbursement_date + tenure_months * 30 in
  let emi_amount := emi loan_amount interest_rate tenure_months in
  let months_since := months_since_of current_date disbursement_date in
  let default_prob := default_prob_of cibil_score in
  let! status_rand := random in
  let loan_status :=
    status_of status_rand default_prob months_since tenure_months in
  let! purpose := choices1 ""%string purpose_options purpose_weights in
  ret {| v_customer_id := customer_id;
         v_institution_id := institution_id;
         v_loan_amount := loan_amount;
         v_cibil_score := cibil_score;
         v_interest_rate := interest_rate;
         v_tenure_months := tenure_months;
         v_days_back := days_back;
         v_app_date := app_date;
         v_disbursement_date := disbursement_date;
         v_maturity_date := maturity_date;
         v_emi_amount := emi_amount;
         v_months_since := months_since;
         v_status_rand := status_rand;
         v_loan_status := loan_status;
         v_purpose := purpose |}.

(** One of the three pool loops: [n] draws of a customer id, each
    appended [copies] times ([append] for 1, [extend] for 2 and 3). *)
Fixpoint draw_pool (copies n : nat) (customer_loan_pairs : list Z)
  : Rand (list Z) :=
  match n with
  | O => ret customer_loan_pairs
  | S n' =>
      let! customer_id := randint 1 CUSTOMER_RECORDS in
      draw_pool copies n'
        (customer_loan_pairs ++ replicate copies customer_id)
  end.

(** The three pools, the shuffle and the truncation to [L] entries. *)
Definition customer_loan_pairs (L : Z) : Rand (list Z) :=
  let! p1 := draw_pool 1 (Z.to_nat (customers_with_1_loan L)) [] in
  let! p2 := draw_pool 2 (Z.to_nat (customers_with_2_loans L / 2)) p1 in
  let! p3 := draw_pool 3 (Z.to_nat (customers_with_3_loans L / 3)) p2 in
  let! shuffled := shuffle p3 in
  ret (take (Z.to_nat L) shuffled).

(** The inner loop [for i in range(batch_start, batch_end)].  The state
    is [loans_data] and the counter [loan_id]; [None] is the
    [IndexError] of [customer_loan_pairs[i]]. *)
Fixpoint loans_rows (current_date : Z) (pairs : list Z) (idxs : list Z)
    (loans_data : list row) (loan_id : Z)
  : Rand (option (list row * Z)) :=
  match idxs with
  | [] => ret (Some (loans_data, loan_id))
  | i :: idxs' =>
      match pairs !! Z.to_nat i with
      | None => ret None
      | Some customer_id =>
          let! v := loan_locals current_date customer_id in
          loans_rows current_date pairs idxs'
            (loans_data ++ [to_row loan_id v]) (loan_id + 1)
      end
  end.

(** The outer loop [for batch_start in range(0, L, BATCH_SIZE)]. *)
Fixpoint loans_batches (current_date L : Z) (pairs : list Z)
    (starts : list Z) (loans_data : list row) (loan_id : Z)
  : Rand (option (list row * Z)) :=
  match starts with
  | [] => ret (Some (loans_data, loan_id))
  | batch_start :: starts' =>
      let batch_end := Z.min (batch_start + BATCH_SIZE) L in
      let! r := loans_rows current_date pairs
                  (py_range batch_start batch_end) loans_data loan_id in
      match r with
      | None => ret None
      | Some (loans_data', loan_id') =>
          loans_batches current_date L pairs starts' loans_data' loan_id'
      end
  end.

(** [create_loans] with the row target as a parameter; the generated
    DataFrame is returned, [None] if the run raised. *)
Definition create_loans_with (L current_date : Z)
  : Rand (option (list row)) :=
  let! pairs := customer_loan_pairs L in
  let! r := loans_batches current_date L pairs
              (py_range_step 0 L BATCH_SIZE) [] 1 in
  ret (fst <$> r).

Definition create_loans (current_date : Z) : Rand (option (list row)) :=
  create_loans_with LOAN_RECORDS current_date.

(** A row of the table comes from one run of the loop body. *)
Definition generated (current_date : Z) (pairs : list Z) (r : row)
  : Prop :=
  exists customer_id g,
    customer_id ∈ pairs ∧
    r = to_row (loan_id r) (loan_locals current_date customer_id g).1.

End Generator.

(** What one run of the loop body computes, as a specification. *)
Record locals_spec (current_date customer_id : Z) (v : locals) : Prop := {
  spec_customer : v_customer_id v = customer_id;
  spec_institution : 1 ≤ v_institution_id v ≤ OTHER_TABLE_RECORDS;
  spec_amount : (200000 <= v_loan_amount v <= 1050000)%Q;
  spec_cibil : 300 ≤ v_cibil_score v ≤ 900;
  spec_rate : (8.5 <= v_interest_rate v <= 17.5)%Q;
  spec_tenure : v_tenure_months v ∈ [36; 48; 60; 72; 84; 96];
  spec_days_back : 60 ≤ v_days_back v ≤ 1460;
  spec_app_date : v_app_date v = current_date - v_days_back v;
  spec_disbursement :
    v_app_date v + 7 ≤ v_disbursement_date v ≤ v_app_date v + 45;
  spec_maturity :
    v_maturity_date v = v_disbursement_date v + v_tenure_months v * 30;
  spec_emi :
    v_emi_amount v
    = emi (v_loan_amount v) (v_interest_rate v) (v_tenure_months v);
  spec_months_since :
    v_months_since v = months_since_of current_date (v_disbursement_date v);
  spec_status_rand : (0 <= v_status_rand v < 1)%Q;
  spec_status :
    v_loan_status v
    = status_of (v_status_rand v) (default_prob_of (v_cibil_score v))
        (v_months_since v) (v_tenure_months v)
}.

(** The recomputation of the EMI from the stored fields of a row. *)
Definition emi_from_stored (r : row) : Q :=
  emi (loan_amount r) (interest_rate r) (loan_tenure_months r).

(** The credit-score penalty added to the base default probability. *)
Definition credit_score_penalty (cibil_score : Z) : Q :=
  if decide (cibil_score < 600) then 0.15%Q
  else if decide (cibil_score < 700) then 0.08%Q
  else 0%Q.

(** The two thresholds of a score, as the code computes them: the exact
    values of the binary64 [default_prob] and [default_prob + 0.06]. *)
Definition defaulted_below (cibil_score : Z) : Q :=
  Q_of_float (default_prob_of cibil_score).
Definition overdue_below (cibil_score : Z) : Q :=
  Q_of_float (default_prob_of cibil_score + float_0_06)%float.

(** The precedence of the four outcomes, for a draw [u], the thresholds
    [p] and [p'], [elapsed] months since disbursement and a tenure. *)
Definition status_rule (u p p' : Q) (elapsed tenure : Z) (s : status)
  : Prop :=
  ((u < p)%Q → s = Defaulted) ∧
  ((p <= u < p')%Q → s = Overdue) ∧
  ((p <= u)%Q → (p' <= u)%Q → tenure ≤ elapsed → s = Closed) ∧
  ((p <= u)%Q → (p' <= u)%Q → elapsed < tenure → s = Active).

End Loans.

(** ** 6. The payments table *)

Module Payments.

Inductive status := Success | Failed | Pending.

Record row := mk_row {
  payment_id : Z;
  loan_id : Z;
  payment_date : Z;
  payment_amount : Q;
  payment_method : string;
  payment_status : status;
  late_fee : Q;
  principal_component : Q;
  interest_component : Q;
  outstanding_balance : Q
}.

(** The local variables of one iteration, before the roundings. *)
Record locals := mk_locals {
  v_loan_id : Z;
  v_payment_date : Z;
  v_payment_amount : Q;
  v_payment_method : string;
  v_payment_status : status;
  v_interest_component : Q;
  v_principal_component : Q;
  v_outstanding_balance : Q;
  v_late_fee : Q
}.

Definition methods : list string :=
  ["UPI"; "Net Banking"; "Debit Card"; "Credit Card"; "Cheque"; "NEFT"]%string.
Definition method_weights : list Q := [40; 25; 15; 8; 7; 5]%Q.

Definition to_row (i : Z) (v : locals) : row :=
  {| payment_id := i;
     loan_id := v_loan_id v;
     payment_date := v_payment_date v;
     payment_amount := round2 (v_payment_amount v);
     payment_method := v_payment_method v;
     payment_status := v_payment_status v;
     late_fee := round2 (v_late_fee v);
     principal_component := round2 (v_principal_component v);
     interest_component := round2 (v_interest_component v);
     outstanding_balance := round2 (v_outstanding_balance v) |}.

(** The amounts of a successful full payment on binary64 floats, as Python
    evaluates them.  [random.uniform(a, b)] is [a + (b - a) * random()];
    [r_base], [r_delta] and [r_share] are the values returned by
    [random()] inside [uniform(5000, 50000)], [uniform(-500, 500)] and
    [uniform(0.3, 0.7)].  The literals are the binary64 values of 0.3 and
    0.7. *)
Definition uniform_binary64 (a b r : float) : float :=
  (a + (b - a) * r)%float.

Definition payment_amount_binary64 (r_base r_delta : float) : float :=
  let base_emi := uniform_binary64 5000 50000 r_base in
  let payment_amount :=
    (base_emi + uniform_binary64 (-500) 500 r_delta)%float in
  if PrimFloat.ltb 1000 payment_amount then payment_amount else 1000%float.

(** [(principal_component, interest_component)] *)
Definition success_split_binary64 (payment_amount r_share : float)
  : float * float :=
  let share :=
    uniform_binary64 0x1.3333333333333p-2 0x1.6666666666666p-1 r_share in
  let interest_component := (payment_amount * share)%float in
  let principal_component := (payment_amount - interest_component)%float in
  (principal_component, interest_component).

Section Generator.
Context `{RandomSource}.

(** The body of [for i in range(1, OTHER_TABLE_RECORDS + 1)]. *)
Definition payment_locals (current_date : Z) : Rand locals :=
  let! loan_id := randint 1 400000 in
  let! days_back := randint 1 730 in
  let payment_date := current_date - days_back in
  let! base_emi := uniform 5000 50000 in
  let! partial := random in
  let! payment_amount :=
    (if Qlt_le_dec partial 0.05 then
       let! f := uniform 0.3 0.8 in ret (base_emi * f)%Q
     else
       let! d := uniform (-500) 500 in ret (base_emi + d)%Q) in
  let payment_amount := py_max 1000 payment_amount in
  let! payment_method := choices1 ""%string methods method_weights in
  let! s := random in
  let! payment_status :=
    (if Qlt_le_dec s 0.92 then ret Success
     else choice Failed [Failed; Pending]) in
  match payment_status with
  | Success =>
      let! share := uniform 0.3 0.7 in
      let interest_component := (payment_amount * share)%Q in
      let principal_component :=
        (payment_amount - interest_component)%Q in
      let! outstanding_balance := uniform 50000 500000 in
      let! late := random in
      let! late_fee :=
        (if Qlt_le_dec late 0.08 then uniform 0 1000 else ret 0%Q) in
      ret {| v_loan_id := loan_id;
             v_payment_date := payment_date;
             v_payment_amount := payment_amount;
             v_payment_method := payment_method;
             v_payment_status := payment_status;
             v_interest_component := interest_component;
             v_principal_component := principal_component;
             v_outstanding_balance := outstanding_balance;
             v_late_fee := late_fee |}
  | _ =>
      let! outstanding_balance := uniform 100000 600000 in
      ret {| v_loan_id := loan_id;
             v_payment_date := payment_date;
             v_payment_amount := payment_amount;
             v_payment_method := payment_method;
             v_payment_status := payment_status;
             v_interest_component := 0;
             v_principal_component := 0;
             v_outstanding_balance := outstanding_balance;
             v_late_fee := 0 |}
  end.

(** The row loop over the ids [ids]; rows are appended in order. *)
Fixpoint payments_rows (current_date : Z) (ids : list Z)
    (payments_data : list row) : Rand (list row) :=
  match ids with
  | [] => ret payments_data
  | i :: ids' =>
      let! v := payment_locals current_date in
      payments_rows current_date ids' (payments_data ++ [to_row i v])
  end.

Definition create_payments (current_date : Z) : Rand (list row) :=
  payments_rows current_date (py_range 1 (OTHER_TABLE_RECORDS + 1)) [].

End Generator.

(** What one run of the loop body computes, as a specification. *)
Record locals_spec (v : locals) : Prop := {
  spec_amount : (1000 <= v_payment_amount v)%Q;
  spec_success :
    v_payment_status v = Success →
    (v_principal_component v + v_interest_component v
     == v_payment_amount v)%Q;
  spec_not_success :
    v_payment_status v ≠ Success →
    v_principal_component v = 0%Q ∧ v_interest_component v = 0%Q ∧
    v_late_fee v = 0%Q
}.

End Payments.

(** ** 7. The defaults and collections table *)

Module Defaults.

Inductive status := Active | LegalAction | Settled | WrittenOff.

Record row := mk_row {
  default_id : Z;
  customer_id : Z;
  loan_id : Z;
  default_date : Z;
  default_amount : Q;
  days_overdue : Z;
  collection_status : status;
  last_contact_date : Z;
  contact_attempts : Z;
  legal_notice_sent : bool;
  recovery_amount : Q;
  collection_agent_id : Z
}.

(** The [recovery_rates] dict: one rate per status, all four drawn. *)
Record recovery_rates := mk_rates {
  rate_Settled : Q;
  rate_Active : Q;
  rate_LegalAction : Q;
  rate_WrittenOff : Q
}.

(** [recovery_rates[collection_status]] *)
Definition rate_of (rates : recovery_rates) (s : status) : Q :=
  match s with
  | Settled => rate_Settled rates
  | Active => rate_Active rates
  | LegalAction => rate_LegalAction rates
  | WrittenOff => rate_WrittenOff rates
  end.

(** The local variables of one iteration, before the roundings. *)
Record locals := mk_locals {
  v_customer_id : Z;
  v_loan_id : Z;
  v_days_back : Z;
  v_default_date : Z;
  v_default_amount : Q;
  v_days_overdue : Z;
  v_collection_status : status;
  v_contact_attempts : Z;
  v_contact_days_ago : Z;
  v_last_contact_date : Z;
  v_legal_notice_sent : bool;
  v_recovery_rates : recovery_rates;
  v_recovery_amount : Q;
  v_collection_agent_id : Z
}.

Definition to_row (i : Z) (v : locals) : row :=
  {| default_id := i;
     customer_id := v_customer_id v;
     loan_id := v_loan_id v;
     default_date := v_default_date v;
     default_amount := round2 (v_default_amount v);
     days_overdue := v_days_overdue v;
     collection_status := v_collection_status v;
     last_contact_date := v_last_contact_date v;
     contact_attempts := v_contact_attempts v;
     legal_notice_sent := v_legal_notice_sent v;
     recovery_amount := round2 (v_recovery_amount v);
     collection_agent_id := v_collection_agent_id v |}.

Section Generator.
Context `{RandomSource}.

(** The [if]/[elif] chain on [days_overdue]. *)
Definition draw_collection_status (days_overdue : Z) : Rand status :=
  if decide (730 < days_overdue) then
    choices1 Active [WrittenOff; LegalAction; Settled] [50; 30; 20]%Q
  else if decide (365 < days_overdue) then
    choices1 Active [LegalAction; Active; WrittenOff] [40; 35; 25]%Q
  else if decide (180 < days_overdue) then
    choices1 Active [Active; LegalAction] [60; 40]%Q
  else ret Active.

(** [collection_status in [...] or (days_overdue > 180 and
    random.random() < 0.4)], with Python's short-circuit evaluation. *)
Definition draw_legal_notice (s : status) (days_overdue : Z)
  : Rand bool :=
  match s with
  | LegalAction | WrittenOff => ret true
  | _ =>
      if decide (180 < days_overdue) then
        let! u := random in
        ret (if Qlt_le_dec u 0.4 then true else false)
      else ret false
  end.

(** The body of [for i in range(1, OTHER_TABLE_RECORDS + 1)]. *)
Definition default_locals (current_date : Z) : Rand locals :=
  let! customer_id := randint 1 CUSTOMER_RECORDS in
  let! loan_id := randint 1 400000 in
  let! days_back := randint 30 1095 in
  let default_date := current_date - days_back in
  let! default_amount := uniform 100000 800000 in
  let days_overdue := current_date - default_date in
  let! collection_status := draw_collection_status days_overdue in
  let! contact_attempts := randint 5 50 in
  let! contact_days_ago := randint 1 (Z.min days_overdue 90) in
  let last_contact_date := current_date - contact_days_ago in
  let! legal_notice_sent :=
    draw_legal_notice collection_status days_overdue in
  let! r_settled := uniform 0.4 0.9 in
  let! r_active := uniform 0.0 0.5 in
  let! r_legal := uniform 0.1 0.6 in
  let! r_written := uniform 0.0 0.3 in
  let rates := mk_rates r_settled r_active r_legal r_written in
  let recovery_amount :=
    (default_amount * rate_of rates collection_status)%Q in
  let! collection_agent_id := randint 1 100 in
  ret {| v_customer_id := customer_id;
         v_loan_id := loan_id;
         v_days_back := days_back;
         v_default_date := default_date;
         v_default_amount := default_amount;
         v_days_overdue := days_overdue;
         v_collection_status := collection_status;
         v_contact_attempts := contact_attempts;
         v_contact_days_ago := contact_days_ago;
         v_last_contact_date := last_contact_date;
         v_legal_notice_sent := legal_notice_sent;
         v_recovery_rates := rates;
         v_recovery_amount := recovery_amount;
         v_collection_agent_id := collection_agent_id |}.

Fixpoint defaults_rows (current_date : Z) (ids : list Z)
    (defaults_data : list row) : Rand (list row) :=
  match ids with
  | [] => ret defaults_data
  | i :: ids' =>
      let! v := default_locals current_date in
      defaults_rows current_date ids' (defaults_data ++ [to_row i v])
  end.

Definition create_defaults_collections (current_date : Z)
  : Rand (list row) :=
  defaults_rows current_date (py_range 1 (OTHER_TABLE_RECORDS + 1)) [].

End Generator.

(** What one run of the loop body computes, as a specification. *)
Record locals_spec (current_date : Z) (v : locals) : Prop := {
  spec_days_back : 30 ≤ v_days_back v ≤ 1095;
  spec_default_date : v_default_date v = current_date - v_days_back v;
  spec_days_overdue : v_days_overdue v = current_date - v_default_date v;
  spec_contact_days_ago :
    1 ≤ v_contact_days_ago v ≤ Z.min (v_days_overdue v) 90;
  spec_last_contact_date :
    v_last_contact_date v = current_date - v_contact_days_ago v;
  spec_default_amount : (100000 <= v_default_amount v <= 800000)%Q;
  spec_rates :
    ∀ s, (0 <= rate_of (v_recovery_rates v) s <= 0.9)%Q;
  spec_recovery_amount :
    v_recovery_amount v
    = (v_default_amount v
       * rate_of (v_recovery_rates v) (v_collection_status v))%Q
}.

End Defaults.

(** ** The pipeline: [main] *)

Module Pipeline.

(** A raised [Exception]; [str(e)] is its message. *)
Record exn := mk_exn { exn_message : string }.

(** What the run writes to the console, as far as [main] is concerned:
    the progress lines of the steps are left out. *)
Inductive event :=
| Banner                       (* the header printed before the [try] *)
| Completed                    (* the summary printed on success *)
| ErrorLine (message : string) (* [print(f"... Error during generation: {str(e)}")] *)
| Traceback (e : exn).         (* [traceback.print_exc()] *)

Section Tables.
(** The content of a table: its list of rows, whatever their type. *)
Context {table : Type}.

(** The Delta catalog and the console. *)
Record world := mk_world {
  catalog : gmap string table;
  console : list event
}.

(** A step of the script: it may change the world and either returns
    or raises. *)
Definition Step (A : Type) : Type := world -> (exn + A) * world.

Definition sret {A} (a : A) : Step A := fun w => (inr a, w).

Definition raise {A} (e : exn) : Step A := fun w => (inl e, w).

(** Sequencing: a raised exception skips the rest; the world keeps
    whatever was done before the raise. *)
Definition sbind {A B} (c : Step A) (k : A -> Step B) : Step B :=
  fun w =>
    match c w with
    | (inl e, w') => (inl e, w')
    | (inr a, w') => k a w'
    end.

(** [try: body  except Exception as e: handler] *)
Definition try_except {A} (body : Step A) (handler : exn -> Step A)
  : Step A :=
  fun w =>
    match body w with
    | (inl e, w') => handler e w'
    | (inr a, w') => (inr a, w')
    end.

Definition print (ev : event) : Step unit :=
  fun w => (inr tt, mk_world (catalog w) (console w ++ [ev])).

(** The environment of a run: what the generation part of each
    [create_*] function computes (a DataFrame, or an exception), and
    whether the write of a table fails. *)
Record environment := mk_environment {
  gen_dim_state : exn + table;
  gen_dim_city : table -> exn + table;
  gen_customers : table -> exn + table;
  gen_institutions : table -> exn + table;
  gen_loans : exn + table;
  gen_payments : exn + table;
  gen_defaults_collections : exn + table;
  gen_geographic_demographics : exn + table;
  gen_economic_indicators : exn + table;
  write_failure : string -> option exn
}.

Variable env : environment.

(** [spark_df.write.format("delta").mode("overwrite").saveAsTable(name)]:
    the table replaces any table of that name, unless the write
    raises, in which case the catalog is as before. *)
Definition saveAsTable (name : string) (df : table) : Step unit :=
  fun w =>
    match write_failure env name with
    | Some e => (inl e, w)
    | None => (inr tt, mk_world (<[name := df]> (catalog w)) (console w))
    end.

(** The shape shared by the nine [create_*] functions: build the
    DataFrame, save it, return it.  None of them has a handler. *)
Definition create (name : string) (generated : exn + table)
  : Step table :=
  sbind (match generated with
         | inl e => raise e
         | inr df => sret df
         end)
        (fun df => sbind (saveAsTable name df) (fun _ => sret df)).

Definition create_dim_state : Step table :=
  create "dim_state" (gen_dim_state env).
Definition create_dim_city (state_df : table) : Step table :=
  create "dim_city" (gen_dim_city env state_df).
Definition create_customers (city_df : table) : Step table :=
  create "customers" (gen_customers env city_df).
Definition create_institutions (city_df : table) : Step table :=
  create "institutions" (gen_institutions env city_df).
Definition create_loans : Step table :=
  create "loans" (gen_loans env).
Definition create_payments : Step table :=
  create "payments" (gen_payments env).
Definition create_defaults_collections : Step table :=
  create "defaults_collections" (gen_defaults_collections env).
Definition create_geographic_demographics : Step table :=
  create "geographic_demographics" (gen_geographic_demographics env).
Definition create_economic_indicators : Step table :=
  create "economic_indicators" (gen_economic_indicators env).

(** The body of the [try] block of [main]. *)
Definition main_body : Step bool :=
  sbind create_dim_state (fun state_df =>
  sbind (create_dim_city state_df) (fun city_df =>
  sbind (create_customers city_df) (fun customers_df =>
  sbind (create_institutions city_df) (fun institutions_df =>
  sbind create_loans (fun loans_df =>
  sbind create_payments (fun payments_df =>
  sbind create_defaults_collections (fun defaults_df =>
  sbind create_geographic_demographics (fun geo_df =>
  sbind create_economic_indicators (fun economic_df =>
  sbind (print Completed) (fun _ =>
  sret true)))))))))).

(** The [except Exception as e] block of [main]. *)
Definition main_handler (e : exn) : Step bool :=
  sbind (print (ErrorLine (exn_message e))) (fun _ =>
  sbind (print (Traceback e)) (fun _ =>
  sret false)).

Definition main : Step bool :=
  sbind (print Banner) (fun _ => try_except main_body main_handler).

(** The steps in the order of [main], each with the outcome of its
    generation part; a step after a failed one is never reached, and
    is listed with the failure that stopped the run. *)
Definition plan : list (string * (exn + table)) :=
  let after {A} (r : exn + table) (k : table -> exn + A) : exn + A :=
    match r with inl e => inl e | inr df => k df end in
  let state := gen_dim_state env in
  let city := after state (gen_dim_city env) in
  [ ("dim_state", state);
    ("dim_city", city);
    ("customers", after city (gen_customers env));
    ("institutions", after city (gen_institutions env));
    ("loans", gen_loans env);
    ("payments", gen_payments env);
    ("defaults_collections", gen_defaults_collections env);
    ("geographic_demographics", gen_geographic_demographics env);
    ("economic_indicators", gen_economic_indicators env) ]%string.

(** The outcome of a listed step: the exception it raises, from its
    generation part or from its write, or the table it saves. *)
Definition step_outcome (s : string * (exn + table)) : exn + table :=
  match s.2 with
  | inl e => inl e
  | inr df =>
      match write_failure env s.1 with
      | Some e => inl e
      | None => inr df
      end
  end.

Definition completes (s : string * (exn + table)) : Prop :=
  exists df, step_outcome s = inr df.

(** The catalog after the listed steps have all completed. *)
Definition saved (steps : list (string * (exn + table)))
    (c : gmap string table) : gmap string table :=
  foldl (fun c s => match step_outcome s with
                    | inr df => <[s.1 := df]> c
                    | inl _ => c
                    end) c steps.

(** The run of a list of steps, as a reference for [main]: the steps are
    taken in order up to the first that raises. *)
Fixpoint run_plan (steps : list (string * (exn + table))) (w : world)
  : (exn + unit) * world :=
  match steps with
  | [] => (inr tt, w)
  | s :: steps' =>
      match step_outcome s with
      | inl e => (inl e, w)
      | inr df =>
          run_plan steps' (mk_world (<[s.1 := df]> (catalog w)) (console w))
      end
  end.

End Tables.

(** A run in which the loans step raises: tables are numbers here. *)
Definition failing_loans_env : @environment nat :=
  {| gen_dim_state := inr 1%nat;
     gen_dim_city := fun _ => inr 2%nat;
     gen_customers := fun _ => inr 3%nat;
     gen_institutions := fun _ => inr 4%nat;
     gen_loans := inl (mk_exn "list index out of range");
     gen_payments := inr 6%nat;
     gen_defaults_collections := inr 7%nat;
     gen_geographic_demographics := inr 8%nat;
     gen_economic_indicators := inr 9%nat;
     write_failure := fun _ => None |}.

Definition empty_world : @world nat := mk_world ∅ [].

End Pipeline.

(** ** Two runs on different days

    The three transaction generators read the clock once each
    ([datetime.now().date()]) and share the module-level random generator,
    in the order of [main]. *)

Module Run.

Record tables := mk_tables {
  loans : option (list Loans.row);
  payments : list Payments.row;
  defaults_collections : list Defaults.row
}.

Definition transaction_tables `{RandomSource}
    (loans_date payments_date defaults_date : Z) : Rand tables :=
  let! loans_df := Loans.create_loans loans_date in
  let! payments_df := Payments.create_payments payments_date in
  let! defaults_df := Defaults.create_defaults_collections defaults_date in
  ret (mk_tables loans_df payments_df defaults_df).

(** A row with its date columns moved by [k] days. *)
Definition shift_loan (k : Z) (r : Loans.row) : Loans.row :=
  {| Loans.loan_id := Loans.loan_id r;
     Loans.customer_id := Loans.customer_id r;
     Loans.institution_id := Loans.institution_id r;
     Loans.loan_amount := Loans.loan_amount r;
     Loans.loan_status := Loans.loan_status r;
     Loans.interest_rate := Loans.interest_rate r;
     Loans.loan_tenure_months := Loans.loan_tenure_months r;
     Loans.application_date := Loans.application_date r + k;
     Loans.disbursement_date := Loans.disbursement_date r + k;
     Loans.maturity_date := Loans.maturity_date r + k;
     Loans.emi_amount := Loans.emi_amount r;
     Loans.purpose_of_loan := Loans.purpose_of_loan r |}.

Definition shift_payment (k : Z) (r : Payments.row) : Payments.row :=
  {| Payments.payment_id := Payments.payment_id r;
     Payments.loan_id := Payments.loan_id r;
     Payments.payment_date := Payments.payment_date r + k;
     Payments.payment_amount := Payments.payment_amount r;
     Payments.payment_method := Payments.payment_method r;
     Payments.payment_status := Payments.payment_status r;
     Payments.late_fee := Payments.late_fee r;
     Payments.principal_component := Payments.principal_component r;
     Payments.interest_component := Payments.interest_component r;
     Payments.outstanding_balance := Payments.outstanding_balance r |}.

Definition shift_default (k : Z) (r : Defaults.row) : Defaults.row :=
  {| Defaults.default_id := Defaults.default_id r;
     Defaults.customer_id := Defaults.customer_id r;
     Defaults.loan_id := Defaults.loan_id r;
     Defaults.default_date := Defaults.default_date r + k;
     Defaults.default_amount := Defaults.default_amount r;
     Defaults.days_overdue := Defaults.days_overdue r;
     Defaults.collection_status := Defaults.collection_status r;
     Defaults.last_contact_date := Defaults.last_contact_date r + k;
     Defaults.contact_attempts := Defaults.contact_attempts r;
     Defaults.legal_notice_sent := Defaults.legal_notice_sent r;
     Defaults.recovery_amount := Defaults.recovery_amount r;
     Defaults.collection_agent_id := Defaults.collection_agent_id r |}.

(** The tables with the dates of each moved by the days its generator's
    clock reading moved. *)
Definition shift_tables (k_loans k_payments k_defaults : Z) (t : tables)
  : tables :=
  {| loans := fmap (M := list) (shift_loan k_loans) <$> loans t;
     payments := shift_payment k_payments <$> payments t;
     defaults_collections :=
       shift_default k_defaults <$> defaults_collections t |}.

End Run.

(** ** A scripted random source

    A generator whose state is the list of its future raw draws: a draw
    [k] makes [random()] return [(k mod 10^6) / 10^6] and [_randbelow(n)]
    return [k mod n]; an exhausted script draws 0.  It serves to run the
    generators on chosen draws. *)

Definition scripted_random (s : list Z) : Q * list Z :=
  match s with
  | [] => (0%Q, [])
  | k :: s' => ((k mod 1000000) # 1000000, s')
  end.

Definition scripted_randbelow (n : Z) (s : list Z) : Z * list Z :=
  match s with
  | [] => (0, [])
  | k :: s' => (k mod n, s')
  end.

Definition scripted : RandomSource.
Proof.
  refine {| rng := list Z;
            rng_random := scripted_random;
            rng_randbelow := scripted_randbelow |}.
  - intros [|k s]; cbn; [done|].
    pose proof (Z.mod_pos_bound k 1000000 eq_refl).
    unfold Qle, Qlt; cbn; lia.
  - intros n [|k s] Hn; cbn; [lia|]. by apply Z.mod_pos_bound.
Defined.

(** ** The size of the customer pools *)

Module Pools.

(** The number of customer ids the three pool loops of [create_loans]
    append for a target of [L] loans. *)
Definition pool_size (L : Z) : Z :=
  Loans.customers_with_1_loan L
  + 2 * (Loans.customers_with_2_loans L / 2)
  + 3 * (Loans.customers_with_3_loans L / 3).

End Pools.

(** ** The steps a run completes *)

Module PipelineRuns.
Import Pipeline.

(** The steps of a list that are run to completion: those before the
    first one that raises. *)
Fixpoint completed_prefix {table : Type} (env : @environment table)
    (steps : list (string * (exn + table))) : list (string * (exn + table)) :=
  match steps with
  | [] => []
  | s :: steps' =>
      match step_outcome env s with
      | inl _ => []
      | inr _ => s :: completed_prefix env steps'
      end
  end.

(** What [main] prints after the banner: the summary, or the error line
    and the trace of the first exception. *)
Fixpoint report {table : Type} (env : @environment table)
    (steps : list (string * (exn + table))) : list event :=
  match steps with
  | [] => [Completed]
  | s :: steps' =>
      match step_outcome env s with
      | inl e => [ErrorLine (exn_message e); Traceback e]
      | inr _ => report env steps'
      end
  end.

End PipelineRuns.

(** ** 8. The geographic demographics table *)

Module Geo.

Record row := mk_row {
  geo_id : Z;
  city_id : Z;
  population_total : Z;
  population_18_35 : Z;
  higher_education_enrollment : Z;
  average_household_income : Q;
  unemployment_rate : Q;
  literacy_rate : Q;
  number_of_colleges : Z
}.

(** The local variables of one iteration, before the roundings. *)
Record locals := mk_locals {
  v_city_id : Z;
  v_tier : string;
  v_pop_total : Z;
  v_avg_income : Q;
  v_unemployment : Q;
  v_literacy : Q;
  v_colleges : Z;
  v_pop_18_35 : Z;
  v_education_enrollment : Z
}.

Definition to_row (i : Z) (v : locals) : row :=
  {| geo_id := i;
     city_id := v_city_id v;
     population_total := v_pop_total v;
     population_18_35 := v_pop_18_35 v;
     higher_education_enrollment := v_education_enrollment v;
     average_household_income := round2 (v_avg_income v);
     unemployment_rate := round2 (v_unemployment v);
     literacy_rate := round2 (v_literacy v);
     number_of_colleges := v_colleges v |}.

Section Generator.
Context `{RandomSource}.

(** The body of [for i in range(1, OTHER_TABLE_RECORDS + 1)]: the city
    id, the tier (drawn on its own, not read from the city), the five
    figures of the [if]/[elif]/[else] on the tier and the two derived
    populations. *)
Definition geo_locals : Rand locals :=
  let! city_id := randint 1 (Z.of_nat (length INDIAN_CITIES)) in
  let! tier := choice ""%string ["Tier1"; "Tier2"; "Tier3"]%string in
  let! figures :=
    (if decide (tier = "Tier1"%string) then
       let! pop_total := randint 2000000 15000000 in
       let! avg_income := uniform 900000 1800000 in
       let! unemployment := uniform 2.5 5.5 in
       let! literacy := uniform 85.0 96.0 in
       let! colleges := randint 60 200 in
       ret (pop_total, avg_income, unemployment, literacy, colleges)
     else if decide (tier = "Tier2"%string) then
       let! pop_total := randint 400000 4000000 in
       let! avg_income := uniform 550000 1100000 in
       let! unemployment := uniform 3.5 7.5 in
       let! literacy := uniform 75.0 90.0 in
       let! colleges := randint 25 80 in
       ret (pop_total, avg_income, unemployment, literacy, colleges)
     else
       let! pop_total := randint 80000 1200000 in
       let! avg_income := uniform 350000 750000 in
       let! unemployment := uniform 4.5 12.0 in
       let! literacy := uniform 65.0 82.0 in
       let! colleges := randint 8 35 in
       ret (pop_total, avg_income, unemployment, literacy, colleges)) in
  let '(pop_total, avg_income, unemployment, literacy, colleges) :=
    figures in
  let! share := uniform 0.24 0.36 in
  let pop_18_35 := py_int (inject_Z pop_total * share) in
  let! enrolled := uniform 0.12 0.28 in
  let education_enrollment := py_int (inject_Z pop_18_35 * enrolled) in
  ret {| v_city_id := city_id;
         v_tier := tier;
         v_pop_total := pop_total;
         v_avg_income := avg_income;
         v_unemployment := unemployment;
         v_literacy := literacy;
         v_colleges := colleges;
         v_pop_18_35 := pop_18_35;
         v_education_enrollment := education_enrollment |}.

Fixpoint geo_rows (ids : list Z) (geo_data : list row) : Rand (list row) :=
  match ids with
  | [] => ret geo_data
  | i :: ids' =>
      let! v := geo_locals in
      geo_rows ids' (geo_data ++ [to_row i v])
  end.

Definition create_geographic_demographics : Rand (list row) :=
  geo_rows (py_range 1 (OTHER_TABLE_RECORDS + 1)) [].

End Generator.

(** The three bands of figures, one per tier. *)
Definition in_band (tier : string) (v : locals) : Prop :=
  if decide (tier = "Tier1"%string) then
    2000000 ≤ v_pop_total v ≤ 15000000 ∧
    (900000 <= v_avg_income v <= 1800000)%Q ∧
    (2.5 <= v_unemployment v <= 5.5)%Q ∧
    (85 <= v_literacy v <= 96)%Q ∧ 60 ≤ v_colleges v ≤ 200
  else if decide (tier = "Tier2"%string) then
    400000 ≤ v_pop_total v ≤ 4000000 ∧
    (550000 <= v_avg_income v <= 1100000)%Q ∧
    (3.5 <= v_unemployment v <= 7.5)%Q ∧
    (75 <= v_literacy v <= 90)%Q ∧ 25 ≤ v_colleges v ≤ 80
  else
    80000 ≤ v_pop_total v ≤ 1200000 ∧
    (350000 <= v_avg_income v <= 750000)%Q ∧
    (4.5 <= v_unemployment v <= 12)%Q ∧
    (65 <= v_literacy v <= 82)%Q ∧ 8 ≤ v_colleges v ≤ 35.

End Geo.

(** ** 9. The economic indicators table *)

Module Economic.

Record row := mk_row {
  indicator_id : Z;
  state_id : Z;
  quarter : string;
  gdp_growth_rate : Q;
  inflation_rate : Q;
  unemployment_rate : Q;
  education_spending_percent : Q;
  per_capita_income : Q;
  literacy_rate : Q
}.

(** The local variables of one iteration, before the roundings. *)
Record locals := mk_locals {
  v_state_id : Z;
  v_year : Z;
  v_quarter : string;
  v_quarter_str : string;
  v_region : string;
  v_gdp_growth : Q;
  v_inflation : Q;
  v_unemployment : Q;
  v_per_capita : Q;
  v_edu_spending : Q;
  v_literacy : Q
}.

Definition to_row (i : Z) (v : locals) : row :=
  {| indicator_id := i;
     state_id := v_state_id v;
     quarter := v_quarter_str v;
     gdp_growth_rate := round2 (v_gdp_growth v);
     inflation_rate := round2 (v_inflation v);
     unemployment_rate := round2 (v_unemployment v);
     education_spending_percent := round2 (v_edu_spending v);
     per_capita_income := round2 (v_per_capita v);
     literacy_rate := round2 (v_literacy v) |}.

(** [years = list(range(2019, 2025))] and the other choice lists. *)
Definition years : list Z := py_range 2019 2025.
Definition quarters : list string := ["Q1"; "Q2"; "Q3"; "Q4"]%string.
Definition regions : list string :=
  ["North"; "South"; "East"; "West"; "Central"; "Northeast"]%string.

(** [f"{year}-{quarter}"] *)
Definition quarter_str_of (year : Z) (quarter : string) : string :=
  (pretty year +:+ "-" +:+ quarter)%string.

Section Generator.
Context `{RandomSource}.

(** The body of [for i in range(1, OTHER_TABLE_RECORDS + 1)]. *)
Definition economic_locals : Rand locals :=
  let! state_id := randint 1 (Z.of_nat (length INDIAN_STATES)) in
  let! year := choice 0 years in
  let! quarter := choice ""%string quarters in
  let quarter_str := quarter_str_of year quarter in
  let! region := choice ""%string regions in
  let! indicators :=
    (if decide (region ∈ ["West"; "South"]%string) then
       let! gdp_growth := uniform 6.5 9.5 in
       let! inflation := uniform 3.0 6.2 in
       let! unemployment := uniform 2.0 5.5 in
       let! per_capita := uniform 220000 450000 in
       let! edu_spending := uniform 4.2 7.5 in
       let! literacy := uniform 82.0 96.0 in
       ret (gdp_growth, inflation, unemployment, per_capita, edu_spending,
            literacy)
     else if decide (region ∈ ["North"]%string) then
       let! gdp_growth := uniform 5.5 8.0 in
       let! inflation := uniform 3.2 6.8 in
       let! unemployment := uniform 2.8 6.5 in
       let! per_capita := uniform 190000 350000 in
       let! edu_spending := uniform 3.8 6.2 in
       let! literacy := uniform 76.0 92.0 in
       ret (gdp_growth, inflation, unemployment, per_capita, edu_spending,
            literacy)
     else
       let! gdp_growth := uniform 3.5 7.0 in
       let! inflation := uniform 3.8 7.8 in
       let! unemployment := uniform 3.5 11.0 in
       let! per_capita := uniform 130000 280000 in
       let! edu_spending := uniform 2.8 5.5 in
       let! literacy := uniform 62.0 85.0 in
       ret (gdp_growth, inflation, unemployment, per_capita, edu_spending,
            literacy)) in
  let '(gdp_growth, inflation, unemployment, per_capita, edu_spending,
        literacy) := indicators in
  (* COVID-19 impact *)
  let! impact :=
    (if decide (year = 2020) then
       let! g_factor := uniform 0.4 0.7 in
       let! u_factor := uniform 1.3 1.6 in
       ret ((gdp_growth * g_factor)%Q, (unemployment * u_factor)%Q)
     else if decide (year = 2021) then
       let! g_factor := uniform 0.7 0.9 in
       let! u_factor := uniform 1.1 1.3 in
       ret ((gdp_growth * g_factor)%Q, (unemployment * u_factor)%Q)
     else ret (gdp_growth, unemployment)) in
  let '(gdp_growth, unemployment) := impact in
  ret {| v_state_id := state_id;
         v_year := year;
         v_quarter := quarter;
         v_quarter_str := quarter_str;
         v_region := region;
         v_gdp_growth := gdp_growth;
         v_inflation := inflation;
         v_unemployment := unemployment;
         v_per_capita := per_capita;
         v_edu_spending := edu_spending;
         v_literacy := literacy |}.

Fixpoint economic_rows (ids : list Z) (economic_data : list row)
  : Rand (list row) :=
  match ids with
  | [] => ret economic_data
  | i :: ids' =>
      let! v := economic_locals in
      economic_rows ids' (economic_data ++ [to_row i v])
  end.

Definition create_economic_indicators : Rand (list row) :=
  economic_rows (py_range 1 (OTHER_TABLE_RECORDS + 1)) [].

End Generator.

(** The three bands of indicators, one per group of regions; [gdp_growth]
    and [unemployment] are the values before the COVID-19 adjustment. *)
Definition in_band (region : string) (gdp_growth unemployment : Q)
    (v : locals) : Prop :=
  if decide (region ∈ ["West"; "South"]%string) then
    (6.5 <= gdp_growth <= 9.5)%Q ∧ (3 <= v_inflation v <= 6.2)%Q ∧
    (2 <= unemployment <= 5.5)%Q ∧
    (220000 <= v_per_capita v <= 450000)%Q ∧
    (4.2 <= v_edu_spending v <= 7.5)%Q ∧ (82 <= v_literacy v <= 96)%Q
  else if decide (region ∈ ["North"]%string) then
    (5.5 <= gdp_growth <= 8)%Q ∧ (3.2 <= v_inflation v <= 6.8)%Q ∧
    (2.8 <= unemployment <= 6.5)%Q ∧
    (190000 <= v_per_capita v <= 350000)%Q ∧
    (3.8 <= v_edu_spending v <= 6.2)%Q ∧ (76 <= v_literacy v <= 92)%Q
  else
    (3.5 <= gdp_growth <= 7)%Q ∧ (3.8 <= v_inflation v <= 7.8)%Q ∧
    (3.5 <= unemployment <= 11)%Q ∧
    (130000 <= v_per_capita v <= 280000)%Q ∧
    (2.8 <= v_edu_spending v <= 5.5)%Q ∧ (62 <= v_literacy v <= 85)%Q.

(** The factors of the COVID-19 adjustment of a year. *)
Definition covid_factors (year : Z) (g_factor u_factor : Q) : Prop :=
  if decide (year = 2020) then
    (0.4 <= g_factor <= 0.7)%Q ∧ (1.3 <= u_factor <= 1.6)%Q
  else if decide (year = 2021) then
    (0.7 <= g_factor <= 0.9)%Q ∧ (1.1 <= u_factor <= 1.3)%Q
  else (g_factor == 1)%Q ∧ (u_factor == 1)%Q.

End Economic.

(** ** Sampling rows of a DataFrame

    [df.sample(n=..., replace=True, weights=...)] is pandas code driven by
    numpy's global generator, which the script seeds on its own
    ([np.random.seed(42)]); it is a second source of randomness, with its
    own state.  What the generators rely on is that, for a non-empty frame
    with one positive weight per row, the sample has [n] rows and each is a
    row of the frame; [None] stands for the [ValueError] pandas raises on
    arguments it rejects. *)

Class FrameSampler := {
  np_rng : Type;
  df_sample : forall {A : Type},
    list A -> Z -> list Q -> np_rng -> option (list A) * np_rng;
  df_sample_rows :
    forall (A : Type) (frame : list A) (n : Z) (weights : list Q) s,
      frame <> [] -> 0 <= n -> length weights = length frame ->
      Forall (fun w => (0 < w)%Q) weights ->
      exists rows,
        fst (df_sample frame n weights s) = Some rows /\
        Z.of_nat (length rows) = n /\
        Forall (fun r => r ∈ frame) rows
}.

(** What a generator that samples cities can raise. *)
Inductive error :=
| KeyError (key : string)   (* a dict has no such key *)
| ValueError.               (* raised by pandas or by [datetime] *)

(** [[tier_weights[city['tier_classification']] for _, city in
    city_df.iterrows()]]: the weight of every city, or the [KeyError] of
    the first city whose tier is not a key. *)
Fixpoint city_weights_of (tier_weights : gmap string Q)
    (city_df : list DimCity.row) : error + list Q :=
  match city_df with
  | [] => inr []
  | city :: city_df' =>
      match tier_weights !! DimCity.tier_classification city with
      | None => inl (KeyError (DimCity.tier_classification city))
      | Some w =>
          match city_weights_of tier_weights city_df' with
          | inl e => inl e
          | inr ws => inr (w :: ws)
          end
      end
  end.

(** ** 4. The institutions table *)

Module Institutions.

Record row := mk_row {
  institution_id : Z;
  institution_name : string;
  city_id : Z;
  institution_type : string;
  establishment_year : Z;
  total_students : Z;
  average_course_fee : Q;
  placement_rate : option Q;      (* [None] is Python's [None] *)
  accreditation_status : string
}.

Definition institution_types : list string :=
  ["University"; "College"; "Institute"; "Academy"]%string.
Definition prefixes : list string :=
  ["National"; "Indian"; "Government"; "State"; "Regional"; "Central"]%string.
Definition specializations : list string :=
  ["Engineering"; "Medical"; "Management"; "Arts & Science"; "Technology";
   "Commerce"; "Law"]%string.
Definition accreditations : list string :=
  ["NAAC A+"; "NAAC A"; "NAAC B+"; "NAAC B"; "NBA Accredited";
   "UGC Recognized"]%string.

(** [tier_weights = {'Tier1': 0.5, 'Tier2': 0.3, 'Tier3': 0.2}] *)
Definition tier_weights : gmap string Q :=
  <["Tier1"%string := 0.5%Q]>
    (<["Tier2"%string := 0.3%Q]> (<["Tier3"%string := 0.2%Q]> ∅)).

(** [f"{prefix} {specialization} {inst_type}, {city_name}"] *)
Definition name_of (prefix specialization inst_type city_name : string)
  : string :=
  (prefix +:+ " " +:+ specialization +:+ " " +:+ inst_type +:+ ", "
   +:+ city_name)%string.

Section Generator.
Context `{RandomSource}.

(** The body of the inner loop for the sampled [city]. *)
Definition institution_row (institution_id : Z) (city : DimCity.row)
  : Rand row :=
  let city_id := DimCity.city_id city in
  let city_name := DimCity.city_name city in
  let tier := DimCity.tier_classification city in
  let! prefix := choice ""%string prefixes in
  let! specialization := choice ""%string specializations in
  let! inst_type := choice ""%string institution_types in
  let name := name_of prefix specialization inst_type city_name in
  let! parameters :=
    (if decide (tier = "Tier1"%string) then
       let! students := randint 8000 30000 in
       let! fees := uniform 250000 1000000 in
       let! placement := uniform 75 95 in
       let! establishment := randint 1950 2010 in
       ret (students, fees, placement, establishment)
     else if decide (tier = "Tier2"%string) then
       let! students := randint 3000 15000 in
       let! fees := uniform 150000 500000 in
       let! placement := uniform 60 85 in
       let! establishment := randint 1960 2015 in
       ret (students, fees, placement, establishment)
     else
       let! students := randint 800 8000 in
       let! fees := uniform 75000 300000 in
       let! placement := uniform 40 75 in
       let! establishment := randint 1970 2020 in
       ret (students, fees, placement, establishment)) in
  let '(students, fees, placement, establishment) := parameters in
  let weights : list Q :=
    if decide (tier = "Tier1"%string) then [15; 25; 20; 15; 15; 10]%Q
    else [5; 15; 25; 20; 15; 20]%Q in
  let! u := random in
  let placement_rate :=
    if Qlt_le_dec 0.05 u then Some (round2 placement) else None in
  let! accreditation := choices1 ""%string accreditations weights in
  ret {| institution_id := institution_id;
         institution_name := name;
         city_id := city_id;
         institution_type := inst_type;
         establishment_year := establishment;
         total_students := students;
         average_course_fee := round2 fees;
         placement_rate := placement_rate;
         accreditation_status := accreditation |}.

(** [for i, (_, city) in enumerate(batch_cities.iterrows())] *)
Fixpoint institutions_rows (batch_start : Z)
    (batch_cities : list (Z * DimCity.row)) (institutions_data : list row)
  : Rand (list row) :=
  match batch_cities with
  | [] => ret institutions_data
  | (i, city) :: batch_cities' =>
      let institution_id := batch_start + i + 1 in
      let! r := institution_row institution_id city in
      institutions_rows batch_start batch_cities' (institutions_data ++ [r])
  end.

Context `{FrameSampler}.

(** [for batch_start in range(0, total, BATCH_SIZE)], for a target of
    [total] rows. *)
Fixpoint institutions_batches (total : Z) (city_df : list DimCity.row)
    (city_weights : list Q) (starts : list Z) (institutions_data : list row)
    (s : np_rng) : Rand ((error + list row) * np_rng) :=
  match starts with
  | [] => ret (inr institutions_data, s)
  | batch_start :: starts' =>
      let batch_end := Z.min (batch_start + BATCH_SIZE) total in
      let batch_size := batch_end - batch_start in
      match df_sample city_df batch_size city_weights s with
      | (None, s') => ret (inl ValueError, s')
      | (Some batch_cities, s') =>
          let! institutions_data' :=
            institutions_rows batch_start (enumerate 0 batch_cities)
              institutions_data in
          institutions_batches total city_df city_weights starts'
            institutions_data' s'
      end
  end.

(** [create_institutions] with the row target as a parameter; it returns
    the generated DataFrame or what it raised. *)
Definition create_institutions_with (total : Z) (city_df : list DimCity.row)
    (s : np_rng) : Rand ((error + list row) * np_rng) :=
  match city_weights_of tier_weights city_df with
  | inl e => ret (inl e, s)
  | inr city_weights =>
      institutions_batches total city_df city_weights
        (py_range_step 0 total BATCH_SIZE) [] s
  end.

Definition create_institutions (city_df : list DimCity.row) (s : np_rng)
  : Rand ((error + list row) * np_rng) :=
  create_institutions_with OTHER_TABLE_RECORDS city_df s.

End Generator.

(** The band of parameters of a tier. *)
Definition in_band (tier : string) (r : row) : Prop :=
  if decide (tier = "Tier1"%string) then
    8000 ≤ total_students r ≤ 30000 ∧
    (250000 <= average_course_fee r <= 1000000)%Q ∧
    (forall p, placement_rate r = Some p → (75 <= p <= 95)%Q) ∧
    1950 ≤ establishment_year r ≤ 2010
  else if decide (tier = "Tier2"%string) then
    3000 ≤ total_students r ≤ 15000 ∧
    (150000 <= average_course_fee r <= 500000)%Q ∧
    (forall p, placement_rate r = Some p → (60 <= p <= 85)%Q) ∧
    1960 ≤ establishment_year r ≤ 2015
  else
    800 ≤ total_students r ≤ 8000 ∧
    (75000 <= average_course_fee r <= 300000)%Q ∧
    (forall p, placement_rate r = Some p → (40 <= p <= 75)%Q) ∧
    1970 ≤ establishment_year r ≤ 2020.

(** What the loop body stores for a sampled [city]. *)
Definition row_of (city : DimCity.row) (r : row) : Prop :=
  city_id r = DimCity.city_id city ∧
  in_band (DimCity.tier_classification city) r ∧
  institution_type r ∈ institution_types ∧
  accreditation_status r ∈ accreditations ∧
  exists prefix specialization,
    prefix ∈ prefixes ∧ specialization ∈ specializations ∧
    institution_name r
    = name_of prefix specialization (institution_type r)
        (DimCity.city_name city).

End Institutions.

(** ** A sampler that walks the frame

    Its state is a position; a sample of [n] rows takes the rows at the
    next [n] positions, around the frame.  It serves to run the generators
    on a chosen sample. *)

Definition cyclic_sample {A : Type} (frame : list A) (n : Z)
    (weights : list Q) (s : Z) : option (list A) * Z :=
  match frame with
  | [] => (None, s)
  | d :: _ =>
      (Some ((fun k => nth (Z.to_nat ((s + k) `mod` Z.of_nat (length frame)))
                         frame d) <$> seqZ 0 n),
       s + n)
  end.

Definition cyclic : FrameSampler.
Proof.
  refine {| np_rng := Z; df_sample := @cyclic_sample |}.
  intros A [|d frame] n weights s Hne Hn _ _; [done|].
  eexists. split; [reflexivity|]. split.
  - rewrite length_fmap, length_seqZ. lia.
  - apply Forall_fmap, Forall_forall. intros k _. cbn beta.
    apply list_elem_of_In, nth_In.
    pose proof (Z.mod_pos_bound (s + k) (Z.of_nat (length (d :: frame)))).
    cbn [length] in *. lia.
Defined.

(** ** 3. The customers table *)

(** Faker's providers: they draw from Faker's own generator (seeded by
    [Faker.seed(42)]), not from the [random] module's, so they have a
    state of their own.  Nothing is assumed of the strings they return. *)
Class Faker := {
  fake_state : Type;
  first_name_male : fake_state -> string * fake_state;
  first_name_female : fake_state -> string * fake_state;
  last_name : fake_state -> string * fake_state;
  address : fake_state -> string * fake_state
}.

(** [str.lower], of which nothing is assumed either. *)
Class StrLower := lower : string -> string.

(** [min(a, b)]: Python returns the first argument unless the second is
    strictly smaller. *)
Definition py_min (a b : Q) : Q := if Qlt_le_dec b a then b else a.

(** A [datetime.date], by its fields. *)
Record date := mk_date { year : Z; month : Z; day : Z }.

Definition is_leap (y : Z) : bool :=
  (y mod 4 =? 0) && (negb (y mod 100 =? 0) || (y mod 400 =? 0)).

Definition days_in_month (y m : Z) : Z :=
  if m =? 2 then (if is_leap y then 29 else 28)
  else if (m =? 4) || (m =? 6) || (m =? 9) || (m =? 11) then 30
  else 31.

(** [datetime(year, month, day).date()]: a [ValueError] outside the
    years 1..9999, the months 1..12 or the days of the month. *)
Definition py_date (y m d : Z) : error + date :=
  if (1 <=? y) && (y <=? 9999) && (1 <=? m) && (m <=? 12)
     && (1 <=? d) && (d <=? days_in_month y m)
  then inr (mk_date y m d) else inl ValueError.

Module Customers.

Record row := mk_row {
  customer_id : Z;
  full_name : string;
  phone_number : string;
  email_address : string;
  city_id : Z;
  current_address : string;
  annual_income : Q;
  cibil_score : Z;
  employment_type : string;
  employer_name : string;
  date_of_birth : date;
  gender : string;
  education_level : string
}.

(** [tier_weights = {'Tier1': 0.45, 'Tier2': 0.35, 'Tier3': 0.20}] *)
Definition tier_weights : gmap string Q :=
  <["Tier1"%string := 0.45%Q]>
    (<["Tier2"%string := 0.35%Q]> (<["Tier3"%string := 0.20%Q]> ∅)).

Definition employment_types : list string :=
  ["Private Employee"; "Government Employee"; "Self Employed";
   "Business Owner"; "Student"]%string.
Definition employment_weights : list Q := [45; 20; 20; 10; 5]%Q.

Definition education_levels : list string :=
  ["Bachelors"; "Masters"; "PhD"; "Diploma"; "Higher Secondary"]%string.
Definition education_weights : list Q := [50; 30; 5; 10; 5]%Q.

(** The [employers] dict. *)
Definition employers : gmap string (list string) :=
  <["Government Employee"%string :=
      ["Ministry of Education"; "State Government"; "Railway";
       "PSU Bank"]%string]>
  (<["Private Employee"%string :=
      ["TCS"; "Infosys"; "Wipro"; "Accenture"; "IBM"; "Microsoft"]%string]>
  (<["Self Employed"%string :=
      ["Self Employed"; "Freelance"; "Consultant"]%string]>
  (<["Business Owner"%string :=
      ["Own Business"; "Family Business"; "Trading Co"]%string]>
  (<["Student"%string :=
      ["Not Applicable"; "Part-time"; "Internship"]%string]> ∅)))).

(** The [multipliers] dict of one iteration, from its five draws. *)
Definition multipliers_of (government private business self student : Q)
  : gmap string Q :=
  <["Government Employee"%string := government]>
  (<["Private Employee"%string := private]>
  (<["Business Owner"%string := business]>
  (<["Self Employed"%string := self]>
  (<["Student"%string := student]> ∅)))).

(** [min(900, max(300, cibil_base + (50 if annual_income > 1000000 else
    0)))] *)
Definition cibil_of (cibil_base annual_income : Q) : Q :=
  py_min 900
    (py_max 300
       (cibil_base + (if Qlt_le_dec 1000000 annual_income then 50 else 0))).

Section Generator.
Context `{RandomSource} `{Faker} `{StrLower}.

(** The generator's computations: they draw from the [random] module and
    from Faker, and may raise. *)
Definition Gen (A : Type) : Type :=
  fake_state -> Rand ((error + A) * fake_state).

Definition gret {A} (a : A) : Gen A := fun fk => ret (inr a, fk).

Definition graise {A} (e : error) : Gen A := fun fk => ret (inl e, fk).

Definition gbind {A B} (c : Gen A) (k : A -> Gen B) : Gen B :=
  fun fk =>
    let! r := c fk in
    match r with
    | (inl e, fk') => ret (inl e, fk')
    | (inr a, fk') => k a fk'
    end.

(** A draw from the [random] module. *)
Definition draw {A} (c : Rand A) : Gen A :=
  fun fk => let! a := c in ret (inr a, fk).

(** A call of a Faker provider. *)
Definition fake (provider : fake_state -> string * fake_state)
  : Gen string :=
  fun fk => ret (inr (fst (provider fk)), snd (provider fk)).

(** [d[key]] *)
Definition getitem {A} (d : gmap string A) (key : string) : Gen A :=
  match d !! key with
  | Some a => gret a
  | None => graise (KeyError key)
  end.

Definition of_result {A} (r : error + A) : Gen A :=
  match r with
  | inl e => graise e
  | inr a => gret a
  end.

End Generator.

Notation "'let*' x ':=' c 'in' k" := (gbind c (fun x => k))
  (at level 10, x name, c at level 100, k at level 200, only parsing).

Section Generator.
Context `{RandomSource} `{Faker} `{StrLower}.

(** The body of the inner loop for the sampled [city]; [now_year] is
    what [datetime.now().year] returns at this row. *)
Definition customer_row (now_year customer_id : Z) (city : DimCity.row)
  : Gen row :=
  let city_id := DimCity.city_id city in
  let tier := DimCity.tier_classification city in
  let* gender := draw (choice ""%string ["Male"; "Female"]%string) in
  let* first_name :=
    (if decide (gender = "Male"%string) then fake first_name_male
     else fake first_name_female) in
  let* last_name := fake last_name in
  let full_name := (first_name +:+ " " +:+ last_name)%string in
  (* Age for education loans (18-30) *)
  let* age := draw (randint 18 30) in
  let birth_year := now_year - age in
  let* birth_month := draw (randint 1 12) in
  let* birth_day := draw (randint 1 28) in
  let* date_of_birth :=
    of_result (py_date birth_year birth_month birth_day) in
  let* employment_type :=
    draw (choices1 ""%string employment_types employment_weights) in
  (* Income based on city tier *)
  let* base_income :=
    draw (if decide (tier = "Tier1"%string) then uniform 600000 1800000
          else if decide (tier = "Tier2"%string) then uniform 400000 1200000
          else uniform 250000 800000) in
  (* Employment multipliers *)
  let* government := draw (uniform 0.8 1.3) in
  let* private := draw (uniform 0.6 1.6) in
  let* business := draw (uniform 1.0 3.0) in
  let* self := draw (uniform 0.4 2.0) in
  let* student := draw (uniform 0.1 0.4) in
  let multipliers :=
    multipliers_of government private business self student in
  let* multiplier := getitem multipliers employment_type in
  let annual_income := (base_income * multiplier)%Q in
  (* CIBIL score *)
  let* cibil_base :=
    draw (if decide (employment_type = "Government Employee"%string)
          then uniform 650 850
          else if decide (employment_type = "Private Employee"%string)
          then uniform 600 800
          else uniform 550 750) in
  let cibil_score := cibil_of cibil_base annual_income in
  (* Contact details *)
  let* phone_digits := draw (randint 7000000000 9999999999) in
  let phone := ("+91" +:+ pretty phone_digits)%string in
  let email :=
    (lower first_name +:+ "." +:+ lower last_name +:+ pretty customer_id
     +:+ "@gmail.com")%string in
  (* the values of the appended dict, in the order of its keys *)
  let* current_address := fake address in
  let* employer_options := getitem employers employment_type in
  let* employer_name := draw (choice ""%string employer_options) in
  let* education_level :=
    draw (choices1 ""%string education_levels education_weights) in
  gret {| customer_id := customer_id;
          full_name := full_name;
          phone_number := phone;
          email_address := email;
          city_id := city_id;
          current_address := current_address;
          annual_income := round2 annual_income;
          cibil_score := py_int cibil_score;
          employment_type := employment_type;
          employer_name := employer_name;
          date_of_birth := date_of_birth;
          gender := gender;
          education_level := education_level |}.

(** [for i, (_, city) in enumerate(batch_cities.iterrows())].  The loop
    reads the clock at every row: [year_at customer_id] is the year it
    reads at the row of that customer. *)
Fixpoint customers_rows_at (year_at : Z -> Z) (batch_start : Z)
    (batch_cities : list (Z * DimCity.row)) (customers_data : list row)
  : Gen (list row) :=
  match batch_cities with
  | [] => gret customers_data
  | (i, city) :: batch_cities' =>
      let customer_id := batch_start + i + 1 in
      let* r := customer_row (year_at customer_id) customer_id city in
      customers_rows_at year_at batch_start batch_cities'
        (customers_data ++ [r])
  end.

(** The loop in a run that stays within the calendar year [now_year]. *)
Definition customers_rows (now_year batch_start : Z)
    (batch_cities : list (Z * DimCity.row)) (customers_data : list row)
  : Gen (list row) :=
  customers_rows_at (fun _ => now_year) batch_start batch_cities
    customers_data.

Context `{FrameSampler}.

(** [for batch_start in range(0, total, BATCH_SIZE)], for a target of
    [total] rows; the state of numpy's generator is returned with the
    rows. *)
Fixpoint customers_batches_at (year_at : Z -> Z) (total : Z)
    (city_df : list DimCity.row) (city_weights : list Q) (starts : list Z)
    (customers_data : list row) (s : np_rng) : Gen (list row * np_rng) :=
  match starts with
  | [] => gret (customers_data, s)
  | batch_start :: starts' =>
      let batch_end := Z.min (batch_start + BATCH_SIZE) total in
      let batch_size := batch_end - batch_start in
      match df_sample city_df batch_size city_weights s with
      | (None, s') => graise ValueError
      | (Some batch_cities, s') =>
          let* customers_data' :=
            customers_rows_at year_at batch_start
              (enumerate 0 batch_cities) customers_data in
          customers_batches_at year_at total city_df city_weights starts'
            customers_data' s'
      end
  end.

Definition customers_batches (now_year total : Z)
    (city_df : list DimCity.row) (city_weights : list Q) (starts : list Z)
    (customers_data : list row) (s : np_rng) : Gen (list row * np_rng) :=
  customers_batches_at (fun _ => now_year) total city_df city_weights
    starts customers_data s.

(** [create_customers] with the row target as a parameter and the clock
    read at every row. *)
Definition create_customers_at (year_at : Z -> Z) (total : Z)
    (city_df : list DimCity.row) (s : np_rng) : Gen (list row * np_rng) :=
  match city_weights_of tier_weights city_df with
  | inl e => graise e
  | inr city_weights =>
      customers_batches_at year_at total city_df city_weights
        (py_range_step 0 total BATCH_SIZE) [] s
  end.

(** [create_customers] with the row target as a parameter, in a run that
    stays within the calendar year [now_year]. *)
Definition create_customers_with (now_year total : Z)
    (city_df : list DimCity.row) (s : np_rng) : Gen (list row * np_rng) :=
  create_customers_at (fun _ => now_year) total city_df s.

Definition create_customers (now_year : Z) (city_df : list DimCity.row)
    (s : np_rng) : Gen (list row * np_rng) :=
  create_customers_with now_year CUSTOMER_RECORDS city_df s.

End Generator.

(** What the loop body stores for a sampled [city] in the year
    [now_year]. *)
Definition row_of `{StrLower} (now_year : Z) (city : DimCity.row) (r : row)
  : Prop :=
  city_id r = DimCity.city_id city ∧
  gender r ∈ ["Male"; "Female"]%string ∧
  employment_type r ∈ employment_types ∧
  education_level r ∈ education_levels ∧
  (exists options,
     employers !! employment_type r = Some options ∧
     employer_name r ∈ options) ∧
  (exists first_name last_name,
     full_name r = (first_name +:+ " " +:+ last_name)%string ∧
     email_address r
     = (lower first_name +:+ "." +:+ lower last_name
        +:+ pretty (customer_id r) +:+ "@gmail.com")%string) ∧
  (exists digits,
     7000000000 ≤ digits ≤ 9999999999 ∧
     phone_number r = ("+91" +:+ pretty digits)%string) ∧
  (now_year - 30 ≤ year (date_of_birth r) ≤ now_year - 18 ∧
   1 ≤ month (date_of_birth r) ≤ 12 ∧ 1 ≤ day (date_of_birth r) ≤ 28) ∧
  550 ≤ cibil_score r ≤ 900 ∧
  (25000 <= annual_income r <= 5400000)%Q ∧
  (DimCity.tier_classification city ≠ "Tier1"%string →
   (annual_income r <= 3600000)%Q) ∧
  (employment_type r = "Student"%string →
   cibil_score r ≤ 750 ∧ (annual_income r <= 720000)%Q) ∧
  (employment_type r = "Government Employee"%string →
   650 ≤ cibil_score r ∧ (annual_income r <= 2340000)%Q).

End Customers.

(** A Faker whose state counts its calls and whose strings are fixed, and
    the lower-casing of ASCII letters; they serve to run the customer
    generator. *)
Definition counting_faker : Faker :=
  {| fake_state := nat;
     first_name_male := fun n => ("Arjun"%string, S n);
     first_name_female := fun n => ("Meera"%string, S n);
     last_name := fun n => ("Nair"%string, S n);
     address := fun n => ("12 MG Road"%string, S n) |}.

Definition ascii_lower (c : Ascii.ascii) : Ascii.ascii :=
  let n := Ascii.nat_of_ascii c in
  if (65 <=? n)%nat && (n <=? 90)%nat then Ascii.ascii_of_nat (n + 32)
  else c.

Fixpoint string_lower (s : string) : string :=
  match s with
  | EmptyString => EmptyString
  | String c s' => String (ascii_lower c) (string_lower s')
  end.

Definition ascii_str_lower : StrLower := string_lower.

(** ** A run of the whole pipeline

    The nine generators in the order of [main], sharing the three seeded
    generators of the script: the [random] module (customers to economic
    indicators), numpy (the two city samples) and Faker (customers).  The
    clock is the other input of a run: [create_customers] reads the year
    at every row, and the three transaction generators read the date once
    each. *)

Module FullRun.

(** The readings of the clock during a run. *)
Record clock := mk_clock {
  customers_year : Z -> Z;   (* [datetime.now().year] at the row of a customer id *)
  loans_date : Z;            (* [datetime.now().date()] in [create_loans] *)
  payments_date : Z;         (* ... in [create_payments] *)
  defaults_date : Z          (* ... in [create_defaults_collections] *)
}.

(** The nine DataFrames of a run. *)
Record output := mk_output {
  dim_state : list DimState.row;
  dim_city : list DimCity.row;
  customers : list Customers.row;
  institutions : list Institutions.row;
  loans : list Loans.row;
  payments : list Payments.row;
  defaults_collections : list Defaults.row;
  geographic_demographics : list Geo.row;
  economic_indicators : list Economic.row
}.

(** A customer row with its birth year moved by [k] years. *)
Definition shift_birth (k : Z) (r : Customers.row) : Customers.row :=
  {| Customers.customer_id := Customers.customer_id r;
     Customers.full_name := Customers.full_name r;
     Customers.phone_number := Customers.phone_number r;
     Customers.email_address := Customers.email_address r;
     Customers.city_id := Customers.city_id r;
     Customers.current_address := Customers.current_address r;
     Customers.annual_income := Customers.annual_income r;
     Customers.cibil_score := Customers.cibil_score r;
     Customers.employment_type := Customers.employment_type r;
     Customers.employer_name := Customers.employer_name r;
     Customers.date_of_birth :=
       mk_date (year (Customers.date_of_birth r) + k)
               (month (Customers.date_of_birth r))
               (day (Customers.date_of_birth r));
     Customers.gender := Customers.gender r;
     Customers.education_level := Customers.education_level r |}.

(** The customers of a run whose clock read [year'] where another run's
    read [year]. *)
Definition shift_customers (year year' : Z -> Z)
    (rows : list Customers.row) : list Customers.row :=
  (fun r => shift_birth (year' (Customers.customer_id r)
                         - year (Customers.customer_id r)) r) <$> rows.

Section Sources.
Context `{RandomSource} `{Faker} `{StrLower} `{FrameSampler}.

(** The states of the three seeded generators. *)
Definition sources : Type := rng * np_rng * fake_state.

(** What a run of a customers computation becomes when the clock reads
    [year'] instead of [year]: the same outcome, with the birth years
    moved. *)
Definition shifted (year year' : Z -> Z)
    (run : (error + list Customers.row * np_rng) * fake_state * rng)
  : (error + list Customers.row * np_rng) * fake_state * rng :=
  match run with
  | (inr (rows, s'), fk', g') =>
      (inr (shift_customers year year' rows, s'), fk', g')
  | (inl e, fk', g') => (inl e, fk', g')
  end.

(** The body of the [try] block of [main], as far as the DataFrames and
    the generators go: [None] if a step raises, else the nine DataFrames
    and the states the generators are left in. *)
Definition pipeline (c : clock) (src : sources) : option (output * sources) :=
  let '(g, s, fk) := src in
  let state_df := DimState.create_dim_state in
  match DimCity.create_dim_city state_df with
  | None => None
  | Some city_df =>
  match Customers.create_customers_at (customers_year c) CUSTOMER_RECORDS
          city_df s fk g with
  | (inl _, _, _) => None
  | (inr (customers_df, s1), fk1, g1) =>
  match Institutions.create_institutions city_df s1 g1 with
  | (inl _, _, _) => None
  | (inr institutions_df, s2, g2) =>
  match Loans.create_loans (loans_date c) g2 with
  | (None, _) => None
  | (Some loans_df, g3) =>
  let (payments_df, g4) := Payments.create_payments (payments_date c) g3 in
  let (defaults_df, g5) :=
    Defaults.create_defaults_collections (defaults_date c) g4 in
  let (geo_df, g6) := Geo.create_geographic_demographics g5 in
  let (economic_df, g7) := Economic.create_economic_indicators g6 in
  Some (mk_output state_df city_df customers_df institutions_df loans_df
          payments_df defaults_df geo_df economic_df,
        (g7, s2, fk1))
  end end end end.

End Sources.

End FullRun.

(** * Properties *)

(** ** Rounding *)

(** Push [inject_Z] through sums and hand the goal to [lra]. *)
Ltac lraZ :=
  rewrite ?inject_Z_plus in *;
  change (inject_Z 1) with 1%Q in *;
  lra.

(** Turn a hypothesis on [?=] into the order it stands for. *)
Ltac qcompare H :=
  first [ apply (proj2 (Qeq_alt _ _)) in H
        | apply (proj2 (Qlt_alt _ _)) in H
        | apply (proj2 (Qgt_alt _ _)) in H ].

Section Rounding.
Local Open Scope Q_scope.

Lemma Qdiv_100 a : a / 100 == a * (1 # 100).
Proof. field. Qed.

Lemma round_half_even_cases x :
  round_half_even x = Qfloor x ∨ round_half_even x = (Qfloor x + 1)%Z.
Proof.
  unfold round_half_even.
  destruct (x - inject_Z (Qfloor x) ?= 1 # 2); [destruct (Z.even _)|..]; auto.
Qed.

Lemma round_half_even_lower x : x - (1 # 2) <= inject_Z (round_half_even x).
Proof.
  pose proof (Qfloor_le x) as Hlo. pose proof (Qlt_floor x) as Hhi.
  unfold round_half_even.
  destruct (x - inject_Z (Qfloor x) ?= 1 # 2) eqn:Hc.
  - qcompare Hc. destruct (Z.even _); lraZ.
  - qcompare Hc. lraZ.
  - lraZ.
Qed.

Lemma round_half_even_upper x : inject_Z (round_half_even x) <= x + (1 # 2).
Proof.
  pose proof (Qfloor_le x) as Hlo. pose proof (Qlt_floor x) as Hhi.
  unfold round_half_even.
  destruct (x - inject_Z (Qfloor x) ?= 1 # 2) eqn:Hc.
  - qcompare Hc. destruct (Z.even _); lraZ.
  - lraZ.
  - qcompare Hc. lraZ.
Qed.

Lemma round_half_even_proper x y :
  x == y -> round_half_even x = round_half_even y.
Proof.
  intros E. unfold round_half_even.
  assert (Qfloor x = Qfloor y) as -> by (by rewrite E).
  assert ((x - inject_Z (Qfloor y) ?= 1 # 2)
          = (y - inject_Z (Qfloor y) ?= 1 # 2)) as ->; [|done].
  by rewrite E.
Qed.

Lemma round_half_even_mono x y :
  x <= y -> (round_half_even x <= round_half_even y)%Z.
Proof.
  intros Hxy.
  pose proof (Qfloor_resp_le _ _ Hxy) as Hfl.
  destruct (Z.eq_dec (Qfloor x) (Qfloor y)) as [E|NE].
  - unfold round_half_even. rewrite E.
    destruct (x - inject_Z (Qfloor y) ?= 1 # 2) eqn:Hx;
      destruct (y - inject_Z (Qfloor y) ?= 1 # 2) eqn:Hy;
      try destruct (Z.even (Qfloor y)); try lia;
      qcompare Hx; qcompare Hy; lra.
  - destruct (round_half_even_cases x) as [-> | ->];
      destruct (round_half_even_cases y) as [-> | ->]; lia.
Qed.

Lemma round_half_even_inject (z : Z) : round_half_even (inject_Z z) = z.
Proof.
  unfold round_half_even. rewrite Qfloor_Z.
  assert ((inject_Z z - inject_Z z ?= 1 # 2) = Lt) as ->; [|done].
  apply (proj1 (Qlt_alt _ _)). lra.
Qed.

Lemma round2_mono x y : x <= y -> round2 x <= round2 y.
Proof.
  intros Hxy. unfold round2.
  assert (inject_Z (round_half_even (x * 100))
          <= inject_Z (round_half_even (y * 100))).
  { rewrite <- Zle_Qle. apply round_half_even_mono. lra. }
  rewrite !Qdiv_100. lra.
Qed.

Lemma round2_error x : Qabs (round2 x - x) <= 1 # 200.
Proof.
  pose proof (round_half_even_lower (x * 100)).
  pose proof (round_half_even_upper (x * 100)).
  unfold round2. rewrite Qdiv_100. apply Qabs_Qle_condition. split; lra.
Qed.

Lemma round2_proper x y : x == y -> round2 x == round2 y.
Proof.
  intros E. unfold round2.
  rewrite (round_half_even_proper (x * 100) (y * 100)); [done|].
  by rewrite E.
Qed.

Lemma round2_inject (z : Z) : round2 (inject_Z z) == inject_Z z.
Proof.
  unfold round2.
  rewrite (round_half_even_proper _ (inject_Z (z * 100))).
  - rewrite round_half_even_inject, inject_Z_mult. field.
  - rewrite inject_Z_mult. reflexivity.
Qed.

End Rounding.

(** ** The random source: ranges of the derived draws *)

Section RandomFacts.
Context `{RandomSource}.

Lemma bind_run {A B} (c : Rand A) (k : A -> Rand B) g :
  bind c k g = k (c g).1 (c g).2.
Proof. unfold bind. by destruct (c g). Qed.

Lemma randint_range a b g : a ≤ b → a ≤ (randint a b g).1 ≤ b.
Proof.
  intros Hab. unfold randint. rewrite bind_run. simpl.
  pose proof (rng_randbelow_range (b - a + 1) g). lia.
Qed.

Lemma random_range g : (0 <= (random g).1 < 1)%Q.
Proof. apply rng_random_range. Qed.

Lemma uniform_range a b g :
  (a <= b)%Q → (a <= (uniform a b g).1 <= b)%Q.
Proof.
  intros Hab. unfold uniform. rewrite bind_run. simpl.
  pose proof (random_range g) as [Hlo Hhi].
  set (u := (random g).1) in *. clearbody u. nra.
Qed.

Lemma choice_elem {A} (dflt : A) (seq : list A) g :
  seq ≠ [] → (choice dflt seq g).1 ∈ seq.
Proof.
  intros Hne. unfold choice. rewrite bind_run. simpl.
  pose proof (rng_randbelow_range (Z.of_nat (length seq)) g) as Hk.
  destruct seq as [|x seq]; [done|].
  apply list_elem_of_In, nth_In.
  assert (0 < Z.of_nat (length (x :: seq))) as Hpos by (simpl; lia).
  specialize (Hk Hpos). lia.
Qed.

Lemma swap_Permutation {A} (x : list A) i j : swap x i j ≡ₚ x.
Proof.
  unfold swap.
  destruct (x !! i) as [xi|] eqn:Hi; [|done].
  destruct (x !! j) as [xj|] eqn:Hj; [|done].
  by apply Permutation_insert_swap.
Qed.

Lemma shuffle_from_Permutation {A} n (x : list A) g :
  (shuffle_from n x g).1 ≡ₚ x.
Proof.
  revert x g. induction n as [|n IH]; intros x g; [done|].
  cbn [shuffle_from]. rewrite bind_run, IH. apply swap_Permutation.
Qed.

Lemma shuffle_Permutation {A} (x : list A) g : (shuffle x g).1 ≡ₚ x.
Proof. apply shuffle_from_Permutation. Qed.

End RandomFacts.

(** Run the next draw of the computation in the goal, keeping the range
    of the drawn value as a hypothesis. *)
Ltac step :=
  lazymatch goal with
  | |- context [bind (randint ?a ?b) _ ?g] =>
      let R := fresh "R" in
      assert (a ≤ (randint a b g).1 ≤ b) as R
        by (apply randint_range; first [lia | done]);
      rewrite (bind_run (randint a b) _ g);
      generalize dependent (randint a b g); intros [? ?] R; cbn [fst snd] in R |- *
  | |- context [bind (uniform ?a ?b) _ ?g] =>
      let R := fresh "R" in
      assert (a <= (uniform a b g).1 <= b)%Q as R
        by (apply uniform_range; lra);
      rewrite (bind_run (uniform a b) _ g);
      generalize dependent (uniform a b g); intros [? ?] R; cbn [fst snd] in R |- *
  | |- context [bind random _ ?g] =>
      let R := fresh "R" in
      pose proof (random_range g) as R;
      rewrite (bind_run random _ g);
      generalize dependent (random g); intros [? ?] R; cbn [fst snd] in R |- *
  | |- context [bind (choice ?d ?l) _ ?g] =>
      let R := fresh "R" in
      assert ((choice d l g).1 ∈ l) as R by (by apply choice_elem);
      rewrite (bind_run (choice d l) _ g);
      generalize dependent (choice d l g); intros [? ?] R; cbn [fst snd] in R |- *
  | |- context [bind (if ?d then _ else _) _ _] => destruct d
  | |- context [bind (ret ?a) ?k ?g] =>
      change (bind (ret a) k g) with (k a g); cbv beta
  | |- context [bind ?c _ ?g] =>
      rewrite (bind_run c _ g);
      generalize dependent (c g); intros [? ?]; cbn [fst snd]
  end.

(** ** Batches: the nested loops visit [0 .. L - 1] once, in order *)


Lemma batch_indices_prefix (L B : Z) (n : nat) :
  0 < B → 0 ≤ L → (Z.of_nat n - 1) * B < L →
  batch_indices L B (map (fun k => 0 + k * B) (seqZ 0 (Z.of_nat n)))
  = seqZ 0 (Z.min (Z.of_nat n * B) L).
Proof.
  intros HB HL. induction n as [|n IH]; intros Hn.
  - by rewrite (seqZ_nil 0 (Z.min _ _)) by lia.
  - rewrite seqZ_S, map_app. unfold batch_indices in *.
    rewrite map_app, concat_app, IH by nia. simpl.
    rewrite app_nil_r. unfold py_range.
    replace (Z.min (Z.of_nat (S n) * B) L)
      with (Z.min (Z.of_nat n * B) L
            + (Z.min (0 + Z.of_nat n * B + B) L - (0 + Z.of_nat n * B)))
      by nia.
    rewrite seqZ_app by nia. do 2 f_equal. nia.
Qed.

Lemma batch_indices_all (L B : Z) :
  0 < B → 0 ≤ L →
  batch_indices L B (py_range_step 0 L B) = py_range 0 L.
Proof.
  intros HB HL. unfold py_range_step, py_range.
  set (n := (L - 0 + B - 1) / B).
  assert (0 ≤ n) by (apply Z.div_pos; lia).
  assert (n * B ≤ L + B - 1 < n * B + B) as Hn.
  { pose proof (Z.div_mod (L - 0 + B - 1) B) as Hdm.
    pose proof (Z.mod_pos_bound (L - 0 + B - 1) B HB). fold n in Hdm. nia. }
  rewrite <- (Z2Nat.id n) by done.
  rewrite batch_indices_prefix by (rewrite ?Z2Nat.id; lia || nia).
  f_equal. rewrite Z2Nat.id by done. nia.
Qed.

(** ** The loans table *)

Module LoansFacts.
Import Loans.

Section WithSource.
Context `{RandomSource}.


Lemma loan_locals_spec current_date customer_id g :
  locals_spec current_date customer_id
    (loan_locals current_date customer_id g).1.
Proof.
  unfold loan_locals. do 10 step; repeat step;
    (split; cbn; try done; try lia; try lra).
Qed.


Lemma draw_pool_run copies n acc g :
  exists new,
    (draw_pool copies n acc g).1 = acc ++ new ∧
    length new = (copies * n)%nat ∧
    Forall (fun c => 1 ≤ c ≤ CUSTOMER_RECORDS) new.
Proof.
  revert acc g. induction n as [|n IH]; intros acc g.
  - exists []. rewrite app_nil_r. split_and!; [done|simpl; lia|done].
  - cbn [draw_pool]. rewrite bind_run.
    destruct (IH (acc ++ replicate copies (randint 1 CUSTOMER_RECORDS g).1)
                 (randint 1 CUSTOMER_RECORDS g).2) as (new & -> & Hlen & Hall).
    exists (replicate copies (randint 1 CUSTOMER_RECORDS g).1 ++ new).
    split_and!.
    + by rewrite app_assoc.
    + rewrite length_app, length_replicate. lia.
    + apply Forall_app_2; [|done]. apply Forall_replicate.
      apply randint_range. done.
Qed.

Lemma customer_loan_pairs_run L g :
  0 ≤ L →
  L ≤ customers_with_1_loan L
      + 2 * (customers_with_2_loans L / 2)
      + 3 * (customers_with_3_loans L / 3) →
  0 ≤ customers_with_1_loan L →
  0 ≤ customers_with_2_loans L →
  0 ≤ customers_with_3_loans L →
  Z.of_nat (length (customer_loan_pairs L g).1) = L ∧
  Forall (fun c => 1 ≤ c ≤ CUSTOMER_RECORDS) (customer_loan_pairs L g).1.
Proof.
  intros HL Hsum H1 H2 H3. unfold customer_loan_pairs.
  rewrite !bind_run. cbn [ret fst].
  set (n1 := Z.to_nat (customers_with_1_loan L)).
  set (n2 := Z.to_nat (customers_with_2_loans L / 2)).
  set (n3 := Z.to_nat (customers_with_3_loans L / 3)).
  destruct (draw_pool_run 1 n1 [] g) as (p1 & E1 & Hl1 & Ha1).
  rewrite E1.
  destruct (draw_pool_run 2 n2 ([] ++ p1) (draw_pool 1 n1 [] g).2)
    as (p2 & E2 & Hl2 & Ha2).
  rewrite E2.
  destruct (draw_pool_run 3 n3 (([] ++ p1) ++ p2)
              (draw_pool 2 n2 ([] ++ p1) (draw_pool 1 n1 [] g).2).2)
    as (p3 & E3 & Hl3 & Ha3).
  rewrite E3.
  set (pool := (([] ++ p1) ++ p2) ++ p3).
  set (g3 := (draw_pool 3 n3 _ _).2).
  pose proof (shuffle_Permutation pool g3) as Hperm.
  assert (length pool = (n1 + 2 * n2 + 3 * n3)%nat) as Hpool.
  { unfold pool. rewrite !length_app. simpl. lia. }
  assert (Z.to_nat L ≤ length pool)%nat as Hle.
  { rewrite Hpool. unfold n1, n2, n3.
    pose proof (Z.div_pos _ 2 H2 eq_refl).
    pose proof (Z.div_pos _ 3 H3 eq_refl). lia. }
  split.
  - rewrite length_take, Hperm. lia.
  - apply Forall_take. rewrite Hperm. unfold pool.
    repeat apply Forall_app_2; done.
Qed.

Lemma loans_rows_app current_date pairs l1 l2 loans_data loan_id g :
  loans_rows current_date pairs (l1 ++ l2) loans_data loan_id g
  = match loans_rows current_date pairs l1 loans_data loan_id g with
    | (Some (loans_data', loan_id'), g') =>
        loans_rows current_date pairs l2 loans_data' loan_id' g'
    | (None, g') => (None, g')
    end.
Proof.
  revert loans_data loan_id g.
  induction l1 as [|i l1 IH]; intros loans_data loan_id g; [done|].
  cbn [app loans_rows].
  destruct (pairs !! Z.to_nat i); [|done].
  rewrite !bind_run. apply IH.
Qed.

Lemma loans_batches_flat current_date L pairs starts loans_data loan_id g :
  loans_batches current_date L pairs starts loans_data loan_id g
  = loans_rows current_date pairs (batch_indices L BATCH_SIZE starts)
      loans_data loan_id g.
Proof.
  revert loans_data loan_id g.
  induction starts as [|s starts IH]; intros loans_data loan_id g;
    [done|].
  unfold batch_indices. cbn [map concat loans_batches].
  rewrite loans_rows_app. unfold bind.
  destruct (loans_rows _ _ _ _ _ g) as [[[d i]|] g']; [|done].
  apply IH.
Qed.

(** The row loop over in-range indices does not raise and appends one
    row per index, numbered consecutively. *)
Lemma loans_rows_run current_date pairs idxs loans_data id g :
  Forall (fun i => 0 ≤ i < Z.of_nat (length pairs)) idxs →
  exists new g',
    loans_rows current_date pairs idxs loans_data id g
    = (Some (loans_data ++ new, id + Z.of_nat (length idxs)), g') ∧
    loan_id <$> new = seqZ id (Z.of_nat (length idxs)) ∧
    Forall2 (fun i r => pairs !! Z.to_nat i = Some (customer_id r))
            idxs new ∧
    Forall (generated current_date pairs) new.
Proof.
  revert loans_data id g.
  induction idxs as [|i idxs IH]; intros loans_data id g Hin.
  - exists [], g. rewrite app_nil_r, Z.add_0_r. by split_and!.
  - apply Forall_cons in Hin as [Hi Hin]. cbn [loans_rows].
    destruct (pairs !! Z.to_nat i) as [c|] eqn:Hc.
    2:{ apply lookup_ge_None in Hc. lia. }
    rewrite bind_run.
    set (v := (loan_locals current_date c g).1).
    destruct (IH (loans_data ++ [to_row id v]) (id + 1)
                 (loan_locals current_date c g).2 Hin)
      as (new & g' & -> & Hids & Hcust & Hgen).
    exists (to_row id v :: new), g'. split_and!.
    + replace (id + Z.of_nat (length (i :: idxs)))
        with (id + 1 + Z.of_nat (length idxs)) by (simpl; lia).
      by rewrite <- app_assoc.
    + rewrite (seqZ_cons id) by (simpl; lia). cbn [fmap list_fmap].
      f_equal. rewrite Hids. f_equal; simpl; lia.
    + constructor; [|done]. rewrite Hc. f_equal.
      subst v. unfold loan_locals. rewrite !bind_run. done.
    + constructor; [|done]. exists c, g. split; [|done].
      by eapply list_elem_of_lookup_2.
Qed.

Lemma lookups_fmap {A} (f : A → Z) (pairs : list Z) (new : list A) :
  Forall2 (fun i r => pairs !! Z.to_nat i = Some (f r))
          (seqZ 0 (Z.of_nat (length pairs))) new →
  f <$> new = pairs.
Proof.
  intros Hall. pose proof (Forall2_length _ _ _ Hall) as Hlen.
  rewrite length_seqZ, Nat2Z.id in Hlen.
  apply list_eq. intros k. rewrite list_lookup_fmap.
  destruct (decide (k < length pairs)%nat) as [Hk|Hk].
  - assert (seqZ 0 (Z.of_nat (length pairs)) !! k = Some (0 + Z.of_nat k))
      as Hseq by (apply lookup_seqZ_lt; lia).
    destruct (Forall2_lookup_l _ _ _ _ _ Hall Hseq) as (r & -> & Hr).
    simpl. rewrite <- Hr. f_equal. lia.
  - rewrite !(proj2 (lookup_ge_None _ _)); [done|lia..].
Qed.

(** With enough pooled customer ids, [create_loans] returns [L] rows,
    numbered [1 .. L], the [i]-th for the [i]-th pooled customer. *)
Lemma create_loans_with_run L current_date g :
  0 ≤ L →
  L ≤ customers_with_1_loan L
      + 2 * (customers_with_2_loans L / 2)
      + 3 * (customers_with_3_loans L / 3) →
  0 ≤ customers_with_1_loan L →
  0 ≤ customers_with_2_loans L →
  0 ≤ customers_with_3_loans L →
  exists rows g',
    create_loans_with L current_date g = (Some rows, g') ∧
    Z.of_nat (length rows) = L ∧
    loan_id <$> rows = seqZ 1 L ∧
    customer_id <$> rows = (customer_loan_pairs L g).1 ∧
    Forall (generated current_date (customer_loan_pairs L g).1) rows.
Proof.
  intros HL Hsum H1 H2 H3.
  destruct (customer_loan_pairs_run L g HL Hsum H1 H2 H3)
    as [Hlen Hrange].
  unfold create_loans_with. rewrite bind_run.
  set (pairs := (customer_loan_pairs L g).1) in *.
  set (g1 := (customer_loan_pairs L g).2).
  rewrite bind_run, loans_batches_flat, batch_indices_all by done.
  unfold py_range. rewrite Z.sub_0_r.
  destruct (loans_rows_run current_date pairs (seqZ 0 L) [] 1 g1)
    as (new & g' & -> & Hids & Hcust & Hgen).
  { apply Forall_seqZ. lia. }
  rewrite length_seqZ, Z2Nat.id in Hids by done.
  exists new, g'. cbn [ret fst snd fmap option_fmap option_map app].
  split_and!; [done| |done| |done].
  - rewrite <- (length_fmap loan_id), Hids, length_seqZ. lia.
  - apply lookups_fmap. by rewrite Hlen.
Qed.

(** On binary64 floats, as Python evaluates it, [0.6 * 400000] is exactly
    240000.0, so [int] truncates nothing: the first pool has the size the
    exact product gives. *)
Lemma customers_with_1_loan_binary64_exact :
  PrimFloat.eqb (customers_with_1_loan_binary64 400000) 240000 = true ∧
  customers_with_1_loan 400000 = 240000.
Proof. by vm_compute. Qed.

(** With another target the pools can fall short of it: with a target of
    10 they hold 6 + 2 + 0 = 8 customer ids. *)
Lemma pools_fall_short :
  customers_with_1_loan 10 + 2 * (customers_with_2_loans 10 / 2)
  + 3 * (customers_with_3_loans 10 / 3) = 8.
Proof. by vm_compute. Qed.

Lemma create_loans_run current_date g :
  exists rows g',
    create_loans current_date g = (Some rows, g') ∧
    Z.of_nat (length rows) = LOAN_RECORDS ∧
    loan_id <$> rows = seqZ 1 LOAN_RECORDS ∧
    customer_id <$> rows = (customer_loan_pairs LOAN_RECORDS g).1 ∧
    Forall (generated current_date
              (customer_loan_pairs LOAN_RECORDS g).1) rows.
Proof. by apply create_loans_with_run. Qed.

(** C1. Generating the loans with the target of 400,000 rows and
    customer ids drawn from 1..500000 does not raise and yields exactly
    400,000 rows whose [loan_id]s are 1, 2, ..., 400000 in order, hence
    without gap or duplicate; the customer-assignment sequence built
    from the three pools (of 240,000, 100,000 and 60,000 entries),
    shuffled and truncated, has exactly 400,000 entries, all between 1
    and 500000, and the i-th row carries the i-th entry. *)
Theorem loans_table_ids current_date g :
  exists rows g',
    create_loans current_date g = (Some rows, g') ∧
    Z.of_nat (length rows) = 400000 ∧
    loan_id <$> rows = seqZ 1 400000 ∧
    NoDup (loan_id <$> rows) ∧
    (∀ k, k ∈ loan_id <$> rows ↔ 1 ≤ k ≤ 400000) ∧
    (customers_with_1_loan 400000 = 240000 ∧
     customers_with_2_loans 400000 = 100000 ∧
     customers_with_3_loans 400000 = 60000) ∧
    let pairs := (customer_loan_pairs 400000 g).1 in
    Z.of_nat (length pairs) = 400000 ∧
    Forall (fun c => 1 ≤ c ≤ 500000) pairs ∧
    customer_id <$> rows = pairs.
Proof.
  destruct (create_loans_run current_date g)
    as (rows & g' & Hrun & Hlen & Hids & Hcust & _).
  destruct (customer_loan_pairs_run LOAN_RECORDS g) as [Hplen Hprange];
    [done..|].
  exists rows, g'. cbv zeta. split_and!; try done.
  - rewrite Hids. apply NoDup_seqZ.
  - intros k. rewrite Hids, elem_of_seqZ. unfold LOAN_RECORDS. lia.
Qed.

(** Every row of the table is a row of the loop body. *)
Lemma create_loans_rows current_date g :
  exists rows g',
    create_loans current_date g = (Some rows, g') ∧
    Forall (fun r => exists customer_id g0,
              r = to_row (loan_id r)
                    (loan_locals current_date customer_id g0).1) rows.
Proof.
  destruct (create_loans_run current_date g)
    as (rows & g' & Hrun & _ & _ & _ & Hgen).
  exists rows, g'. split; [done|].
  eapply Forall_impl; [exact Hgen|].
  intros r (c & g0 & _ & Hr). eauto.
Qed.

(** C4. For every generated loan row the maturity date is the
    disbursement date plus 30 days per month of tenure, and the
    disbursement date is strictly later than the application date. *)
Theorem loans_dates current_date g :
  exists rows g',
    create_loans current_date g = (Some rows, g') ∧
    Forall (fun r =>
              maturity_date r
              = disbursement_date r + loan_tenure_months r * 30 ∧
              application_date r < disbursement_date r) rows.
Proof.
  destruct (create_loans_rows current_date g) as (rows & g' & Hrun & Hgen).
  exists rows, g'. split; [done|].
  eapply Forall_impl; [exact Hgen|].
  intros r (c & g0 & ->).
  destruct (loan_locals_spec current_date c g0). cbn. lia.
Qed.

End WithSource.

(** Two runs of the generator on an exhausted script (every draw is 0):
    with a target of 40 the pools hold 24 + 10 + 6 = 40 customer ids and
    the rows are numbered 1..40; with a target of 10 they hold 8 and the
    ninth row raises [IndexError]. *)
Example create_loans_with_40 :
  fmap (M := option) (fmap (M := list) loan_id)
    (@create_loans_with scripted 40 739923 []).1
  = Some (seqZ 1 40).
Proof. by vm_compute. Qed.

Example create_loans_with_10 :
  (@create_loans_with scripted 10 739923 []).1 = None.
Proof. by vm_compute. Qed.

(** *** The EMI *)

Lemma monthly_rate_of_scale (interest_rate : Q) :
  (monthly_rate_of interest_rate == interest_rate * (1 # 1200))%Q.
Proof. unfold monthly_rate_of. field. Qed.

Global Instance monthly_rate_of_proper : Proper (Qeq ==> Qeq) monthly_rate_of.
Proof. intros x y E. by rewrite !monthly_rate_of_scale, E. Qed.

Global Instance emi_proper : Proper (Qeq ==> Qeq ==> eq ==> Qeq) emi.
Proof.
  intros P P' HP r r' Hr n ? <-. unfold emi.
  pose proof (monthly_rate_of_proper r r' Hr) as Hm.
  destruct (Qlt_le_dec 0 (monthly_rate_of r)),
           (Qlt_le_dec 0 (monthly_rate_of r')); try lra.
  - by rewrite HP, Hm.
  - by rewrite HP.
Qed.

(** The two branches of the EMI computation. *)
Lemma emi_formula (P rate : Q) (n : Z) :
  let r := (rate / 100 / 12)%Q in
  ((0 < r)%Q → emi P rate n = (P * r * (1 + r) ^ n / ((1 + r) ^ n - 1))%Q) ∧
  ((r == 0)%Q → emi P rate n = (P / inject_Z n)%Q).
Proof.
  cbv zeta. unfold emi, monthly_rate_of.
  destruct (Qlt_le_dec 0 (rate / 100 / 12)); split; intros; try done; lra.
Qed.


(** C2, as the code has it, with the floats read as exact numbers.  For
    every generated loan row the EMI before its rounding is
    [P * r * (1 + r)^n / ((1 + r)^n - 1)] with [P] the unrounded loan
    amount, [n] the tenure and [r = interest_rate/100/12] of the unrounded
    rate, which is always positive (the code computes [P / n] when [r] is
    zero).  The stored [emi_amount] is that value rounded to 2 decimals,
    hence within 0.005 of the formula on the unrounded amount and rate;
    the recomputation from the stored amount and rate agrees within 0.005
    when their own rounding left them unchanged.  On binary64 the code
    evaluates the formula with a rounding error and stores the rounding of
    what it computed: whenever the computed value is within 0.005 of the
    exact formula, the stored value is within 0.01 of it. *)
Theorem loan_emi_stored (S : RandomSource) (current_date : Z) (g : rng) :
  (∀ P rate n,
     let r := (rate / 100 / 12)%Q in
     ((0 < r)%Q →
      emi P rate n = (P * r * (1 + r) ^ n / ((1 + r) ^ n - 1))%Q) ∧
     ((r == 0)%Q → emi P rate n = (P / inject_Z n)%Q)) ∧
  (exists rows g',
    create_loans current_date g = (Some rows, g') ∧
    Forall (fun row => exists customer_id g0,
      let v := (loan_locals current_date customer_id g0).1 in
      let r := (v_interest_rate v / 100 / 12)%Q in
      row = to_row (loan_id row) v ∧
      (0 < r)%Q ∧
      v_emi_amount v
      = (v_loan_amount v * r * (1 + r) ^ v_tenure_months v
         / ((1 + r) ^ v_tenure_months v - 1))%Q ∧
      emi_amount row = round2 (v_emi_amount v) ∧
      (Qabs (emi_amount row
             - emi (v_loan_amount v) (v_interest_rate v)
                   (v_tenure_months v)) <= 1 # 200)%Q ∧
      ((loan_amount row == v_loan_amount v)%Q →
       (interest_rate row == v_interest_rate v)%Q →
       (Qabs (emi_amount row - emi_from_stored row) <= 1 # 200)%Q)) rows) ∧
  (∀ P rate n computed,
     (Qabs (computed - emi P rate n) <= 1 # 200)%Q →
     (Qabs (round2 computed - emi P rate n) <= 1 # 100)%Q).
Proof.
  split; [apply emi_formula|].
  split; [|intros P rate n computed Hc;
           pose proof (round2_error computed) as Hr;
           apply Qabs_Qle_condition in Hc, Hr; apply Qabs_Qle_condition;
           lra].
  destruct (create_loans_rows current_date g) as (rows & g' & Hrun & Hgen).
  exists rows, g'. split; [done|].
  eapply Forall_impl; [exact Hgen|].
  intros row (c & g0 & Hrow). exists c, g0. cbv zeta.
  destruct (loan_locals_spec current_date c g0) as [].
  set (v := (loan_locals current_date c g0).1) in *.
  assert (0 < v_interest_rate v / 100 / 12)%Q as Hr.
  { pose proof (monthly_rate_of_scale (v_interest_rate v)) as E.
    unfold monthly_rate_of in E. lra. }
  assert (emi_amount row = round2 (v_emi_amount v)) as Hemi
    by (by rewrite Hrow).
  split_and!; try done.
  - rewrite spec_emi0. by apply emi_formula.
  - rewrite Hemi, spec_emi0. apply round2_error.
  - intros HP Hrate. unfold emi_from_stored.
    assert (loan_tenure_months row = v_tenure_months v) as ->
      by (by rewrite Hrow).
    rewrite HP, Hrate, Hemi, spec_emi0. apply round2_error.
Qed.

(** The row generated from the scripted draws below has a stored amount
    of 200000.00 and a stored rate of 12.50 (the drawn rate is 12.504); the
    EMI recomputed from the stored fields differs from the stored EMI by
    more than 0.38. *)
Lemma loan_emi_recomputation_counterexample :
  let row :=
    to_row 1 (@loan_locals scripted 739923 7
                [0; 0; 0; 300; 800; 0; 100; 10; 500000; 0]).1 in
  (loan_amount row == 200000)%Q ∧
  (interest_rate row == 12.5)%Q ∧
  loan_tenure_months row = 36 ∧
  (emi_amount row == 6691.11)%Q ∧
  (38 # 100 < Qabs (emi_from_stored row - emi_amount row))%Q ∧
  ¬ (Qabs (emi_from_stored row - emi_amount row) <= 1 # 100)%Q.
Proof. vm_compute. by split_and!. Qed.

(** *** The status *)


(** The thresholds are the decimal ones up to the rounding of binary64,
    and the second is above the first. *)
Lemma thresholds_close cibil_score :
  (Qabs (defaulted_below cibil_score
         - (0.08 + credit_score_penalty cibil_score))
   <= 1 # 10000000000000000)%Q ∧
  (Qabs (overdue_below cibil_score
         - (0.08 + credit_score_penalty cibil_score + 0.06))
   <= 1 # 10000000000000000)%Q ∧
  (defaulted_below cibil_score < overdue_below cibil_score)%Q.
Proof.
  unfold defaulted_below, overdue_below, default_prob_of,
    credit_score_penalty.
  repeat destruct (decide _); by vm_compute.
Qed.

Lemma status_of_rule u p elapsed tenure :
  status_rule u (Q_of_float p) (Q_of_float (p + float_0_06)%float)
    elapsed tenure (status_of u p elapsed tenure).
Proof.
  unfold status_rule, status_of.
  repeat destruct (Qlt_le_dec _ _); repeat destruct (decide _);
    split_and!; intros; try done; try lia; lra.
Qed.

(** The status draw is the draw that follows the eight parameter draws. *)
Lemma loan_locals_status_draw `{RandomSource} current_date customer_id g :
  v_status_rand (loan_locals current_date customer_id g).1
  = (random (loan_parameters g).2).1.
Proof.
  unfold loan_locals, loan_parameters. cbv zeta.
  repeat first [progress rewrite !bind_run | destruct (decide _)];
    done.
Qed.

(** C3. The status of every loan follows from one uniform draw [u] in
    [[0, 1)], the draw that follows the eight parameter draws of the row:
    [Defaulted] if [u] is below the default probability, [Overdue] if it is
    below the default probability plus 0.06, and otherwise [Closed] if the
    months elapsed since disbursement reach the tenure, else [Active].
    The two thresholds are the binary64 sums of the code: within 10^-16 of
    0.08 plus the credit-score penalty and of that plus 0.06 (so for a
    score below 600 the draw 0.22999999999999998, the float just below
    0.23, is already [Overdue]).  Every row of the table is such a row;
    and for some draws a loan whose elapsed months exceed its tenure is
    [Defaulted]. *)
Theorem loan_status_precedence :
  (∀ (S : RandomSource) current_date customer_id g,
     let v := (loan_locals current_date customer_id g).1 in
     v_status_rand v = (random (loan_parameters g).2).1 ∧
     (0 <= v_status_rand v < 1)%Q ∧
     v_months_since v
     = Z.max 1 ((current_date - v_disbursement_date v) / 30) ∧
     status_rule (v_status_rand v)
       (defaulted_below (v_cibil_score v)) (overdue_below (v_cibil_score v))
       (v_months_since v) (v_tenure_months v) (v_loan_status v)) ∧
  (∀ cibil_score,
     (Qabs (defaulted_below cibil_score
            - (0.08 + credit_score_penalty cibil_score))
      <= 1 # 10000000000000000)%Q ∧
     (Qabs (overdue_below cibil_score
            - (0.08 + credit_score_penalty cibil_score + 0.06))
      <= 1 # 10000000000000000)%Q ∧
     (defaulted_below cibil_score < overdue_below cibil_score)%Q) ∧
  (∀ cibil_score elapsed tenure,
     cibil_score < 600 →
     status_of (2071655828590428 # 9007199254740992)
       (default_prob_of cibil_score) elapsed tenure = Overdue) ∧
  (∀ (S : RandomSource) current_date g,
     exists rows g',
       create_loans current_date g = (Some rows, g') ∧
       Forall (fun r => exists customer_id g0,
         let v := (loan_locals current_date customer_id g0).1 in
         r = to_row (loan_id r) v ∧
         loan_status r = v_loan_status v ∧
         loan_tenure_months r = v_tenure_months v ∧
         disbursement_date r = v_disbursement_date v) rows) ∧
  (exists (S : RandomSource) current_date customer_id g,
     let v := (loan_locals current_date customer_id g).1 in
     v_tenure_months v < v_months_since v ∧ v_loan_status v = Defaulted).
Proof.
  split_and!.
  - intros S current_date c g. cbv zeta.
    destruct (loan_locals_spec current_date c g) as [].
    pose proof (loan_locals_status_draw current_date c g) as Hdraw.
    split_and!; [done|apply spec_status_rand0..|done|].
    rewrite spec_status0. apply status_of_rule.
  - apply thresholds_close.
  - intros cibil_score elapsed tenure Hscore.
    unfold status_of, default_prob_of.
    destruct (decide (cibil_score < 600)); [|done].
    by vm_compute.
  - intros S current_date g.
    destruct (create_loans_rows current_date g) as (rows & g' & Hrun & Hgen).
    exists rows, g'. split; [done|].
    eapply Forall_impl; [exact Hgen|].
    intros r (c & g0 & Hr). exists c, g0. cbv zeta.
    split; [done|]. by rewrite Hr.
  - exists scripted, 739923, 7, [0; 0; 0; 0; 0; 0; 1400; 0; 0; 0].
    vm_compute. done.
Qed.

End LoansFacts.


(** ** The payments table *)

Module PaymentsFacts.
Import Payments.

Lemma py_max_ge_l a b : (a <= py_max a b)%Q.
Proof. unfold py_max. destruct (Qlt_le_dec a b); lra. Qed.

Section WithSource.
Context `{RandomSource}.


Lemma payment_locals_spec current_date g :
  locals_spec (payment_locals current_date g).1.
Proof.
  unfold payment_locals. do 8 step;
    repeat step;
    try match goal with
        | |- context [match ?s with Success => _ | _ => _ end] => destruct s
        end;
    repeat step;
    (split; cbn; [apply py_max_ge_l | intros; try done; ring | done]).
Qed.

Lemma payments_rows_generated current_date ids payments_data g :
  exists new,
    (payments_rows current_date ids payments_data g).1 = payments_data ++ new ∧
    payment_id <$> new = ids ∧
    Forall (fun r => exists g0,
              r = to_row (payment_id r) (payment_locals current_date g0).1)
           new.
Proof.
  revert payments_data g.
  induction ids as [|i ids IH]; intros payments_data g.
  - exists []. by rewrite app_nil_r.
  - cbn [payments_rows]. rewrite bind_run.
    set (v := (payment_locals current_date g).1).
    destruct (IH (payments_data ++ [to_row i v])
                 (payment_locals current_date g).2) as (new & -> & Hids & Hgen).
    exists (to_row i v :: new). split_and!.
    + by rewrite <- app_assoc.
    + cbn. by rewrite Hids.
    + constructor; [|done]. by exists g.
Qed.

End WithSource.

(** C9, as the code has it. For every generated payment row: if the status
    is [Success] the principal component is the payment amount minus the
    interest component, so the two add up to the payment amount in exact
    arithmetic (before the roundings of the stored fields); if the status
    is [Failed] or [Pending] the principal component, the interest
    component and the late fee are all 0; and in every case the payment
    amount is at least 1000, before and after its rounding. *)
Theorem payment_components (S : RandomSource) (current_date : Z) (g : rng) :
  let rows := (create_payments current_date g).1 in
  payment_id <$> rows = seqZ 1 350000 ∧
  Forall (fun r => exists g0,
    let v := (payment_locals current_date g0).1 in
    r = to_row (payment_id r) v ∧
    (payment_status r = Success →
     (v_principal_component v + v_interest_component v
      == v_payment_amount v)%Q) ∧
    (payment_status r = Failed ∨ payment_status r = Pending →
     v_principal_component v = 0%Q ∧ v_interest_component v = 0%Q ∧
     v_late_fee v = 0%Q ∧
     (principal_component r == 0)%Q ∧ (interest_component r == 0)%Q ∧
     (late_fee r == 0)%Q) ∧
    (1000 <= v_payment_amount v)%Q ∧
    (1000 <= payment_amount r)%Q) rows.
Proof.
  cbv zeta. unfold create_payments.
  destruct (payments_rows_generated current_date
              (py_range 1 (OTHER_TABLE_RECORDS + 1)) [] g)
    as (rows & -> & Hids & Hgen).
  split; [done|].
  eapply Forall_impl; [exact Hgen|].
  intros r (g0 & Hr). exists g0. cbv zeta.
  destruct (payment_locals_spec current_date g0) as [Hamount Hok Hko].
  set (v := (payment_locals current_date g0).1) in *.
  assert (payment_status r = v_payment_status v) as Hst by (by rewrite Hr).
  split_and!; [done| | |done|].
  - rewrite Hst. apply Hok.
  - intros Hnot.
    destruct Hko as (Hp & Hi & Hl); [rewrite <- Hst; by destruct Hnot as [->| ->]|].
    rewrite Hr. cbn. rewrite Hp, Hi, Hl.
    split_and!; try done; apply (round2_inject 0).
  - rewrite Hr. cbn. rewrite <- (round2_inject 1000).
    by apply round2_mono.
Qed.

(** On binary64 floats the sum is not always the payment amount: for these
    three values of [random()] the payment amount is 7454.689086847712,
    the interest component 3099.985600560914, the principal component
    4354.703486286799, and their float sum 7454.689086847713. *)
Lemma payment_components_binary64_counterexample :
  let payment_amount :=
    payment_amount_binary64 0x1.7d9af63a065c0p-5 0x1.b7892d8885efap-1 in
  let split := success_split_binary64 payment_amount 0x1.288f5635a6592p-2 in
  PrimFloat.eqb payment_amount 0x1.d1eb067fee307p+12 = true ∧
  PrimFloat.eqb split.2 0x1.837f8a0a30017p+11 = true ∧
  PrimFloat.eqb split.1 0x1.102b417ad62fcp+12 = true ∧
  PrimFloat.eqb (split.1 + split.2) 0x1.d1eb067fee308p+12 = true ∧
  PrimFloat.eqb (split.1 + split.2) payment_amount = false.
Proof. vm_compute. by split_and!. Qed.

End PaymentsFacts.

(** ** The defaults and collections table *)

Module DefaultsFacts.
Import Defaults.

Section WithSource.
Context `{RandomSource}.


Lemma default_locals_spec current_date g :
  locals_spec current_date (default_locals current_date g).1.
Proof.
  unfold default_locals. do 8 step; repeat step.
  split; cbn; try done; try lia.
  intros []; cbn; lra.
Qed.

Lemma defaults_rows_generated current_date ids defaults_data g :
  exists new,
    (defaults_rows current_date ids defaults_data g).1 = defaults_data ++ new ∧
    default_id <$> new = ids ∧
    Forall (fun r => exists g0,
              r = to_row (default_id r) (default_locals current_date g0).1)
           new.
Proof.
  revert defaults_data g.
  induction ids as [|i ids IH]; intros defaults_data g.
  - exists []. by rewrite app_nil_r.
  - cbn [defaults_rows]. rewrite bind_run.
    set (v := (default_locals current_date g).1).
    destruct (IH (defaults_data ++ [to_row i v])
                 (default_locals current_date g).2) as (new & -> & Hids & Hgen).
    exists (to_row i v :: new). split_and!.
    + by rewrite <- app_assoc.
    + cbn. by rewrite Hids.
    + constructor; [|done]. by exists g.
Qed.

Lemma create_defaults_collections_rows current_date g :
  Forall (fun r => exists g0,
            r = to_row (default_id r) (default_locals current_date g0).1)
         (create_defaults_collections current_date g).1.
Proof.
  unfold create_defaults_collections.
  by destruct (defaults_rows_generated current_date
                 (py_range 1 (OTHER_TABLE_RECORDS + 1)) [] g)
    as (rows & -> & _ & Hgen).
Qed.

(** C6. For every generated default record the recovery amount is at most
    the default amount, before the roundings and as stored (both rounded
    to 2 decimals), whichever of the four collection statuses the record
    has: each of the four drawn recovery rates lies between 0 and 0.9. *)
Theorem recovery_at_most_default current_date g :
  Forall (fun r =>
      (recovery_amount r <= default_amount r)%Q ∧
      exists g0,
        let v := (default_locals current_date g0).1 in
        r = to_row (default_id r) v ∧
        (v_recovery_amount v <= v_default_amount v)%Q ∧
        ∀ s, (v_default_amount v * rate_of (v_recovery_rates v) s
              <= v_default_amount v)%Q ∧
             (round2 (v_default_amount v * rate_of (v_recovery_rates v) s)
              <= round2 (v_default_amount v))%Q)
    (create_defaults_collections current_date g).1.
Proof.
  eapply Forall_impl; [apply create_defaults_collections_rows|].
  intros r (g0 & Hr).
  destruct (default_locals_spec current_date g0) as [].
  set (v := (default_locals current_date g0).1) in *.
  assert (∀ s, (v_default_amount v * rate_of (v_recovery_rates v) s
                <= v_default_amount v)%Q) as Hle.
  { intros s. specialize (spec_rates0 s). nra. }
  split.
  - rewrite Hr. cbn [to_row recovery_amount default_amount].
    apply round2_mono. rewrite spec_recovery_amount0. apply Hle.
  - exists g0. cbv zeta. fold v. split_and!; [done| |].
    + rewrite spec_recovery_amount0. apply Hle.
    + intros s. split; [apply Hle|]. apply round2_mono, Hle.
Qed.

(** C10. For every generated default record the default date is not after
    the last contact date, which is before the current date of the run and
    at most 90 days before it; [days_overdue] is the number of days from
    the default date to the current date and is at least 30. *)
Theorem default_dates current_date g :
  Forall (fun r =>
      default_date r ≤ last_contact_date r ∧
      last_contact_date r ≤ current_date ∧
      current_date - 90 ≤ last_contact_date r ∧
      days_overdue r = current_date - default_date r ∧
      30 ≤ days_overdue r)
    (create_defaults_collections current_date g).1.
Proof.
  eapply Forall_impl; [apply create_defaults_collections_rows|].
  intros r (g0 & ->).
  destruct (default_locals_spec current_date g0) as []. cbn. lia.
Qed.

End WithSource.
End DefaultsFacts.

(** ** The state and city dimensions *)

Module DimFacts.

Lemma state_table_ids :
  DimState.state_id <$> DimState.create_dim_state = seqZ 1 28.
Proof. by vm_compute. Qed.

Lemma state_names_distinct :
  NoDup (DimState.state_name <$> DimState.create_dim_state).
Proof. apply (bool_decide_unpack _). by vm_compute. Qed.

(** C5. The state rows have distinct names and the ids 1..28.  City
    generation does not fail on a missing state: every entry of the city
    list has its state name in the state lookup; and every generated city
    row has a [state_id] in the state id range 1..28, equal to the
    [state_id] of the state row whose name is the state of the city. *)
Theorem city_state_ids :
  NoDup (DimState.state_name <$> DimState.create_dim_state) ∧
  DimState.state_id <$> DimState.create_dim_state = seqZ 1 28 ∧
  Forall (fun c =>
            is_Some (DimCity.state_lookup DimState.create_dim_state
                     !! ci_state_name c)) INDIAN_CITIES ∧
  exists rows,
    DimCity.create_dim_city DimState.create_dim_state = Some rows ∧
    Forall2 (fun c r =>
               DimCity.city_name r = ci_city_name c ∧
               1 ≤ DimCity.state_id r ≤ 28 ∧
               DimCity.references_state DimState.create_dim_state c r)
            INDIAN_CITIES rows.
Proof.
  split_and!.
  - apply state_names_distinct.
  - apply state_table_ids.
  - apply (bool_decide_unpack _). by vm_compute.
  - eexists. split; [by vm_compute|].
    apply (bool_decide_unpack _). by vm_compute.
Qed.

End DimFacts.


(** ** The pipeline *)

Module PipelineFacts.
Import Pipeline.

Section Tables.
Context {table : Type} (env : @environment table).

Lemma create_outcome name generated (w : @world table) :
  create env name generated w
  = match step_outcome env (name, generated) with
    | inl e => (inl e, w)
    | inr df => (inr df, mk_world (<[name := df]> (catalog w)) (console w))
    end.
Proof.
  unfold create, step_outcome, sbind, raise, sret, saveAsTable. cbn [fst snd].
  destruct generated as [e|df]; [done|].
  by destruct (write_failure env name).
Qed.

(** No [create_*] function handles an exception: what its generation or
    its write raises reaches the caller, with the world as it was. *)
Lemma create_raises name generated e (w : @world table) :
  step_outcome env (name, generated) = inl e →
  create env name generated w = (inl e, w).
Proof. intros He. by rewrite create_outcome, He. Qed.

Lemma run_plan_cons s steps (w : @world table) :
  run_plan env (s :: steps) w
  = match step_outcome env s with
    | inl e => (inl e, w)
    | inr df =>
        run_plan env steps (mk_world (<[s.1 := df]> (catalog w)) (console w))
    end.
Proof. reflexivity. Qed.

Lemma step_outcome_inr name generated df :
  step_outcome env (name, generated) = inr df → generated = inr df.
Proof.
  unfold step_outcome. cbn [fst snd].
  destruct generated; [done|]. by destruct (write_failure env name).
Qed.

Lemma main_body_plan (w : @world table) :
  main_body env w
  = match run_plan env (plan env) w with
    | (inl e, w') => (inl e, w')
    | (inr _, w') =>
        (inr true, mk_world (catalog w') (console w' ++ [Completed]))
    end.
Proof.
  unfold main_body, create_dim_state, create_dim_city, create_customers,
    create_institutions, create_loans, create_payments,
    create_defaults_collections, create_geographic_demographics,
    create_economic_indicators, plan.
  cbv zeta.
  do 9 (unfold sbind at 1; rewrite create_outcome, run_plan_cons;
        match goal with
        | |- context [step_outcome env (?name, ?generated)] =>
            let E := fresh "E" in
            destruct (step_outcome env (name, generated)) as [?|?] eqn:E;
            [ reflexivity
            | apply step_outcome_inr in E; try rewrite E; cbv iota;
              cbn [fst] ]
        end).
  reflexivity.
Qed.

Lemma saved_cons s steps (c : gmap string table) :
  saved env (s :: steps) c
  = saved env steps (match step_outcome env s with
                     | inr df => <[s.1 := df]> c
                     | inl _ => c
                     end).
Proof. reflexivity. Qed.

Lemma run_plan_completes steps (w : @world table) :
  Forall (completes env) steps →
  run_plan env steps w
  = (inr tt, mk_world (saved env steps (catalog w)) (console w)).
Proof.
  revert w. induction steps as [|s steps IH]; intros w Hall.
  - by destruct w.
  - apply Forall_cons in Hall as [[df Hs] Hall].
    cbn [run_plan]. rewrite saved_cons, Hs. by rewrite IH.
Qed.

Lemma run_plan_fails before s after e (w : @world table) :
  Forall (completes env) before →
  step_outcome env s = inl e →
  run_plan env (before ++ s :: after) w
  = (inl e, mk_world (saved env before (catalog w)) (console w)).
Proof.
  revert w. induction before as [|b before IH]; intros w Hall He.
  - cbn [app run_plan]. rewrite He. by destruct w.
  - apply Forall_cons in Hall as [[df Hb] Hall].
    cbn [app run_plan]. rewrite saved_cons, Hb. by rewrite IH.
Qed.

(** A saved table is not touched by the steps that do not write it. *)
Lemma saved_other steps (c : gmap string table) name :
  name ∉ steps.*1 → saved env steps c !! name = c !! name.
Proof.
  revert c. induction steps as [|s steps IH]; intros c Hnot; [done|].
  rewrite fmap_cons, not_elem_of_cons in Hnot. destruct Hnot as [Hne Hnot].
  rewrite saved_cons, IH by done.
  destruct (step_outcome env s); [done|]. by rewrite lookup_insert_ne.
Qed.

(** The table saved by a completed step is in the catalog afterwards. *)
Lemma saved_lookup steps (c : gmap string table) s df :
  NoDup steps.*1 → s ∈ steps → step_outcome env s = inr df →
  saved env steps c !! s.1 = Some df.
Proof.
  revert c. induction steps as [|s' steps IH]; intros c Hnd Hin Hs.
  - by apply elem_of_nil in Hin.
  - rewrite fmap_cons in Hnd. apply NoDup_cons in Hnd as [Hfresh Hnd].
    rewrite saved_cons.
    apply elem_of_cons in Hin as [->|Hin].
    + rewrite saved_other by done. rewrite Hs. by rewrite lookup_insert_eq.
    + by apply IH.
Qed.

Lemma plan_names :
  (plan env).*1
  = ["dim_state"; "dim_city"; "customers"; "institutions"; "loans";
     "payments"; "defaults_collections"; "geographic_demographics";
     "economic_indicators"]%string.
Proof. reflexivity. Qed.

Lemma plan_names_distinct : NoDup (plan env).*1.
Proof. rewrite plan_names. apply (bool_decide_unpack _). by vm_compute. Qed.

(** C8. No [create_*] step handles an exception.  If the steps of the
    pipeline all complete, [main] returns [True] and the nine tables are in
    the catalog.  If a step raises, from its generation or from its write,
    after the steps before it have completed, the handler of [main] is the
    one that catches the exception: [main] prints the error line and the
    trace and returns [False]; the tables saved by the completed steps are
    still in the catalog and every other table of the catalog is as it was
    before the run (nothing is rolled back, nothing else is written). *)
Theorem main_failure_handling (w : @world table) :
  (Forall (completes env) (plan env) →
   main env w
   = (inr true,
      mk_world (saved env (plan env) (catalog w))
               (console w ++ [Banner; Completed]))) ∧
  (∀ before s after e,
     plan env = before ++ s :: after →
     Forall (completes env) before →
     step_outcome env s = inl e →
     create env s.1 s.2 w = (inl e, w) ∧
     exists w',
       main env w = (inr false, w') ∧
       console w'
       = console w ++ [Banner; ErrorLine (exn_message e); Traceback e] ∧
       catalog w' = saved env before (catalog w) ∧
       (∀ t df, t ∈ before → step_outcome env t = inr df →
                catalog w' !! t.1 = Some df) ∧
       (∀ name, name ∉ before.*1 → catalog w' !! name = catalog w !! name)).
Proof.
  split.
  - intros Hall. unfold main, sbind, print, try_except.
    rewrite main_body_plan, run_plan_completes by done.
    cbn [catalog console]. by rewrite <- app_assoc.
  - intros before s after e Hplan Hall He. split.
    { destruct s as [name generated]. by apply create_raises. }
    eexists. split_and!.
    + unfold main, sbind, print, try_except.
      rewrite main_body_plan, Hplan, (run_plan_fails _ _ _ e) by done.
      unfold main_handler, sbind, print, sret. cbn [catalog console].
      rewrite <- !app_assoc. reflexivity.
    + done.
    + done.
    + intros t df Hin Ht. cbn [catalog]. apply saved_lookup; [|done..].
      pose proof plan_names_distinct as Hnd.
      rewrite Hplan, fmap_app in Hnd. by apply NoDup_app in Hnd as (? & _ & _).
    + intros name Hnot. cbn [catalog]. by apply saved_other.
Qed.

End Tables.

(** The theorem at a run whose loans step raises: the first four tables
    stay in the catalog, the loans table is not written, [main] returns
    [False] after printing the error and the trace. *)
Lemma main_failure_handling_witness :
  exists w',
    main failing_loans_env empty_world = (inr false, w') ∧
    console w'
    = [Banner; ErrorLine "list index out of range";
       Traceback (mk_exn "list index out of range")] ∧
    catalog w' !! "institutions"%string = Some 4%nat ∧
    catalog w' !! "loans"%string = None.
Proof.
  destruct (proj2 (main_failure_handling failing_loans_env empty_world)
              [("dim_state", inr 1%nat); ("dim_city", inr 2%nat);
               ("customers", inr 3%nat); ("institutions", inr 4%nat)]%string
              ("loans"%string, inl (mk_exn "list index out of range"))
              [("payments", inr 6%nat); ("defaults_collections", inr 7%nat);
               ("geographic_demographics", inr 8%nat);
               ("economic_indicators", inr 9%nat)]%string
              (mk_exn "list index out of range"))
    as (_ & w' & Hmain & Hconsole & _ & Hsaved & Hother).
  - reflexivity.
  - repeat constructor; eexists; reflexivity.
  - reflexivity.
  - exists w'. split_and!; [exact Hmain | exact Hconsole | |].
    + apply (Hsaved ("institutions"%string, inr 4%nat) 4%nat);
        [|reflexivity].
      do 3 apply list_elem_of_further. apply list_elem_of_here.
    + rewrite Hother; [reflexivity|]. cbn.
      repeat (apply not_elem_of_cons; split; [discriminate|]).
      apply not_elem_of_nil.
Defined.

End PipelineFacts.


(** ** Two runs from the same seed *)

Module RunFacts.
Import Run.

(** Run every draw of the two computations in the goal. *)
Ltac draws :=
  repeat match goal with
    | |- context [let (_, _) := ?c in _] => destruct c
    end.

Section WithSource.
Context `{RandomSource}.

Lemma months_since_shift d k x :
  Loans.months_since_of (d + k) (x + k) = Loans.months_since_of d x.
Proof. unfold Loans.months_since_of. do 2 f_equal. lia. Qed.

(** The loop bodies draw the same values whatever the date; only the date
    columns of the row move. *)
Lemma loan_locals_shift d k customer_id id g :
  (Loans.to_row id (Loans.loan_locals (d + k) customer_id g).1,
   (Loans.loan_locals (d + k) customer_id g).2)
  = (shift_loan k (Loans.to_row id (Loans.loan_locals d customer_id g).1),
     (Loans.loan_locals d customer_id g).2).
Proof.
  unfold Loans.loan_locals, bind, ret.
  do 6 match goal with
       | |- context [let (_, _) := ?c in _] => destruct c
       end.
  match goal with
  | |- context [let (_, _) := ?c in _] => destruct c as [days_back ?]
  end.
  match goal with
  | |- context [let (_, _) := ?c in _] => destruct c as [delay ?]
  end.
  draws. cbn.
  replace (d + k - days_back + delay) with (d - days_back + delay + k) by lia.
  rewrite months_since_shift.
  unfold shift_loan, Loans.to_row. cbn. do 2 f_equal; lia.
Qed.

Lemma payment_locals_shift d k id g :
  (Payments.to_row id (Payments.payment_locals (d + k) g).1,
   (Payments.payment_locals (d + k) g).2)
  = (shift_payment k (Payments.to_row id (Payments.payment_locals d g).1),
     (Payments.payment_locals d g).2).
Proof.
  unfold Payments.payment_locals, bind, ret. draws.
  all: repeat match goal with
         | |- context [match ?s with Payments.Success => _ | _ => _ end] =>
             destruct s
         end; draws; cbn; unfold shift_payment, Payments.to_row; cbn;
       do 2 f_equal; lia.
Qed.

Lemma default_locals_shift d k id g :
  (Defaults.to_row id (Defaults.default_locals (d + k) g).1,
   (Defaults.default_locals (d + k) g).2)
  = (shift_default k (Defaults.to_row id (Defaults.default_locals d g).1),
     (Defaults.default_locals d g).2).
Proof.
  unfold Defaults.default_locals, bind, ret.
  destruct (randint 1 CUSTOMER_RECORDS g) as [? g1].
  destruct (randint 1 400000 g1) as [? g2].
  destruct (randint 30 1095 g2) as [days_back g3].
  destruct (uniform 100000 800000 g3) as [? g4].
  replace (d + k - (d + k - days_back)) with (d - (d - days_back)) by lia.
  draws. cbn. unfold shift_default, Defaults.to_row. cbn.
  do 2 f_equal; lia.
Qed.

Lemma loans_rows_shift d k pairs idxs (loans_data : list Loans.row) id g :
  Loans.loans_rows (d + k) pairs idxs (shift_loan k <$> loans_data) id g
  = (prod_map (fmap (M := list) (shift_loan k)) (fun i : Z => i)
       <$> (Loans.loans_rows d pairs idxs loans_data id g).1,
     (Loans.loans_rows d pairs idxs loans_data id g).2).
Proof.
  revert loans_data id g.
  induction idxs as [|i idxs IH]; intros loans_data id g; [done|].
  cbn [Loans.loans_rows]. destruct (pairs !! Z.to_nat i) as [c|]; [|done].
  rewrite !bind_run.
  pose proof (loan_locals_shift d k c id g) as E.
  pose proof (f_equal fst E) as E1. pose proof (f_equal snd E) as E2.
  cbn [fst snd] in E1, E2. rewrite E1, E2.
  replace ((shift_loan k <$> loans_data)
           ++ [shift_loan k (Loans.to_row id (Loans.loan_locals d c g).1)])
    with (shift_loan k
            <$> (loans_data ++ [Loans.to_row id (Loans.loan_locals d c g).1]))
    by (by rewrite fmap_app).
  apply IH.
Qed.

Lemma create_loans_shift d k g :
  Loans.create_loans (d + k) g
  = (fmap (M := list) (shift_loan k) <$> (Loans.create_loans d g).1,
     (Loans.create_loans d g).2).
Proof.
  unfold Loans.create_loans, Loans.create_loans_with.
  rewrite !bind_run, !LoansFacts.loans_batches_flat.
  rewrite !(loans_rows_shift d k _ _ []). unfold ret. cbn [fst snd].
  by destruct (Loans.loans_rows d _ _ _ _ _) as [[[rows id]|] g'].
Qed.

Lemma payments_rows_shift d k ids (payments_data : list Payments.row) g :
  Payments.payments_rows (d + k) ids (shift_payment k <$> payments_data) g
  = (shift_payment k <$> (Payments.payments_rows d ids payments_data g).1,
     (Payments.payments_rows d ids payments_data g).2).
Proof.
  revert payments_data g.
  induction ids as [|i ids IH]; intros payments_data g; [done|].
  cbn [Payments.payments_rows]. rewrite !bind_run.
  pose proof (payment_locals_shift d k i g) as E.
  pose proof (f_equal fst E) as E1. pose proof (f_equal snd E) as E2.
  cbn [fst snd] in E1, E2. rewrite E1, E2.
  replace ((shift_payment k <$> payments_data)
           ++ [shift_payment k
                 (Payments.to_row i (Payments.payment_locals d g).1)])
    with (shift_payment k
            <$> (payments_data
                 ++ [Payments.to_row i (Payments.payment_locals d g).1]))
    by (by rewrite fmap_app).
  apply IH.
Qed.

Lemma defaults_rows_shift d k ids (defaults_data : list Defaults.row) g :
  Defaults.defaults_rows (d + k) ids (shift_default k <$> defaults_data) g
  = (shift_default k <$> (Defaults.defaults_rows d ids defaults_data g).1,
     (Defaults.defaults_rows d ids defaults_data g).2).
Proof.
  revert defaults_data g.
  induction ids as [|i ids IH]; intros defaults_data g; [done|].
  cbn [Defaults.defaults_rows]. rewrite !bind_run.
  pose proof (default_locals_shift d k i g) as E.
  pose proof (f_equal fst E) as E1. pose proof (f_equal snd E) as E2.
  cbn [fst snd] in E1, E2. rewrite E1, E2.
  replace ((shift_default k <$> defaults_data)
           ++ [shift_default k
                 (Defaults.to_row i (Defaults.default_locals d g).1)])
    with (shift_default k
            <$> (defaults_data
                 ++ [Defaults.to_row i (Defaults.default_locals d g).1]))
    by (by rewrite fmap_app).
  apply IH.
Qed.

Lemma transaction_tables_shift d1 d2 d3 k1 k2 k3 g :
  transaction_tables (d1 + k1) (d2 + k2) (d3 + k3) g
  = (shift_tables k1 k2 k3 (transaction_tables d1 d2 d3 g).1,
     (transaction_tables d1 d2 d3 g).2).
Proof.
  unfold transaction_tables. rewrite !bind_run. cbn [ret fst snd].
  rewrite create_loans_shift. cbn [fst snd].
  unfold Payments.create_payments.
  rewrite !(payments_rows_shift d2 k2 _ []). cbn [fst snd].
  unfold Defaults.create_defaults_collections.
  rewrite !(defaults_rows_shift d3 k3 _ []). reflexivity.
Qed.

Lemma shift_loan_0 r : shift_loan 0 r = r.
Proof. destruct r. unfold shift_loan. cbn. f_equal; lia. Qed.

Lemma shift_payment_0 r : shift_payment 0 r = r.
Proof. destruct r. unfold shift_payment. cbn. f_equal; lia. Qed.

Lemma shift_default_0 r : shift_default 0 r = r.
Proof. destruct r. unfold shift_default. cbn. f_equal; lia. Qed.

Lemma fmap_fixed {A} (f : A → A) (l : list A) :
  (∀ x, f x = x) → f <$> l = l.
Proof. intros Hf. induction l as [|x l IH]; [done|]. cbn. by rewrite Hf, IH. Qed.

Lemma shift_tables_0 t : shift_tables 0 0 0 t = t.
Proof.
  destruct t as [[rows|] ps ds]; unfold shift_tables; cbn;
    rewrite ?(fmap_fixed _ _ shift_loan_0), (fmap_fixed _ _ shift_payment_0),
      (fmap_fixed _ _ shift_default_0); done.
Qed.

Lemma fmap_moved {A} (f : A → A) (l : list A) :
  l ≠ [] → (∀ x, f x ≠ x) → f <$> l ≠ l.
Proof.
  intros Hne Hf E. destruct l as [|x l]; [done|].
  injection E as E _. by apply (Hf x).
Qed.

Lemma shift_loan_moved k r : k ≠ 0 → shift_loan k r ≠ r.
Proof.
  intros Hk E. apply (f_equal Loans.application_date) in E. cbn in E. lia.
Qed.

Lemma shift_payment_moved k r : k ≠ 0 → shift_payment k r ≠ r.
Proof.
  intros Hk E. apply (f_equal Payments.payment_date) in E. cbn in E. lia.
Qed.

Lemma shift_default_moved k r : k ≠ 0 → shift_default k r ≠ r.
Proof.
  intros Hk E. apply (f_equal Defaults.default_date) in E. cbn in E. lia.
Qed.

Lemma transaction_tables_nonempty d1 d2 d3 g :
  let t := (transaction_tables d1 d2 d3 g).1 in
  (exists rows, loans t = Some rows ∧ rows ≠ []) ∧
  payments t ≠ [] ∧ defaults_collections t ≠ [].
Proof.
  unfold transaction_tables. rewrite !bind_run. cbn [ret fst snd loans
    payments defaults_collections].
  split_and!.
  - destruct (LoansFacts.create_loans_run d1 g)
      as (rows & g' & -> & Hlen & _). exists rows. split; [done|].
    intros ->. done.
  - unfold Payments.create_payments.
    destruct (PaymentsFacts.payments_rows_generated d2
                (py_range 1 (OTHER_TABLE_RECORDS + 1)) []
                (Loans.create_loans d1 g).2) as (rows & -> & Hids & _).
    intros E. cbn in E. subst rows. done.
  - unfold Defaults.create_defaults_collections.
    destruct (DefaultsFacts.defaults_rows_generated d3
                (py_range 1 (OTHER_TABLE_RECORDS + 1)) []
                (Payments.create_payments d2 (Loans.create_loans d1 g).2).2)
      as (rows & -> & Hids & _).
    intros E. cbn in E. subst rows. done.
Qed.

End WithSource.
End RunFacts.

(** * Further properties of the generators *)

(** ** The random source: weighted choice *)

Section ChoiceFacts.
Context `{RandomSource}.

Lemma bind_assoc {A B C} (c : Rand A) (k1 : A → Rand B) (k2 : B → Rand C) g :
  bind (bind c k1) k2 g = bind c (fun x => bind (k1 x) k2) g.
Proof. unfold bind. by destruct (c g). Qed.

Lemma bisect_le (a : list Q) (x : Q) (hi : nat) : (bisect a x hi ≤ hi)%nat.
Proof.
  revert a. induction hi as [|hi IH]; intros [|y a]; cbn [bisect]; try lia.
  destruct (Qlt_le_dec x y); [lia|]. specialize (IH a). lia.
Qed.

(** A weighted choice returns an entry of the population. *)
Lemma choices1_elem {A} (dflt : A) (population : list A) (weights : list Q) g :
  population ≠ [] → (choices1 dflt population weights g).1 ∈ population.
Proof.
  intros Hne. unfold choices1. rewrite bind_run. cbn [ret fst].
  apply list_elem_of_In, nth_In.
  pose proof (bisect_le (accumulate 0 weights)
                ((random g).1 * default 0%Q (last (accumulate 0 weights)))%Q
                (length population - 1)).
  destruct population; [done|]. simpl in *. lia.
Qed.

End ChoiceFacts.

(** Run the next draw, looking inside a nested computation first. *)
Ltac step_in :=
  lazymatch goal with
  | |- context [bind (bind ?c ?k1) ?k2 ?g] =>
      rewrite (bind_assoc c k1 k2 g)
  | _ => step
  end;
  cbv beta iota.

(** ** [int] of a non-negative float *)

Lemma py_int_floor (x : Q) :
  (0 <= x)%Q →
  0 ≤ py_int x ∧ (inject_Z (py_int x) <= x < inject_Z (py_int x) + 1)%Q.
Proof.
  intros Hx. assert (py_int x = Qfloor x) as ->.
  { unfold py_int. destruct x as [n d]. cbn.
    apply Z.quot_div_nonneg; [|done]. unfold Qle in Hx. cbn in Hx. lia. }
  pose proof (Qfloor_le x). pose proof (Qlt_floor x).
  rewrite inject_Z_plus in *. change (inject_Z 1) with 1%Q in *.
  split; [|lra]. change 0 with (Qfloor 0). by apply Qfloor_resp_le.
Qed.


(** ** Rounding between two-decimal bounds *)

Lemma round2_between (a b x : Q) :
  (round2 a == a)%Q → (round2 b == b)%Q → (a <= x <= b)%Q →
  (a <= round2 x <= b)%Q.
Proof.
  intros Ha Hb [Hax Hxb]. split.
  - rewrite <- Ha. by apply round2_mono.
  - rewrite <- Hb. by apply round2_mono.
Qed.


Lemma round2_le (b x : Q) : (round2 b == b)%Q → (x <= b)%Q → (round2 x <= b)%Q.
Proof. intros Hb Hx. rewrite <- Hb. by apply round2_mono. Qed.

Lemma round2_ge (a x : Q) : (round2 a == a)%Q → (a <= x)%Q → (a <= round2 x)%Q.
Proof. intros Ha Hx. rewrite <- Ha. by apply round2_mono. Qed.

(** ** The EMI *)

Module EmiFacts.
Import Loans LoansFacts.

(** Bernoulli-style bound: compounding [k] times at rate [r] gains at most
    [k * r] times the compounded value. *)
Lemma compound_gain (r : Q) (k : nat) :
  (0 <= r)%Q →
  ((1 + r) ^ Z.of_nat k - 1 <= inject_Z (Z.of_nat k) * r * (1 + r) ^ Z.of_nat k)%Q.
Proof.
  intros Hr. induction k as [|k IH].
  - change ((1 + r) ^ Z.of_nat 0)%Q with 1%Q.
    change (inject_Z (Z.of_nat 0)) with 0%Q. lra.
  - rewrite Nat2Z.inj_succ, <- Z.add_1_r.
    rewrite Qpower_plus by lra. rewrite inject_Z_plus.
    change (inject_Z 1) with 1%Q. change ((1 + r) ^ 1)%Q with (1 + r)%Q.
    assert (1 <= (1 + r) ^ Z.of_nat k)%Q as Hq
      by (apply Qpower_1_le; [lra|lia]).
    assert (0 <= inject_Z (Z.of_nat k))%Q as Hk
      by (rewrite <- (Zle_Qle 0); lia).
    set (q := ((1 + r) ^ Z.of_nat k)%Q) in *.
    set (n := inject_Z (Z.of_nat k)) in *. nra.
Qed.

Lemma emi_bounds (P rate : Q) (n : Z) :
  (0 < P)%Q → (0 < rate)%Q → 0 < n →
  (P * monthly_rate_of rate < emi P rate n)%Q ∧
  (P <= inject_Z n * emi P rate n)%Q.
Proof.
  intros HP Hrate Hn.
  pose proof (monthly_rate_of_scale rate) as Hscale.
  set (r := monthly_rate_of rate) in *.
  assert (0 < r)%Q as Hr by lra.
  unfold emi. fold r. destruct (Qlt_le_dec 0 r) as [_|?]; [|lra].
  assert (1 < (1 + r) ^ n)%Q as Hq by (apply Qpower_1_lt; [lra|lia]).
  pose proof (compound_gain r (Z.to_nat n) ltac:(lra)) as Hgain.
  rewrite Z2Nat.id in Hgain by lia.
  assert (0 < inject_Z n)%Q as Hn' by (rewrite <- (Zlt_Qlt 0); lia).
  set (q := ((1 + r) ^ n)%Q) in *. set (m := inject_Z n) in *.
  split.
  - apply Qlt_shift_div_l; [lra|]. nra.
  - assert (m * (P * r * q / (q - 1)) == (m * (P * r * q)) / (q - 1))%Q
      as -> by (field; lra).
    apply Qle_shift_div_l; [lra|]. nra.
Qed.

(** X3. For a positive principal, rate and tenure the EMI is larger than the
    first month's interest [P * r], and [n] installments repay at least
    the principal. *)
Theorem emi_amortizes (P rate : Q) (n : Z) :
  (0 < P)%Q → (0 < rate)%Q → 0 < n →
  (P * monthly_rate_of rate < emi P rate n)%Q ∧
  (P <= inject_Z n * emi P rate n)%Q.
Proof. apply emi_bounds. Qed.

Lemma emi_amortizes_witness :
  (200000 * monthly_rate_of 12.5 < emi 200000 12.5 36)%Q ∧
  (200000 <= inject_Z 36 * emi 200000 12.5 36)%Q.
Proof. apply emi_amortizes; [reflexivity|reflexivity|lia]. Defined.

End EmiFacts.

(** ** The customer pools of the loans generator *)

Module PoolFacts.
Import Loans LoansFacts Pools.

Lemma customers_with_1_loan_quot L : customers_with_1_loan L = (6 * L) ÷ 10.
Proof. reflexivity. Qed.

Lemma customers_with_2_loans_quot L : customers_with_2_loans L = (25 * L) ÷ 100.
Proof. reflexivity. Qed.

Lemma pool_sizes_nonneg L :
  0 ≤ L →
  0 ≤ customers_with_1_loan L ∧ 0 ≤ customers_with_2_loans L ∧
  0 ≤ customers_with_3_loans L ∧ pool_size L ≤ L.
Proof.
  intros HL. unfold pool_size, customers_with_3_loans.
  rewrite customers_with_1_loan_quot, customers_with_2_loans_quot.
  rewrite !Z.quot_div_nonneg by lia.
  pose proof (Z.div_mod (6 * L) 10 ltac:(lia)).
  pose proof (Z.mod_pos_bound (6 * L) 10 ltac:(lia)).
  pose proof (Z.div_mod (25 * L) 100 ltac:(lia)).
  pose proof (Z.mod_pos_bound (25 * L) 100 ltac:(lia)).
  set (c1 := 6 * L / 10) in *. set (c2 := 25 * L / 100) in *.
  assert (0 ≤ L - c1 - c2) by lia.
  pose proof (Z.div_mod c2 2 ltac:(lia)).
  pose proof (Z.mod_pos_bound c2 2 ltac:(lia)).
  pose proof (Z.div_mod (L - c1 - c2) 3 ltac:(lia)).
  pose proof (Z.mod_pos_bound (L - c1 - c2) 3 ltac:(lia)).
  lia.
Qed.

Section WithSource.
Context `{RandomSource}.

(** The ids a pool loop draws, each repeated [copies] times. *)
Lemma draw_pool_drawn copies n acc g :
  exists drawn : list Z,
    (draw_pool copies n acc g).1 = acc ++ (drawn ≫= replicate copies) ∧
    length drawn = n ∧
    Forall (fun c => 1 ≤ c ≤ CUSTOMER_RECORDS) drawn.
Proof.
  revert acc g. induction n as [|n IH]; intros acc g.
  - exists []. by rewrite app_nil_r.
  - cbn [draw_pool]. rewrite bind_run.
    set (c := (randint 1 CUSTOMER_RECORDS g).1).
    destruct (IH (acc ++ replicate copies c)
                 (randint 1 CUSTOMER_RECORDS g).2) as (drawn & -> & Hlen & Hall).
    exists (c :: drawn). split_and!.
    + by rewrite <- app_assoc.
    + simpl. lia.
    + constructor; [|done]. by apply randint_range.
Qed.

Lemma length_bind_replicate copies (drawn : list Z) :
  length (drawn ≫= replicate copies) = (copies * length drawn)%nat.
Proof.
  induction drawn as [|c drawn IH]; [simpl; lia|].
  rewrite bind_cons, length_app, length_replicate, IH. simpl. lia.
Qed.

Lemma customer_loan_pairs_length L g :
  0 ≤ L →
  Z.of_nat (length (customer_loan_pairs L g).1) = Z.min L (pool_size L).
Proof.
  intros HL. destruct (pool_sizes_nonneg L HL) as (H1 & H2 & H3 & _).
  unfold customer_loan_pairs. rewrite !bind_run. cbn [ret fst].
  rewrite length_take, shuffle_Permutation.
  set (n1 := Z.to_nat (customers_with_1_loan L)).
  set (n2 := Z.to_nat (customers_with_2_loans L / 2)).
  set (n3 := Z.to_nat (customers_with_3_loans L / 3)).
  destruct (draw_pool_run 1 n1 [] g) as (p1 & E1 & Hl1 & _). rewrite E1.
  destruct (draw_pool_run 2 n2 ([] ++ p1) (draw_pool 1 n1 [] g).2)
    as (p2 & E2 & Hl2 & _). rewrite E2.
  destruct (draw_pool_run 3 n3 (([] ++ p1) ++ p2)
              (draw_pool 2 n2 ([] ++ p1) (draw_pool 1 n1 [] g).2).2)
    as (p3 & E3 & Hl3 & _). rewrite E3.
  rewrite !length_app. cbn [length]. unfold pool_size.
  pose proof (Z.div_pos _ 2 H2 eq_refl). pose proof (Z.div_pos _ 3 H3 eq_refl).
  lia.
Qed.

(** The pools fall short of the target exactly when the 2-loan pool size
    is odd or the 3-loan pool size is not a multiple of 3, because of the
    two floor divisions. *)
Lemma pool_size_short_iff L :
  0 ≤ L →
  pool_size L < L ↔
  ¬ (customers_with_2_loans L mod 2 = 0 ∧ customers_with_3_loans L mod 3 = 0).
Proof.
  intros HL. destruct (pool_sizes_nonneg L HL) as (H1 & H2 & H3 & Hle).
  unfold pool_size, customers_with_3_loans in *.
  set (c1 := customers_with_1_loan L) in *.
  set (c2 := customers_with_2_loans L) in *.
  pose proof (Z.div_mod c2 2 ltac:(lia)).
  pose proof (Z.mod_pos_bound c2 2 ltac:(lia)).
  pose proof (Z.div_mod (L - c1 - c2) 3 ltac:(lia)).
  pose proof (Z.mod_pos_bound (L - c1 - c2) 3 ltac:(lia)).
  lia.
Qed.

(** For a target [L >= 0], [create_loans] raises [IndexError] (at
    [customer_loan_pairs[i]]) exactly when the pools hold fewer than [L]
    customer ids. *)
Lemma create_loans_with_short L current_date g :
  0 ≤ L →
  (create_loans_with L current_date g).1 = None ↔ pool_size L < L.
Proof.
  intros HL. destruct (pool_sizes_nonneg L HL) as (H1 & H2 & H3 & Hle).
  split.
  - intros Hnone. destruct (decide (pool_size L < L)) as [|Hge]; [done|].
    destruct (create_loans_with_run L current_date g) as (rows & g' & E & _);
      [done|unfold pool_size in *; lia|done..|].
    by rewrite E in Hnone.
  - intros Hshort.
    pose proof (customer_loan_pairs_length L g HL) as Hlen.
    unfold create_loans_with. rewrite bind_run.
    set (pairs := (customer_loan_pairs L g).1) in *.
    set (g1 := (customer_loan_pairs L g).2).
    rewrite bind_run, loans_batches_flat, batch_indices_all by done.
    unfold py_range. rewrite Z.sub_0_r.
    replace L with (pool_size L + (L - pool_size L)) at 1 by lia.
    assert (0 ≤ pool_size L) by (unfold pool_size;
      pose proof (Z.div_pos _ 2 H2 eq_refl);
      pose proof (Z.div_pos _ 3 H3 eq_refl); lia).
    rewrite seqZ_app, loans_rows_app by lia.
    destruct (loans_rows_run current_date pairs (seqZ 0 (pool_size L)) [] 1 g1)
      as (new & g' & -> & _).
    { apply Forall_seqZ. lia. }
    rewrite (seqZ_cons (0 + pool_size L)) by lia. cbn [loans_rows].
    rewrite (proj2 (lookup_ge_None _ _)) by lia. done.
Qed.

(** X4. For a target of [L >= 0] loans, [create_loans] raises [IndexError]
    (at [customer_loan_pairs[i]]) exactly when the 2-loan share is odd or
    the 3-loan share is not a multiple of 3: the floor divisions of the
    pool loops then leave the shuffled list shorter than [L]. *)
Theorem create_loans_with_raises_iff L current_date g :
  0 ≤ L →
  (create_loans_with L current_date g).1 = None ↔
  ¬ (customers_with_2_loans L mod 2 = 0 ∧ customers_with_3_loans L mod 3 = 0).
Proof.
  intros HL. rewrite <- pool_size_short_iff by done.
  by apply create_loans_with_short.
Qed.

Lemma bind_replicate_1 (drawn : list Z) : drawn ≫= replicate 1 = drawn.
Proof.
  induction drawn as [|c drawn IH]; [done|].
  rewrite bind_cons, IH. done.
Qed.

Lemma customer_loan_pairs_pool L g :
  0 ≤ L → pool_size L = L →
  exists once twice thrice : list Z,
    Z.of_nat (length once) = customers_with_1_loan L ∧
    Z.of_nat (length twice) = customers_with_2_loans L / 2 ∧
    Z.of_nat (length thrice) = customers_with_3_loans L / 3 ∧
    Forall (fun c => 1 ≤ c ≤ CUSTOMER_RECORDS) (once ++ twice ++ thrice) ∧
    (customer_loan_pairs L g).1
    ≡ₚ once ++ (twice ≫= replicate 2) ++ (thrice ≫= replicate 3).
Proof.
  intros HL Hfull. destruct (pool_sizes_nonneg L HL) as (H1 & H2 & H3 & _).
  pose proof (Z.div_pos _ 2 H2 eq_refl). pose proof (Z.div_pos _ 3 H3 eq_refl).
  unfold customer_loan_pairs. rewrite !bind_run. cbn [ret fst].
  set (n1 := Z.to_nat (customers_with_1_loan L)).
  set (n2 := Z.to_nat (customers_with_2_loans L / 2)).
  set (n3 := Z.to_nat (customers_with_3_loans L / 3)).
  destruct (draw_pool_drawn 1 n1 [] g) as (d1 & E1 & Hl1 & Ha1). rewrite E1.
  destruct (draw_pool_drawn 2 n2 ([] ++ (d1 ≫= replicate 1))
              (draw_pool 1 n1 [] g).2) as (d2 & E2 & Hl2 & Ha2). rewrite E2.
  destruct (draw_pool_drawn 3 n3
              (([] ++ (d1 ≫= replicate 1)) ++ (d2 ≫= replicate 2))
              (draw_pool 2 n2 ([] ++ (d1 ≫= replicate 1))
                 (draw_pool 1 n1 [] g).2).2) as (d3 & E3 & Hl3 & Ha3).
  rewrite E3.
  exists d1, d2, d3. split_and!; [lia..| |].
  - repeat apply Forall_app_2; done.
  - rewrite take_ge.
    + rewrite shuffle_Permutation, bind_replicate_1. cbn [app].
      by rewrite <- app_assoc.
    + rewrite shuffle_Permutation, !length_app, !length_bind_replicate.
      cbn [length]. unfold pool_size in Hfull. lia.
Qed.

(** X5. The customer ids of the 400,000 loan rows are, as a multiset, 240,000
    drawn ids once each, 50,000 drawn ids twice each and 20,000 drawn ids
    three times each: the shuffle and the truncation lose none. *)
Theorem loans_customer_multiset current_date g :
  exists rows g' (once twice thrice : list Z),
    create_loans current_date g = (Some rows, g') ∧
    Z.of_nat (length once) = 240000 ∧
    Z.of_nat (length twice) = 50000 ∧
    Z.of_nat (length thrice) = 20000 ∧
    Forall (fun c => 1 ≤ c ≤ 500000) (once ++ twice ++ thrice) ∧
    customer_id <$> rows
    ≡ₚ once ++ (twice ≫= replicate 2) ++ (thrice ≫= replicate 3).
Proof.
  destruct (create_loans_run current_date g)
    as (rows & g' & Hrun & _ & _ & Hcust & _).
  destruct (customer_loan_pairs_pool LOAN_RECORDS g)
    as (d1 & d2 & d3 & Hl1 & Hl2 & Hl3 & Hall & Hperm); [done..|].
  exists rows, g', d1, d2, d3. rewrite Hcust. by split_and!.
Qed.

End WithSource.

Lemma create_loans_with_raises_iff_witness :
  (@create_loans_with scripted 10 739923 []).1 = None ↔
  ¬ (customers_with_2_loans 10 mod 2 = 0 ∧ customers_with_3_loans 10 mod 3 = 0).
Proof. apply create_loans_with_raises_iff. lia. Defined.

End PoolFacts.

(** ** Loan rows: status, dates and ranges *)

Module LoanRowFacts.
Import Loans LoansFacts.

Section WithSource.
Context `{RandomSource}.

(** X6. An [Active] loan has not reached its maturity date; a [Closed] loan
    has, and its tenure is 36 or 48 months (at most 48 months can have
    elapsed); every loan was disbursed at least 15 days before the run. *)
Theorem loans_status_and_maturity current_date g :
  exists rows g',
    create_loans current_date g = (Some rows, g') ∧
    Forall (fun r =>
      (loan_status r = Active → current_date < maturity_date r) ∧
      (loan_status r = Closed →
       maturity_date r ≤ current_date ∧ loan_tenure_months r ≤ 48) ∧
      disbursement_date r + 15 ≤ current_date) rows.
Proof.
  destruct (create_loans_rows current_date g) as (rows & g' & Hrun & Hgen).
  exists rows, g'. split; [done|].
  eapply Forall_impl; [exact Hgen|].
  intros r (c & g0 & ->).
  destruct (loan_locals_spec current_date c g0)
    as [_ _ _ _ _ Htenure Hback Happ Hdisb Hmat _ Hms _ Hst].
  set (v := (loan_locals current_date c g0).1) in *.
  cbn [to_row loan_status maturity_date loan_tenure_months disbursement_date].
  assert (36 ≤ v_tenure_months v ≤ 96) as Hten.
  { revert Htenure. generalize (v_tenure_months v). intros t Ht.
    repeat (apply elem_of_cons in Ht as [->|Ht]; [lia|]).
    by apply elem_of_nil in Ht. }
  rewrite Hst, Hms. unfold status_of, months_since_of.
  set (days := current_date - v_disbursement_date v).
  assert (15 ≤ days ≤ 1453) as Hdays by (unfold days; lia).
  pose proof (Z.div_mod days 30 ltac:(lia)) as Hdm.
  pose proof (Z.mod_pos_bound days 30 ltac:(lia)) as Hmod.
  split_and!; [| |lia].
  - repeat destruct (Qlt_le_dec _ _); try done.
    destruct (decide _) as [Hc|Hc]; [done|]. intros _. lia.
  - repeat destruct (Qlt_le_dec _ _); try done.
    destruct (decide _) as [Hc|Hc]; [|done]. intros _. lia.
Qed.

Lemma loan_locals_purpose current_date customer_id g :
  v_purpose (loan_locals current_date customer_id g).1 ∈ purpose_options.
Proof.
  unfold loan_locals. rewrite !bind_run. cbn [ret fst v_purpose].
  by apply choices1_elem.
Qed.

(** X7. The ranges of the stored columns of a loan row. *)
Theorem loans_ranges current_date g :
  exists rows g',
    create_loans current_date g = (Some rows, g') ∧
    Forall (fun r =>
      1 ≤ institution_id r ≤ 350000 ∧
      (200000 <= loan_amount r <= 1050000)%Q ∧
      (8.5 <= interest_rate r <= 17.5)%Q ∧
      loan_tenure_months r ∈ [36; 48; 60; 72; 84; 96] ∧
      current_date - 1460 ≤ application_date r ≤ current_date - 60 ∧
      (2083 <= emi_amount r)%Q ∧
      purpose_of_loan r ∈ purpose_options) rows.
Proof.
  destruct (create_loans_rows current_date g) as (rows & g' & Hrun & Hgen).
  exists rows, g'. split; [done|].
  eapply Forall_impl; [exact Hgen|].
  intros r (c & g0 & ->).
  pose proof (loan_locals_purpose current_date c g0) as Hpurpose.
  destruct (loan_locals_spec current_date c g0)
    as [_ Hinst Hamt _ Hrate Htenure Hback Happ _ _ Hemi _ _ _].
  set (v := (loan_locals current_date c g0).1) in *.
  cbn [to_row institution_id loan_amount interest_rate loan_tenure_months
       application_date emi_amount purpose_of_loan].
  split; [unfold OTHER_TABLE_RECORDS in Hinst; lia|].
  split; [by apply round2_between|].
  split; [by apply round2_between|].
  split; [done|]. split; [lia|]. split; [|done].
  assert (36 ≤ v_tenure_months v ≤ 96) as Hten.
  { revert Htenure. generalize (v_tenure_months v). intros t Ht.
    repeat (apply elem_of_cons in Ht as [->|Ht]; [lia|]).
    by apply elem_of_nil in Ht. }
  destruct (EmiFacts.emi_bounds (v_loan_amount v) (v_interest_rate v)
              (v_tenure_months v)) as [_ Hrepay]; [lra|lra|lia|].
  rewrite <- Hemi in Hrepay.
  assert (inject_Z (v_tenure_months v) <= 96)%Q as Hn
    by (rewrite <- (Zle_Qle _ 96); lia).
  assert (0 < inject_Z (v_tenure_months v))%Q as Hn0
    by (rewrite <- (Zlt_Qlt 0); lia).
  rewrite <- (round2_inject 2083). apply round2_mono.
  change (inject_Z 2083) with 2083%Q.
  set (n := inject_Z (v_tenure_months v)) in *.
    set (e := v_emi_amount v) in *. nra.
Qed.

End WithSource.
End LoanRowFacts.


(** ** Payment rows: ranges *)

Module PaymentRowFacts.
Import Payments PaymentsFacts.

Section WithSource.
Context `{RandomSource}.

Lemma payment_locals_method current_date g :
  v_payment_method (payment_locals current_date g).1 ∈ methods.
Proof.
  unfold payment_locals. rewrite !bind_run.
  destruct ((if Qlt_le_dec _ 0.92 then ret Success
             else choice Failed [Failed; Pending]) _).1;
    rewrite !bind_run; cbn [ret fst v_payment_method];
    by apply choices1_elem.
Qed.

Lemma payment_locals_ranges current_date g :
  let v := (payment_locals current_date g).1 in
  1 ≤ v_loan_id v ≤ 400000 ∧
  current_date - 730 ≤ v_payment_date v ≤ current_date - 1 ∧
  (1500 <= v_payment_amount v <= 50500)%Q ∧
  (v_payment_status v = Success →
   (0.3 * v_payment_amount v <= v_interest_component v
    <= 0.7 * v_payment_amount v)%Q ∧
   (0.3 * v_payment_amount v <= v_principal_component v
    <= 0.7 * v_payment_amount v)%Q ∧
   (0 <= v_late_fee v <= 1000)%Q ∧
   (50000 <= v_outstanding_balance v <= 500000)%Q) ∧
  (v_payment_status v ≠ Success →
   (100000 <= v_outstanding_balance v <= 600000)%Q).
Proof.
  unfold payment_locals. do 8 step_in; repeat step_in; cbv beta iota;
    try match goal with
        | |- context [match ?s with Success => _ | _ => _ end] =>
            is_var s; destruct s
        end;
    repeat step_in; cbn;
    match goal with
    | |- context [py_max 1000 ?x] =>
        assert (1500 <= x <= 50500)%Q as Hamount by nra;
        assert (py_max 1000 x = x) as ->
          by (unfold py_max; destruct (Qlt_le_dec 1000 x); [done|lra]);
        revert Hamount; generalize x; intros ? Hamount
    end;
    (split; [lia|]; split; [lia|]; split; [exact Hamount|];
     split; intros; try done; repeat split; nra).
Qed.

(** X8. The ranges of a payment row.  The amount is at least 1500 (so the
    floor of 1000 in the code never applies) and at most 50500; the payment
    date is 1 to 730 days before the run; a payment that did not succeed
    has an outstanding balance of at least 100000; the stored interest and
    principal of a successful payment are each, to the cent, between 30%
    and 70% of the stored amount.  The cent covers the independent
    roundings of the stored columns and leaves room for the rounding of
    the binary64 products. *)
Theorem payments_ranges current_date g :
  Forall (fun r =>
    1 ≤ loan_id r ≤ 400000 ∧
    current_date - 730 ≤ payment_date r ≤ current_date - 1 ∧
    (1500 <= payment_amount r <= 50500)%Q ∧
    payment_method r ∈ methods ∧
    (0 <= late_fee r <= 1000)%Q ∧
    (50000 <= outstanding_balance r <= 600000)%Q ∧
    (payment_status r ≠ Success → (100000 <= outstanding_balance r)%Q) ∧
    (payment_status r = Success →
     (0.3 * payment_amount r - 0.01 <= interest_component r
      <= 0.7 * payment_amount r + 0.01)%Q ∧
     (0.3 * payment_amount r - 0.01 <= principal_component r
      <= 0.7 * payment_amount r + 0.01)%Q))
    (create_payments current_date g).1.
Proof.
  unfold create_payments.
  destruct (payments_rows_generated current_date
              (py_range 1 (OTHER_TABLE_RECORDS + 1)) [] g)
    as (rows & -> & _ & Hgen).
  eapply Forall_impl; [exact Hgen|].
  intros r (g0 & Hr).
  pose proof (payment_locals_method current_date g0) as Hmethod.
  destruct (payment_locals_ranges current_date g0)
    as (Hloan & Hdate & Hamount & Hok & Hko).
  destruct (payment_locals_spec current_date g0) as [_ _ Hzero].
  set (v := (payment_locals current_date g0).1) in *.
  assert (payment_status r = v_payment_status v) as Hst by (by rewrite Hr).
  assert ((0 <= v_late_fee v <= 1000)%Q ∧
          (50000 <= v_outstanding_balance v <= 600000)%Q ∧
          (100000 <= v_outstanding_balance v ∨ v_payment_status v = Success)%Q)
    as (Hfee & Hout & Hout').
  { assert (v_payment_status v = Success ∨ v_payment_status v ≠ Success)
      as [Hs|Hs] by (destruct (v_payment_status v); auto).
    - destruct (Hok Hs) as (_ & _ & ? & ?).
      split_and!; first [lra | by right].
    - destruct (Hzero Hs) as (_ & _ & ->). specialize (Hko Hs).
      split_and!; first [lra | left; lra]. }
  assert (loan_id r = v_loan_id v ∧ payment_date r = v_payment_date v ∧
          payment_amount r = round2 (v_payment_amount v) ∧
          payment_method r = v_payment_method v ∧
          late_fee r = round2 (v_late_fee v) ∧
          outstanding_balance r = round2 (v_outstanding_balance v) ∧
          interest_component r = round2 (v_interest_component v) ∧
          principal_component r = round2 (v_principal_component v))
    as (-> & -> & -> & -> & -> & -> & -> & ->) by (by rewrite Hr).
  rewrite Hst.
  split; [done|]. split; [done|].
  split; [by apply round2_between|]. split; [done|].
  split; [by apply (round2_between 0 1000)|].
  split; [by apply round2_between|].
  split.
  { intros Hs. destruct Hout' as [Hout'|Hs']; [|done].
    rewrite <- (round2_inject 100000). by apply round2_mono. }
  intros Hs. destruct (Hok Hs) as (Hint & Hprin & _).
  pose proof (round2_error (v_payment_amount v)) as Ha.
  pose proof (round2_error (v_interest_component v)) as Hi.
  pose proof (round2_error (v_principal_component v)) as Hp.
  apply Qabs_Qle_condition in Ha, Hi, Hp.
  split; split; lra.
Qed.

End WithSource.
End PaymentRowFacts.


(** ** Default records: status, notice, recovery and ranges *)

Module DefaultRowFacts.
Import Defaults DefaultsFacts.

Section WithSource.
Context `{RandomSource}.

(** The status drawn for a record that is [d] days overdue. *)
Lemma draw_collection_status_age d g :
  let s := (draw_collection_status d g).1 in
  (d ≤ 180 → s = Active) ∧
  (s = LegalAction → 180 < d) ∧
  (s = WrittenOff → 365 < d) ∧
  (s = Settled → 730 < d).
Proof.
  unfold draw_collection_status. cbv zeta.
  destruct (decide (730 < d)); [|destruct (decide (365 < d));
    [|destruct (decide (180 < d))]].
  - pose proof (choices1_elem Active [WrittenOff; LegalAction; Settled]
                  [50; 30; 20]%Q g ltac:(done)) as Hin.
    split_and!; intros; lia.
  - pose proof (choices1_elem Active [LegalAction; Active; WrittenOff]
                  [40; 35; 25]%Q g ltac:(done)) as Hin.
    split_and!; [lia|lia|lia|]. intros Hs. rewrite Hs in Hin.
    repeat (apply elem_of_cons in Hin as [?|Hin]; [done|]).
    by apply elem_of_nil in Hin.
  - pose proof (choices1_elem Active [Active; LegalAction]
                  [60; 40]%Q g ltac:(done)) as Hin.
    split_and!; [lia|lia| |]; intros Hs; rewrite Hs in Hin;
      repeat (apply elem_of_cons in Hin as [?|Hin]; [done|]);
      by apply elem_of_nil in Hin.
  - cbn. split_and!; [done|done..].
Qed.

Lemma draw_legal_notice_rule s d g :
  let sent := (draw_legal_notice s d g).1 in
  (s = LegalAction ∨ s = WrittenOff → sent = true) ∧
  (sent = true → s = LegalAction ∨ s = WrittenOff ∨ 180 < d).
Proof.
  unfold draw_legal_notice. cbv zeta.
  destruct s; cbn; try (split; intros; auto; fail);
    (destruct (decide (180 < d));
     [ rewrite bind_run; cbn [ret fst];
       split; [intros [|]; done | intros _; right; by right]
     | cbn; split; [intros [|]; done | done] ]).
Qed.

(** The status and the notice of a record are drawn for its own
    [days_overdue]. *)
Lemma default_locals_draws current_date g :
  let v := (default_locals current_date g).1 in
  exists g1 g2,
    v_collection_status v
    = (draw_collection_status (v_days_overdue v) g1).1 ∧
    v_legal_notice_sent v
    = (draw_legal_notice (v_collection_status v) (v_days_overdue v) g2).1.
Proof.
  unfold default_locals. rewrite !bind_run.
  cbn [ret fst v_collection_status v_legal_notice_sent v_days_overdue].
  eexists _, _. split; reflexivity.
Qed.

Lemma default_locals_ranges current_date g :
  let v := (default_locals current_date g).1 in
  1 ≤ v_customer_id v ≤ 500000 ∧
  1 ≤ v_loan_id v ≤ 400000 ∧
  5 ≤ v_contact_attempts v ≤ 50 ∧
  1 ≤ v_collection_agent_id v ≤ 100 ∧
  (0.4 <= rate_Settled (v_recovery_rates v) <= 0.9)%Q ∧
  (0 <= rate_Active (v_recovery_rates v) <= 0.5)%Q ∧
  (0.1 <= rate_LegalAction (v_recovery_rates v) <= 0.6)%Q ∧
  (0 <= rate_WrittenOff (v_recovery_rates v) <= 0.3)%Q.
Proof.
  unfold default_locals. do 8 step; repeat step.
  cbn. unfold CUSTOMER_RECORDS in *. split_and!; try lia; lra.
Qed.

(** X9. How the collection status and the legal notice depend on the age of
    the default: up to 180 days overdue a record is [Active] with no notice
    sent; [Legal Action] needs more than 180 days, [Written Off] more than
    365 and [Settled] more than 730; a notice is always sent for [Legal
    Action] and [Written Off], and never before day 181. *)
Theorem defaults_status_by_age current_date g :
  Forall (fun r =>
    (days_overdue r ≤ 180 →
     collection_status r = Active ∧ legal_notice_sent r = false) ∧
    (collection_status r = LegalAction → 180 < days_overdue r) ∧
    (collection_status r = WrittenOff → 365 < days_overdue r) ∧
    (collection_status r = Settled → 730 < days_overdue r) ∧
    (collection_status r = LegalAction ∨ collection_status r = WrittenOff →
     legal_notice_sent r = true) ∧
    (legal_notice_sent r = true → 180 < days_overdue r))
    (create_defaults_collections current_date g).1.
Proof.
  eapply Forall_impl; [apply create_defaults_collections_rows|].
  intros r (g0 & ->).
  destruct (default_locals_draws current_date g0) as (g1 & g2 & Hs & Hn).
  set (v := (default_locals current_date g0).1) in *.
  cbn [to_row days_overdue collection_status legal_notice_sent].
  destruct (draw_collection_status_age (v_days_overdue v) g1)
    as (Hyoung & Hlegal & Hwritten & Hsettled).
  destruct (draw_legal_notice_rule (v_collection_status v)
              (v_days_overdue v) g2) as (Hsent & Hwhy).
  rewrite <- Hs in Hyoung, Hlegal, Hwritten, Hsettled.
  rewrite <- Hn in Hsent, Hwhy.
  split_and!; try done.
  - intros Hd. split; [by apply Hyoung|].
    destruct (v_legal_notice_sent v); [|done].
    destruct Hwhy as [Hl|[Hw|?]]; [done| | |lia].
    + specialize (Hlegal Hl). lia.
    + specialize (Hwritten Hw). lia.
  - intros Ht. destruct (Hwhy Ht) as [Hl|[Hw|?]]; [|specialize (Hwritten Hw)|];
      [by apply Hlegal|lia|done].
Qed.

(** X10. The stored recovery amount lies, to the cent, in the band of the
    record's status: between 40% and 90% of the stored default amount when
    [Settled], between 10% and 60% for [Legal Action], at most 50% when
    [Active] and at most 30% when [Written Off].  The cent covers the two
    independent roundings of the stored columns and leaves room for the
    rounding of the binary64 product. *)
Theorem defaults_recovery_bands current_date g :
  Forall (fun r =>
    (0 <= recovery_amount r)%Q ∧
    (collection_status r = Settled →
     (0.4 * default_amount r - 0.01 <= recovery_amount r
      <= 0.9 * default_amount r + 0.01)%Q) ∧
    (collection_status r = LegalAction →
     (0.1 * default_amount r - 0.01 <= recovery_amount r
      <= 0.6 * default_amount r + 0.01)%Q) ∧
    (collection_status r = Active →
     (recovery_amount r <= 0.5 * default_amount r + 0.01)%Q) ∧
    (collection_status r = WrittenOff →
     (recovery_amount r <= 0.3 * default_amount r + 0.01)%Q))
    (create_defaults_collections current_date g).1.
Proof.
  eapply Forall_impl; [apply create_defaults_collections_rows|].
  intros r (g0 & ->).
  destruct (default_locals_ranges current_date g0)
    as (_ & _ & _ & _ & HS & HA & HL & HW).
  destruct (default_locals_spec current_date g0)
    as [_ _ _ _ _ Hamount _ Hrec].
  set (v := (default_locals current_date g0).1) in *.
  cbn [to_row collection_status recovery_amount default_amount].
  pose proof (round2_error (v_recovery_amount v)) as Hr.
  pose proof (round2_error (v_default_amount v)) as Hd.
  apply Qabs_Qle_condition in Hr, Hd.
  assert (0 <= round2 (v_recovery_amount v))%Q as H0.
  { apply (round2_ge 0); [done|]. rewrite Hrec.
    pose proof (spec_rates _ _ (default_locals_spec current_date g0)
                  (v_collection_status v)) as Hrate.
    fold v in Hrate. nra. }
  set (R := round2 (v_recovery_amount v)) in *.
  set (D := round2 (v_default_amount v)) in *.
  rewrite Hrec in Hr. split; [done|].
  destruct (v_collection_status v); cbn [rate_of] in Hr;
    split_and!; intros; try done; nra.
Qed.

(** X11. The ranges of the other columns of a default record. *)
Theorem defaults_ranges current_date g :
  default_id <$> (create_defaults_collections current_date g).1
  = seqZ 1 350000 ∧
  Forall (fun r =>
    1 ≤ customer_id r ≤ 500000 ∧
    1 ≤ loan_id r ≤ 400000 ∧
    current_date - 1095 ≤ default_date r ≤ current_date - 30 ∧
    30 ≤ days_overdue r ≤ 1095 ∧
    (100000 <= default_amount r <= 800000)%Q ∧
    (0 <= recovery_amount r <= 720000)%Q ∧
    5 ≤ contact_attempts r ≤ 50 ∧
    last_contact_date r < current_date ∧
    1 ≤ collection_agent_id r ≤ 100)
    (create_defaults_collections current_date g).1.
Proof.
  unfold create_defaults_collections.
  destruct (defaults_rows_generated current_date
              (py_range 1 (OTHER_TABLE_RECORDS + 1)) [] g)
    as (rows & -> & Hids & Hgen).
  split; [done|].
  eapply Forall_impl; [exact Hgen|].
  intros r (g0 & ->).
  destruct (default_locals_ranges current_date g0)
    as (Hc & Hl & Hca & Hag & _).
  destruct (default_locals_spec current_date g0)
    as [Hback Hdate Hover Hcontact Hlast Hamount Hrates Hrec].
  set (v := (default_locals current_date g0).1) in *.
  cbn [to_row customer_id loan_id default_date days_overdue default_amount
       recovery_amount contact_attempts last_contact_date
       collection_agent_id].
  split; [done|]. split; [done|]. split; [lia|]. split; [lia|].
  split; [by apply round2_between|].
  split.
  { apply (round2_between 0 720000); [done..|]. rewrite Hrec.
    specialize (Hrates (v_collection_status v)). nra. }
  split; [done|]. split; [lia|done].
Qed.

End WithSource.
End DefaultRowFacts.


(** ** The city dimension for any list of cities and any state table *)

Module DimCityFacts.
Import DimCity.

Lemma state_lookup_snoc state_df s :
  state_lookup (state_df ++ [s])
  = <[DimState.state_name s := DimState.state_id s]> (state_lookup state_df).
Proof. unfold state_lookup. by rewrite foldl_app. Qed.

(** The lookup has an entry exactly for the names of the state rows... *)
Lemma state_lookup_None state_df name :
  state_lookup state_df !! name = None
  ↔ name ∉ DimState.state_name <$> state_df.
Proof.
  induction state_df as [|s state_df IH] using rev_ind.
  - split; [intros _; apply not_elem_of_nil|done].
  - rewrite state_lookup_snoc, fmap_app, not_elem_of_app.
    cbn [fmap list_fmap]. rewrite not_elem_of_cons.
    destruct (decide (DimState.state_name s = name)) as [<-|Hne].
    + rewrite lookup_insert_eq. split; [done|]. by intros (_ & ? & _).
    + rewrite lookup_insert_ne by done. rewrite IH.
      split; [intros ?; split_and!; [done|congruence|apply not_elem_of_nil]
             |by intros [? _]].
Qed.

(** ... and maps a name to the id of the last row that has it. *)
Lemma state_lookup_Some state_df name i :
  state_lookup state_df !! name = Some i
  ↔ exists before s after,
      state_df = before ++ s :: after ∧
      DimState.state_name s = name ∧ DimState.state_id s = i ∧
      name ∉ DimState.state_name <$> after.
Proof.
  induction state_df as [|s state_df IH] using rev_ind.
  - split; [done|]. intros (before & s & after & E & _).
    by destruct before.
  - rewrite state_lookup_snoc.
    destruct (decide (DimState.state_name s = name)) as [<-|Hne].
    + rewrite lookup_insert_eq. split.
      * intros [= <-]. exists state_df, s, []. split_and!; try done.
        apply not_elem_of_nil.
      * intros (before & s' & after & E & Hname & <- & Hlast).
        destruct after as [|a after _] using rev_ind.
        { apply app_inj_tail in E as [_ <-]. done. }
        rewrite app_comm_cons, app_assoc in E.
        apply app_inj_tail in E as [_ <-].
        rewrite fmap_app, not_elem_of_app in Hlast.
        destruct Hlast as [_ Hlast]. cbn in Hlast.
        rewrite not_elem_of_cons in Hlast. by destruct Hlast.
    + rewrite lookup_insert_ne by done. rewrite IH. split.
      * intros (before & s' & after & -> & Hname & Hid & Hlast).
        exists before, s', (after ++ [s]). split_and!; try done.
        { by rewrite <- app_assoc. }
        rewrite fmap_app, not_elem_of_app. split; [done|]. cbn.
        rewrite not_elem_of_cons. split; [congruence|apply not_elem_of_nil].
      * intros (before & s' & after & E & Hname & Hid & Hlast).
        destruct after as [|a after _] using rev_ind.
        { apply app_inj_tail in E as [_ <-]. done. }
        rewrite app_comm_cons, app_assoc in E.
        apply app_inj_tail in E as [-> <-].
        exists before, s', after. split_and!; try done.
        rewrite fmap_app, not_elem_of_app in Hlast. by destruct Hlast.
Qed.

Lemma enumerate_fst {A} start (xs : list A) :
  (enumerate start xs).*1 = seqZ start (Z.of_nat (length xs)).
Proof.
  revert start. induction xs as [|x xs IH]; intros start; [done|].
  cbn [enumerate fmap list_fmap length fst]. rewrite IH.
  rewrite (seqZ_cons start) by lia. do 2 f_equal; lia.
Qed.

Lemma enumerate_snd {A} start (xs : list A) : (enumerate start xs).*2 = xs.
Proof.
  revert start. induction xs as [|x xs IH]; intros start; [done|].
  cbn [enumerate fmap list_fmap snd]. by rewrite IH.
Qed.

(** X1. City generation raises [KeyError] exactly when some city names a state
    that no row of the state table has. *)
Theorem create_dim_city_from_raises_iff cities state_df :
  create_dim_city_from cities state_df = None
  ↔ Exists (fun c => ci_state_name c ∉ DimState.state_name <$> state_df)
           cities.
Proof.
  unfold create_dim_city_from. rewrite mapM_None.
  rewrite <- (enumerate_snd 1 cities) at 2. rewrite Exists_fmap.
  apply Exists_proper; [|done]. intros [i c]. cbn.
  unfold city_row. rewrite <- state_lookup_None.
  by destruct (state_lookup state_df !! ci_state_name c).
Qed.

Lemma create_dim_city_from_run cities state_df rows :
  create_dim_city_from cities state_df = Some rows →
  city_id <$> rows = seqZ 1 (Z.of_nat (length cities)) ∧
  Forall2 (fun c r =>
    city_name r = ci_city_name c ∧
    tier_classification r = ci_tier c ∧
    exists before s after,
      state_df = before ++ s :: after ∧
      DimState.state_name s = ci_state_name c ∧
      DimState.state_id s = state_id r ∧
      ci_state_name c ∉ DimState.state_name <$> after) cities rows.
Proof.
  unfold create_dim_city_from. intros Hrows%mapM_Some.
  assert (Forall2 (fun ic r =>
            city_id r = ic.1 ∧ city_name r = ci_city_name ic.2 ∧
            tier_classification r = ci_tier ic.2 ∧
            state_lookup state_df !! ci_state_name ic.2 = Some (state_id r))
          (enumerate 1 cities) rows) as Hall.
  { eapply Forall2_impl; [exact Hrows|]. intros [i c] r. cbn.
    unfold city_row.
    destruct (state_lookup state_df !! ci_state_name c); [|done].
    cbn. by intros [= <-]. }
  split.
  - rewrite <- enumerate_fst.
    clear Hrows. induction Hall as [|[i c] r ics rs (Hi & _) _ IH]; [done|].
    cbn. by rewrite Hi, IH.
  - rewrite <- (enumerate_snd 1 cities) at 1. apply Forall2_fmap_l.
    eapply Forall2_impl; [exact Hall|]. intros [i c] r (_ & ? & ? & Hs).
    cbn in *. split_and!; [done..|]. by apply state_lookup_Some.
Qed.

(** X2. When it succeeds there is one row per city, in order, numbered from
    1, with the name and tier of the city and the id of the last state row
    that has the city's state name (a later row of the same name replaces
    an earlier one in the lookup). *)
Theorem create_dim_city_from_rows cities state_df rows :
  create_dim_city_from cities state_df = Some rows →
  city_id <$> rows = seqZ 1 (Z.of_nat (length cities)) ∧
  Forall2 (fun c r =>
    city_name r = ci_city_name c ∧
    tier_classification r = ci_tier c ∧
    exists before s after,
      state_df = before ++ s :: after ∧
      DimState.state_name s = ci_state_name c ∧
      DimState.state_id s = state_id r ∧
      ci_state_name c ∉ DimState.state_name <$> after) cities rows.
Proof. apply create_dim_city_from_run. Qed.

(** Whatever the state table is, a city table that [create_dim_city]
    returns has the ids 1..252 and only the three known tiers. *)
Lemma create_dim_city_cities state_df city_df :
  create_dim_city state_df = Some city_df →
  city_df ≠ [] ∧
  city_id <$> city_df = seqZ 1 252 ∧
  Forall (fun city =>
            tier_classification city ∈ ["Tier1"; "Tier2"; "Tier3"]%string)
         city_df.
Proof.
  intros Hrun. apply create_dim_city_from_run in Hrun as [Hids Hrows].
  split; [by destruct city_df|]. split; [done|].
  assert (Forall (fun c => ci_tier c ∈ ["Tier1"; "Tier2"; "Tier3"]%string)
                 INDIAN_CITIES) as Htiers
    by (apply (bool_decide_unpack _); by vm_compute).
  clear Hids. revert Htiers.
  induction Hrows as [|c r cs rs (_ & Htier & _) _ IH]; [done|].
  intros [Hc Hcs]%Forall_cons. constructor; [by rewrite Htier|by apply IH].
Qed.

Lemma create_dim_city_from_rows_witness :
  let rows := [mk_row 1 "Pune" 2 "Tier1"] in
  city_id <$> rows = seqZ 1 1 ∧
  Forall2 (fun c r =>
    city_name r = ci_city_name c ∧
    tier_classification r = ci_tier c ∧
    exists before s after,
      [DimState.mk_row 1 "Maharashtra" "West";
       DimState.mk_row 2 "Maharashtra" "West"] = before ++ s :: after ∧
      DimState.state_name s = ci_state_name c ∧
      DimState.state_id s = state_id r ∧
      ci_state_name c ∉ DimState.state_name <$> after)
    [mk_city_info "Pune" "Maharashtra" "Tier1"] rows.
Proof.
  apply (create_dim_city_from_rows
           [mk_city_info "Pune" "Maharashtra" "Tier1"]
           [DimState.mk_row 1 "Maharashtra" "West";
            DimState.mk_row 2 "Maharashtra" "West"]).
  reflexivity.
Defined.

End DimCityFacts.


(** ** The pipeline on any environment *)

Module PipelineRunFacts.
Import Pipeline PipelineFacts PipelineRuns.

Section Tables.
Context {table : Type} (env : @environment table).

Lemma completed_prefix_completes steps :
  Forall (completes env) (completed_prefix env steps).
Proof.
  induction steps as [|s steps IH]; [constructor|].
  cbn [completed_prefix]. destruct (step_outcome env s) as [e|df] eqn:E;
    [constructor|]. constructor; [by exists df|done].
Qed.

Lemma completed_prefix_all steps :
  Forall (completes env) steps ↔ completed_prefix env steps = steps.
Proof.
  split.
  - induction 1 as [|s steps [df Hs] _ IH]; [done|].
    cbn [completed_prefix]. by rewrite Hs, IH.
  - intros <-. apply completed_prefix_completes.
Qed.

Lemma completed_prefix_names steps name :
  name ∈ (completed_prefix env steps).*1 → name ∈ steps.*1.
Proof.
  induction steps as [|s steps IH]; [done|]. cbn [completed_prefix].
  destruct (step_outcome env s); [by intros ?%elem_of_nil|].
  rewrite !fmap_cons, !elem_of_cons. intros [->|?]; [by left|right; auto].
Qed.

(** The run of a list of steps: the completed steps are saved, and the
    result is the first exception if there is one. *)
Lemma run_plan_run steps (w : @world table) :
  exists res,
    run_plan env steps w
    = (res, mk_world (saved env (completed_prefix env steps) (catalog w))
                     (console w)) ∧
    match res with
    | inr _ => report env steps = [Completed] ∧ Forall (completes env) steps
    | inl e =>
        report env steps = [ErrorLine (exn_message e); Traceback e] ∧
        ¬ Forall (completes env) steps
    end.
Proof.
  revert w. induction steps as [|s steps IH]; intros w.
  - exists (inr tt). split; [by destruct w|done].
  - rewrite run_plan_cons. cbn [completed_prefix report].
    destruct (step_outcome env s) as [e|df] eqn:E.
    + exists (inl e). split; [by destruct w|]. split; [done|].
      intros [[df Hdf] _]%Forall_cons. congruence.
    + destruct (IH (mk_world (<[s.1 := df]> (catalog w)) (console w)))
        as (res & -> & Hres).
      exists res. rewrite saved_cons, E. split; [done|].
      destruct res as [e|[]].
      * destruct Hres as [? Hnot]. split; [done|].
        intros [_ ?]%Forall_cons. done.
      * destruct Hres as [? Hall]. split; [done|].
        constructor; [by exists df|done].
Qed.

(** [main] on any environment and world: it returns, [True] exactly when
    every step completes; it saves the tables of the completed steps and
    appends the banner and its report to the console. *)
Lemma main_run (w : @world table) :
  exists b : bool,
    main env w
    = (inr b,
       mk_world (saved env (completed_prefix env (plan env)) (catalog w))
                (console w ++ Banner :: report env (plan env))) ∧
    (b = true ↔ Forall (completes env) (plan env)).
Proof.
  unfold main, sbind, print, try_except. rewrite main_body_plan.
  destruct (run_plan_run (plan env)
              (mk_world (catalog w) (console w ++ [Banner])))
    as (res & -> & Hres).
  cbn [catalog console]. destruct res as [e|[]].
  - destruct Hres as [-> Hnot]. exists false.
    unfold main_handler, sbind, print, sret. cbn [catalog console].
    rewrite <- !app_assoc. split; [done|]. split; [done|]. intros ?. done.
  - destruct Hres as [-> Hall]. exists true.
    rewrite <- !app_assoc. done.
Qed.

(** What the written tables override in a catalog. *)
Lemma saved_lookup_over steps (c : gmap string table) name :
  saved env steps c !! name
  = match saved env steps ∅ !! name with
    | Some df => Some df
    | None => c !! name
    end.
Proof.
  revert c. induction steps as [|s steps IH] using rev_ind; intros c.
  - cbn. by rewrite lookup_empty.
  - unfold saved in *. rewrite !foldl_app. cbn [foldl].
    destruct (step_outcome env s) as [e|df]; [apply IH|].
    destruct (decide (s.1 = name)) as [<-|Hne].
    + by rewrite !lookup_insert_eq.
    + rewrite !lookup_insert_ne by done. apply IH.
Qed.

(** [main] never lets an exception escape, and it returns [True] exactly
    when all nine steps complete. *)
Theorem main_returns (w : @world table) :
  exists (b : bool) w',
    main env w = (inr b, w') ∧
    (b = true ↔ Forall (completes env) (plan env)).
Proof. destruct (main_run w) as (b & -> & Hb). eauto. Qed.

(** X12. A run touches no table of the catalog other than the nine it writes,
    and only adds lines to the console. *)
Theorem main_other_tables (w : @world table) name :
  name ∉ (plan env).*1 →
  catalog (main env w).2 !! name = catalog w !! name ∧
  exists printed, console (main env w).2 = console w ++ printed.
Proof.
  intros Hname. destruct (main_run w) as (b & -> & _).
  cbn [snd catalog console]. split; [|eauto].
  apply saved_other. intros Hin. apply Hname.
  by apply (completed_prefix_names _ _ Hin).
Qed.

End Tables.

Lemma main_other_tables_witness :
  let w := mk_world {["archive"%string := 0%nat]} [] in
  catalog (main failing_loans_env w).2 !! "archive"%string
  = catalog w !! "archive"%string ∧
  exists printed, console (main failing_loans_env w).2 = console w ++ printed.
Proof.
  apply main_other_tables.
  cbn. repeat (apply not_elem_of_cons; split; [discriminate|]).
  apply not_elem_of_nil.
Defined.

End PipelineRunFacts.


(** ** The geographic demographics table *)

Module GeoFacts.
Import Geo.

Section WithSource.
Context `{RandomSource}.

Lemma geo_locals_spec g :
  let v := (geo_locals g).1 in
  1 ≤ v_city_id v ≤ 252 ∧
  v_tier v ∈ ["Tier1"; "Tier2"; "Tier3"]%string ∧
  in_band (v_tier v) v ∧
  (exists share,
     (0.24 <= share <= 0.36)%Q ∧
     v_pop_18_35 v = py_int (inject_Z (v_pop_total v) * share)) ∧
  (exists enrolled,
     (0.12 <= enrolled <= 0.28)%Q ∧
     v_education_enrollment v
     = py_int (inject_Z (v_pop_18_35 v) * enrolled)).
Proof.
  unfold geo_locals, in_band. do 3 step_in; repeat step_in; cbn;
    (split; [done|]); (split; [done|]);
    (split; [repeat (destruct (decide _); try congruence);
             split_and!; first [lia | lra]|]); split; eauto.
Qed.

Lemma geo_rows_generated ids geo_data g :
  exists new,
    (geo_rows ids geo_data g).1 = geo_data ++ new ∧
    geo_id <$> new = ids ∧
    Forall (fun r => exists g0, r = to_row (geo_id r) (geo_locals g0).1) new.
Proof.
  revert geo_data g. induction ids as [|i ids IH]; intros geo_data g.
  - exists []. by rewrite app_nil_r.
  - cbn [geo_rows]. rewrite bind_run.
    set (v := (geo_locals g).1).
    destruct (IH (geo_data ++ [to_row i v]) (geo_locals g).2)
      as (new & -> & Hids & Hgen).
    exists (to_row i v :: new). split_and!.
    + by rewrite <- app_assoc.
    + cbn. by rewrite Hids.
    + constructor; [|done]. by exists g.
Qed.

Lemma create_geographic_demographics_rows g :
  geo_id <$> (create_geographic_demographics g).1 = seqZ 1 350000 ∧
  Forall (fun r => exists g0, r = to_row (geo_id r) (geo_locals g0).1)
         (create_geographic_demographics g).1.
Proof.
  unfold create_geographic_demographics.
  by destruct (geo_rows_generated (py_range 1 (OTHER_TABLE_RECORDS + 1)) [] g)
    as (rows & -> & Hids & Hgen).
Qed.

(** X13. Every demographics row references a city id of the city table
    (1..252), and its populations are nested: the enrollment is at most
    28% of the 18-35 population, which is between 24% (less one person,
    lost by the truncation) and 36% of the total population. *)
Theorem geo_populations g :
  geo_id <$> (create_geographic_demographics g).1 = seqZ 1 350000 ∧
  Forall (fun r =>
    1 ≤ city_id r ≤ 252 ∧
    0 ≤ higher_education_enrollment r ≤ population_18_35 r ∧
    population_18_35 r ≤ population_total r ∧
    (0.24 * inject_Z (population_total r) - 1
     < inject_Z (population_18_35 r)
     <= 0.36 * inject_Z (population_total r))%Q ∧
    (inject_Z (higher_education_enrollment r)
     <= 0.28 * inject_Z (population_18_35 r))%Q)
    (create_geographic_demographics g).1.
Proof.
  destruct (create_geographic_demographics_rows g) as [Hids Hgen].
  split; [done|].
  eapply Forall_impl; [exact Hgen|].
  intros r (g0 & ->).
  destruct (geo_locals_spec g0)
    as (Hcity & _ & Hband & (share & Hshare & Hyoung)
        & (enrolled & Henrolled & Henrol)).
  set (v := (geo_locals g0).1) in *.
  cbn [to_row city_id higher_education_enrollment population_18_35
       population_total].
  assert (80000 ≤ v_pop_total v) as Hpop.
  { unfold in_band in Hband. repeat destruct (decide _); lia. }
  assert (80000 <= inject_Z (v_pop_total v))%Q as HpopQ
    by (rewrite <- (Zle_Qle 80000); lia).
  destruct (py_int_floor (inject_Z (v_pop_total v) * share))
    as [Hy0 Hy]; [nra|]. rewrite <- Hyoung in Hy0, Hy.
  assert (0 <= inject_Z (v_pop_18_35 v))%Q as HyQ
    by (rewrite <- (Zle_Qle 0); lia).
  destruct (py_int_floor (inject_Z (v_pop_18_35 v) * enrolled))
    as [He0 He]; [nra|]. rewrite <- Henrol in He0, He.
  assert (inject_Z (v_education_enrollment v) <= inject_Z (v_pop_18_35 v))%Q
    as HeQ by nra.
  assert (inject_Z (v_pop_18_35 v) <= inject_Z (v_pop_total v))%Q
    as HyQ' by nra.
  rewrite <- Zle_Qle in HeQ, HyQ'.
  split; [done|]. split; [lia|]. split; [lia|]. split; [split; nra|nra].
Qed.

(** X14. The five figures of a row come from one tier band: a row with more
    than 4,000,000 inhabitants has Tier-1 figures throughout, one with
    fewer than 400,000 has Tier-3 figures throughout; and all figures stay
    within the union of the bands. *)
Theorem geo_figures_band g :
  Forall (fun r =>
    80000 ≤ population_total r ≤ 15000000 ∧
    8 ≤ number_of_colleges r ≤ 200 ∧
    (350000 <= average_household_income r <= 1800000)%Q ∧
    (2.5 <= unemployment_rate r <= 12)%Q ∧
    (65 <= literacy_rate r <= 96)%Q ∧
    (4000000 < population_total r →
     60 ≤ number_of_colleges r ∧
     (900000 <= average_household_income r)%Q ∧
     (unemployment_rate r <= 5.5)%Q ∧ (85 <= literacy_rate r)%Q) ∧
    (population_total r < 400000 →
     number_of_colleges r ≤ 35 ∧
     (average_household_income r <= 750000)%Q ∧
     (4.5 <= unemployment_rate r)%Q ∧ (literacy_rate r <= 82)%Q))
    (create_geographic_demographics g).1.
Proof.
  destruct (create_geographic_demographics_rows g) as [_ Hgen].
  eapply Forall_impl; [exact Hgen|].
  intros r (g0 & ->).
  destruct (geo_locals_spec g0) as (_ & _ & Hband & _).
  set (v := (geo_locals g0).1) in *.
  cbn [to_row population_total number_of_colleges average_household_income
       unemployment_rate literacy_rate].
  unfold in_band in Hband.
  repeat destruct (decide _);
    destruct Hband as (Hpop & Hinc & Hun & Hlit & Hcol);
    (split; [lia|]); (split; [lia|]);
    (split; [apply round2_between; [done..|lra]|]);
    (split; [apply round2_between; [done..|lra]|]);
    (split; [apply round2_between; [done..|lra]|]);
    (split; intros Hbig; [try lia|try lia]);
    (split; [lia|]);
    repeat split;
    first [ apply round2_ge; [done|lra] | apply round2_le; [done|lra] ].
Qed.

End WithSource.
End GeoFacts.

(** ** The economic indicators table *)

Module EconomicFacts.
Import Economic.

Section WithSource.
Context `{RandomSource}.

Lemma economic_locals_spec g :
  let v := (economic_locals g).1 in
  1 ≤ v_state_id v ≤ 28 ∧
  v_year v ∈ years ∧ v_quarter v ∈ quarters ∧
  v_quarter_str v = quarter_str_of (v_year v) (v_quarter v) ∧
  exists gdp_growth unemployment g_factor u_factor,
    in_band (v_region v) gdp_growth unemployment v ∧
    covid_factors (v_year v) g_factor u_factor ∧
    (v_gdp_growth v == gdp_growth * g_factor)%Q ∧
    (v_unemployment v == unemployment * u_factor)%Q.
Proof.
  unfold economic_locals, in_band, covid_factors.
  do 4 step_in.
  step_in; repeat step_in; cbn;
    (split; [done|]); (split; [done|]); (split; [done|]); (split; [done|]).
  all: lazymatch goal with
       | |- exists _ _ _ _, _ ∧ _ ∧ (?a * ?b == _)%Q ∧ (?c * ?d == _)%Q =>
           exists a, c, b, d
       | |- exists _ _ _ _, _ ∧ _ ∧ (?a == _)%Q ∧ (?c == _)%Q =>
           exists a, c, 1%Q, 1%Q
       end.
  all: repeat (destruct (decide _); try done).
  all: repeat split; first [done | lra].
Qed.

Lemma economic_rows_generated ids economic_data g :
  exists new,
    (economic_rows ids economic_data g).1 = economic_data ++ new ∧
    indicator_id <$> new = ids ∧
    Forall (fun r => exists g0,
              r = to_row (indicator_id r) (economic_locals g0).1) new.
Proof.
  revert economic_data g.
  induction ids as [|i ids IH]; intros economic_data g.
  - exists []. by rewrite app_nil_r.
  - cbn [economic_rows]. rewrite bind_run.
    set (v := (economic_locals g).1).
    destruct (IH (economic_data ++ [to_row i v]) (economic_locals g).2)
      as (new & -> & Hids & Hgen).
    exists (to_row i v :: new). split_and!.
    + by rewrite <- app_assoc.
    + cbn. by rewrite Hids.
    + constructor; [|done]. by exists g.
Qed.

Lemma create_economic_indicators_rows g :
  indicator_id <$> (create_economic_indicators g).1 = seqZ 1 350000 ∧
  Forall (fun r => exists g0,
            r = to_row (indicator_id r) (economic_locals g0).1)
         (create_economic_indicators g).1.
Proof.
  unfold create_economic_indicators.
  by destruct (economic_rows_generated
                 (py_range 1 (OTHER_TABLE_RECORDS + 1)) [] g)
    as (rows & -> & Hids & Hgen).
Qed.

Lemma year_cases (year : Z) :
  year ∈ years →
  year = 2019 ∨ year = 2020 ∨ year = 2021 ∨ year = 2022 ∨ year = 2023
  ∨ year = 2024.
Proof.
  intros Hy. vm_compute in Hy.
  repeat (apply elem_of_cons in Hy as [->|Hy]); auto 10.
  by apply elem_of_nil in Hy.
Qed.

Lemma quarter_cases (q : string) :
  q ∈ quarters → q = "Q1"%string ∨ q = "Q2"%string ∨ q = "Q3"%string
                 ∨ q = "Q4"%string.
Proof.
  intros Hq. unfold quarters in Hq.
  repeat (apply elem_of_cons in Hq as [->|Hq]); auto 10.
  by apply elem_of_nil in Hq.
Qed.

(** The first four characters of [f"{year}-{quarter}"] are the year. *)
Lemma quarter_str_year (year : Z) (q : string) :
  year ∈ years → String.substring 0 4 (quarter_str_of year q) = pretty year.
Proof.
  intros Hy.
  by destruct (year_cases _ Hy) as [->|[->|[->|[->|[->| ->]]]]]; vm_compute.
Qed.

(** X15. The indicator ids are 1..350000 in order; every row references a
    state id of the state table (1..28) and names one of the 24 quarters
    from 2019-Q1 to 2024-Q4. *)
Theorem economic_keys g :
  indicator_id <$> (create_economic_indicators g).1 = seqZ 1 350000 ∧
  Forall (fun r =>
    1 ≤ state_id r ≤ 28 ∧
    quarter r ∈
      ["2019-Q1"; "2019-Q2"; "2019-Q3"; "2019-Q4";
       "2020-Q1"; "2020-Q2"; "2020-Q3"; "2020-Q4";
       "2021-Q1"; "2021-Q2"; "2021-Q3"; "2021-Q4";
       "2022-Q1"; "2022-Q2"; "2022-Q3"; "2022-Q4";
       "2023-Q1"; "2023-Q2"; "2023-Q3"; "2023-Q4";
       "2024-Q1"; "2024-Q2"; "2024-Q3"; "2024-Q4"]%string)
    (create_economic_indicators g).1.
Proof.
  destruct (create_economic_indicators_rows g) as [Hids Hgen].
  split; [done|].
  eapply Forall_impl; [exact Hgen|].
  intros r (g0 & ->).
  destruct (economic_locals_spec g0) as (Hstate & Hyear & Hq & Hstr & _).
  set (v := (economic_locals g0).1) in *.
  cbn [to_row state_id quarter]. split; [done|]. rewrite Hstr.
  destruct (year_cases _ Hyear) as [->|[->|[->|[->|[->| ->]]]]];
    destruct (quarter_cases _ Hq) as [->|[->|[->| ->]]];
    vm_compute; repeat first [apply list_elem_of_here | apply list_elem_of_further].
Qed.

(** X16. The COVID-19 adjustment is visible in the stored rows: a row of a
    2020 quarter has a growth rate of at most 6.65 and an unemployment
    rate of at least 2.6, a row of a 2021 quarter a growth rate of at
    most 8.55 and an unemployment rate of at least 2.2, and a row of any
    other year a growth rate of at least 3.5 and an unemployment rate of
    at most 11.  Over all rows the growth rate is between 1.4 and 9.5
    and the unemployment rate between 2 and 17.6. *)
Theorem economic_covid_years g :
  Forall (fun r =>
    (1.4 <= gdp_growth_rate r <= 9.5)%Q ∧
    (2 <= unemployment_rate r <= 17.6)%Q ∧
    (String.substring 0 4 (quarter r) = "2020"%string →
     (1.4 <= gdp_growth_rate r <= 6.65)%Q ∧
     (2.6 <= unemployment_rate r <= 17.6)%Q) ∧
    (String.substring 0 4 (quarter r) = "2021"%string →
     (2.45 <= gdp_growth_rate r <= 8.55)%Q ∧
     (2.2 <= unemployment_rate r <= 14.3)%Q) ∧
    (String.substring 0 4 (quarter r) ≠ "2020"%string →
     String.substring 0 4 (quarter r) ≠ "2021"%string →
     (3.5 <= gdp_growth_rate r <= 9.5)%Q ∧
     (2 <= unemployment_rate r <= 11)%Q))
    (create_economic_indicators g).1.
Proof.
  destruct (create_economic_indicators_rows g) as [_ Hgen].
  eapply Forall_impl; [exact Hgen|].
  intros r (g0 & ->).
  destruct (economic_locals_spec g0)
    as (_ & Hyear & Hq & Hstr
        & (g_base & u_base & gf & uf & Hband & Hcovid & Hg & Hu)).
  set (v := (economic_locals g0).1) in *.
  cbn [to_row quarter gdp_growth_rate unemployment_rate]. rewrite Hstr.
  assert ((3.5 <= g_base <= 9.5)%Q ∧ (2 <= u_base <= 11)%Q) as [Hgb Hub].
  { unfold in_band in Hband.
    repeat destruct (decide _);
      destruct Hband as (? & _ & ? & _); split; lra. }
  clear Hband. unfold covid_factors in Hcovid.
  rewrite (quarter_str_year _ _ Hyear).
  destruct (year_cases _ Hyear) as [Hy|[Hy|[Hy|[Hy|[Hy|Hy]]]]];
    rewrite Hy in Hcovid |- *; cbn in Hcovid; destruct Hcovid as [Hgf Huf];
    idtac.
  all: repeat match goal with
       | |- (_ <= round2 _ <= _)%Q =>
           apply round2_between; [done|done|split; nra]
       | |- _ ∧ _ => split
       | |- _ → _ =>
           let Hp := fresh "Hp" in
           intros Hp; vm_compute in Hp;
           try discriminate Hp; try (exfalso; apply Hp; reflexivity)
       end.
Qed.

(** X17. The indicators of a row come from one band of regions: a row with a
    per-capita income above 350,000 has the figures of the West/South
    band, one with a per-capita income below 190,000 those of the band of
    the remaining regions; and all figures stay within the union of the
    bands. *)
Theorem economic_figures_band g :
  Forall (fun r =>
    (3 <= inflation_rate r <= 7.8)%Q ∧
    (130000 <= per_capita_income r <= 450000)%Q ∧
    (2.8 <= education_spending_percent r <= 7.5)%Q ∧
    (62 <= literacy_rate r <= 96)%Q ∧
    ((350000 < per_capita_income r)%Q →
     (inflation_rate r <= 6.2)%Q ∧
     (4.2 <= education_spending_percent r)%Q ∧
     (82 <= literacy_rate r)%Q ∧ (unemployment_rate r <= 8.8)%Q) ∧
    ((per_capita_income r < 190000)%Q →
     (3.8 <= inflation_rate r)%Q ∧
     (education_spending_percent r <= 5.5)%Q ∧
     (literacy_rate r <= 85)%Q ∧ (gdp_growth_rate r <= 7)%Q))
    (create_economic_indicators g).1.
Proof.
  destruct (create_economic_indicators_rows g) as [_ Hgen].
  eapply Forall_impl; [exact Hgen|].
  intros r (g0 & ->).
  destruct (economic_locals_spec g0)
    as (_ & Hyear & _ & _
        & (g_base & u_base & gf & uf & Hband & Hcovid & Hg & Hu)).
  set (v := (economic_locals g0).1) in *.
  cbn [to_row inflation_rate per_capita_income education_spending_percent
       literacy_rate unemployment_rate gdp_growth_rate].
  assert ((0.4 <= gf <= 1)%Q ∧ (1 <= uf <= 1.6)%Q) as [Hgf Huf].
  { unfold covid_factors in Hcovid.
    repeat destruct (decide _); destruct Hcovid; split; lra. }
  clear Hcovid. unfold in_band in Hband.
  repeat destruct (decide _);
    destruct Hband as (Hgdp & Hinf & Hun & Hpc & Hedu & Hlit);
    match type of Hpc with
    | (?a <= _ <= ?b)%Q =>
        assert (a <= round2 (v_per_capita v) <= b)%Q as Hpc'
          by (apply round2_between; [done|done|exact Hpc])
    end.
  all: repeat match goal with
       | |- (_ <= round2 _ <= _)%Q =>
           apply round2_between; [done|done|split; lra]
       | |- (_ <= round2 _)%Q => apply round2_ge; [done|nra]
       | |- (round2 _ <= _)%Q => apply round2_le; [done|nra]
       | |- _ ∧ _ => split
       | |- _ → _ =>
           let Hp := fresh "Hp" in intros Hp; try (exfalso; lra)
       end.
Qed.

End WithSource.
End EconomicFacts.

(** Run the next draw, keeping what is known of a weighted choice. *)
Ltac step_draw :=
  lazymatch goal with
  | |- context [bind (choices1 ?d ?l ?w) _ ?g] =>
      let R := fresh "R" in
      assert ((choices1 d l w g).1 ∈ l) as R by (by apply choices1_elem);
      rewrite (bind_run (choices1 d l w) _ g);
      generalize dependent (choices1 d l w g); intros [? ?] R;
      cbn [fst snd] in R |- *
  | _ => step_in
  end.

(** ** The weights of the cities *)

(** The weights exist exactly when every tier is a key. *)
Lemma city_weights_of_inr tier_weights city_df :
  Forall (fun city => is_Some (tier_weights !! DimCity.tier_classification city))
         city_df →
  exists ws,
    city_weights_of tier_weights city_df = inr ws ∧
    length ws = length city_df ∧
    Forall (fun w => exists k, tier_weights !! k = Some w) ws.
Proof.
  induction 1 as [|city city_df [w Hw] _ (ws & IH & Hlen & Hws)].
  - by exists [].
  - exists (w :: ws). cbn [city_weights_of]. rewrite Hw, IH.
    split; [done|]. split; [by rewrite !length_cons, Hlen|].
    constructor; [by eexists|done].
Qed.

Lemma city_weights_of_inl tier_weights city_df e :
  city_weights_of tier_weights city_df = inl e →
  exists city,
    city ∈ city_df ∧ e = KeyError (DimCity.tier_classification city) ∧
    tier_weights !! DimCity.tier_classification city = None.
Proof.
  induction city_df as [|city city_df IH]; [done|].
  cbn [city_weights_of].
  destruct (tier_weights !! DimCity.tier_classification city) eqn:Hw.
  - destruct (city_weights_of tier_weights city_df) as [e'|ws]; [|done].
    intros [= <-]. destruct (IH eq_refl) as (c & Hc & He & Hn).
    exists c. split; [by apply list_elem_of_further|done].
  - intros [= <-]. exists city. split; [apply list_elem_of_here|done].
Qed.

(** ** The institutions table *)

Module InstitutionsFacts.
Import Institutions.

Lemma institution_tier_weights_lookup tier :
  is_Some (tier_weights !! tier)
  ↔ tier ∈ ["Tier1"; "Tier2"; "Tier3"]%string.
Proof.
  unfold tier_weights. rewrite !lookup_insert_is_Some, lookup_empty.
  rewrite !elem_of_cons, elem_of_nil. split.
  - intros [->|[_ [->|[_ [->|[_ [? [=]]]]]]]]; auto.
  - intros [->|[->|[->|[]]]].
    + by left.
    + right. split; [done|]. by left.
    + right. split; [done|]. right. split; [done|]. by left.
Qed.

Lemma institution_tier_weights_positive k w : tier_weights !! k = Some w → (0 < w)%Q.
Proof.
  unfold tier_weights. intros Hw.
  repeat (apply lookup_insert_Some in Hw as [[_ <-]|[_ Hw]]; [done|]).
  done.
Qed.

Section WithSource.
Context `{RandomSource}.

Lemma institution_row_spec i city g :
  let r := (institution_row i city g).1 in
  institution_id r = i ∧ row_of city r.
Proof.
  unfold institution_row, row_of, in_band.
  do 4 step_draw; repeat step_draw; cbn.
  all: split; [done|]; split; [done|]; split;
    [|split; [done|]; split; [done|]; eauto].
  all: split; [lia|]; split; [by apply round2_between|]; split; [|lia].
  all: intros p; destruct (Qlt_le_dec _ _); [|done]; intros [= <-];
    by apply round2_between.
Qed.

(** The inner loop appends one row per sampled city, numbered from
    [batch_start + k + 1]. *)
Lemma institutions_rows_run batch_start k cities institutions_data g :
  exists new,
    (institutions_rows batch_start (enumerate k cities) institutions_data g).1
    = institutions_data ++ new ∧
    institution_id <$> new
    = seqZ (batch_start + k + 1) (Z.of_nat (length cities)) ∧
    Forall2 row_of cities new.
Proof.
  revert k institutions_data g.
  induction cities as [|city cities IH]; intros k institutions_data g.
  - exists []. by rewrite app_nil_r.
  - cbn [enumerate institutions_rows]. rewrite bind_run.
    destruct (institution_row_spec (batch_start + k + 1) city g) as [Hid Hrow].
    set (r := (institution_row (batch_start + k + 1) city g).1) in *.
    destruct (IH (k + 1) (institutions_data ++ [r])
                 (institution_row (batch_start + k + 1) city g).2)
      as (new & -> & Hids & Hrows).
    exists (r :: new). split_and!.
    + by rewrite <- app_assoc.
    + cbn [fmap list_fmap length]. rewrite Hid.
      rewrite (seqZ_cons (batch_start + k + 1)) by lia.
      f_equal. rewrite Hids. f_equal; lia.
    + by constructor.
Qed.

Context `{FrameSampler}.

(** The batches never raise a [KeyError]. *)
Lemma institutions_batches_error total city_df city_weights starts data s g e :
  (institutions_batches total city_df city_weights starts data s g).1.1
  = inl e → e = ValueError.
Proof.
  revert data s g. induction starts as [|b starts IH]; intros data s g.
  - done.
  - cbn [institutions_batches].
    destruct (df_sample city_df _ city_weights s) as [[batch|] s'].
    + rewrite bind_run. apply IH.
    + cbn. by intros [= <-].
Qed.

(** The batches starting at [j * BATCH_SIZE]: every sample succeeds, and
    the rows are numbered on from [j * BATCH_SIZE + 1]. *)
Lemma institutions_batches_run total city_df city_weights (m : nat) j data s g :
  city_df ≠ [] → length city_weights = length city_df →
  Forall (fun w => (0 < w)%Q) city_weights →
  0 ≤ j → (m ≠ 0%nat → (j + Z.of_nat m - 1) * BATCH_SIZE < total) →
  exists new,
    (institutions_batches total city_df city_weights
       (map (fun k => 0 + k * BATCH_SIZE) (seqZ j (Z.of_nat m))) data s g).1.1
    = inr (data ++ new) ∧
    institution_id <$> new
    = seqZ (j * BATCH_SIZE + 1)
        (Z.min ((j + Z.of_nat m) * BATCH_SIZE) total - j * BATCH_SIZE) ∧
    Forall (fun r => exists city, city ∈ city_df ∧ row_of city r) new.
Proof.
  intros Hne Hlen Hpos. revert j data s g.
  induction m as [|m IH]; intros j data s g Hj Hm.
  - exists []. rewrite app_nil_r. split; [done|]. split; [|done].
    rewrite seqZ_nil; [done|]. lia.
  - assert (j * BATCH_SIZE < total) as Hstart.
    { specialize (Hm ltac:(done)). unfold BATCH_SIZE in *. lia. }
    rewrite seqZ_cons by lia. cbn [map institutions_batches].
    set (batch_start := 0 + j * BATCH_SIZE).
    set (batch_size := Z.min (batch_start + BATCH_SIZE) total - batch_start).
    destruct (df_sample_rows _ city_df batch_size city_weights s)
      as (batch & Hsample & Hsize & Hbatch); [done| |done|done|].
    { unfold batch_size, batch_start, BATCH_SIZE in *. lia. }
    destruct (df_sample city_df batch_size city_weights s) as [sampled s'].
    cbn [fst] in Hsample. subst sampled. rewrite bind_run.
    destruct (institutions_rows_run batch_start 0 batch data g)
      as (new1 & -> & Hids1 & Hrows1).
    replace (Z.pred (Z.of_nat (S m))) with (Z.of_nat m) by lia.
    destruct (IH (Z.succ j) (data ++ new1) s'
                (institutions_rows batch_start (enumerate 0 batch) data g).2)
      as (new2 & -> & Hids2 & Hrows2); [lia| |].
    { intros Hm0. specialize (Hm ltac:(done)).
      unfold BATCH_SIZE in *. lia. }
    exists (new1 ++ new2). split; [by rewrite app_assoc|]. split.
    + rewrite fmap_app, Hids1, Hids2, Hsize.
      unfold batch_size, batch_start.
      destruct (decide ((j + 1) * BATCH_SIZE ≤ total)) as [Hfull|Hpart].
      * replace (Z.succ j * BATCH_SIZE + 1)
          with (0 + j * BATCH_SIZE + 0 + 1
                + (Z.min (0 + j * BATCH_SIZE + BATCH_SIZE) total
                   - (0 + j * BATCH_SIZE)))
          by (unfold BATCH_SIZE in *; lia).
        rewrite <- seqZ_app by (unfold BATCH_SIZE in *; lia).
        f_equal; unfold BATCH_SIZE in *; lia.
      * assert (m = 0%nat) as ->.
        { destruct m; [done|]. specialize (Hm ltac:(done)).
          unfold BATCH_SIZE in *. lia. }
        rewrite (seqZ_nil (Z.succ j * BATCH_SIZE + 1))
          by (unfold BATCH_SIZE in *; lia).
        rewrite app_nil_r. f_equal; unfold BATCH_SIZE in *; lia.
    + apply Forall_app. split; [|done].
      clear -Hrows1 Hbatch.
      induction Hrows1 as [|city r batch new1 Hrow _ IH]; [done|].
      apply Forall_cons in Hbatch as [Hcity Hbatch].
      constructor; [by exists city|by apply IH].
Qed.

Lemma create_institutions_with_run total city_df s g :
  city_df ≠ [] →
  Forall (fun city =>
            DimCity.tier_classification city
            ∈ ["Tier1"; "Tier2"; "Tier3"]%string) city_df →
  0 ≤ total →
  exists rows,
    (create_institutions_with total city_df s g).1.1 = inr rows ∧
    institution_id <$> rows = seqZ 1 total ∧
    Forall (fun r => exists city, city ∈ city_df ∧ row_of city r) rows.
Proof.
  intros Hne Htiers Htotal. unfold create_institutions_with.
  destruct (city_weights_of_inr tier_weights city_df)
    as (ws & -> & Hlen & Hws).
  { eapply Forall_impl; [exact Htiers|]. intros city.
    apply institution_tier_weights_lookup. }
  unfold py_range_step.
  set (n := (total - 0 + BATCH_SIZE - 1) / BATCH_SIZE).
  assert (0 ≤ n ∧ n * BATCH_SIZE - BATCH_SIZE < total ≤ n * BATCH_SIZE)
    as (Hn0 & Hn1 & Hn2).
  { unfold n, BATCH_SIZE.
    pose proof (Z.div_mod (total - 0 + 10000 - 1) 10000 ltac:(lia)).
    pose proof (Z.mod_pos_bound (total - 0 + 10000 - 1) 10000 ltac:(lia)).
    split; [apply Z.div_pos; lia|lia]. }
  destruct (institutions_batches_run total city_df ws (Z.to_nat n) 0 [] s g)
    as (rows & Hrun & Hids & Hrows); [done|done| |done| |].
  { eapply Forall_impl; [exact Hws|].
    intros w [k Hk]. by eapply institution_tier_weights_positive. }
  { intros _. lia. }
  rewrite Z2Nat.id in Hrun, Hids by done.
  exists rows. rewrite Hrun. split; [done|]. split; [|done].
  rewrite Hids. f_equal; lia.
Qed.

(** X18. With a non-empty table of cities whose tiers are all known,
    [create_institutions] raises nothing: for a target of [total >= 0]
    rows it returns rows numbered 1..[total] in order, each with the id of
    a city of the table, the parameters of that city's tier and a name
    that ends with that city's name. *)
Theorem create_institutions_with_rows total city_df s g :
  city_df ≠ [] →
  Forall (fun city =>
            DimCity.tier_classification city
            ∈ ["Tier1"; "Tier2"; "Tier3"]%string) city_df →
  0 ≤ total →
  exists rows,
    (create_institutions_with total city_df s g).1.1 = inr rows ∧
    institution_id <$> rows = seqZ 1 total ∧
    Forall (fun r => exists city, city ∈ city_df ∧ row_of city r) rows.
Proof. apply create_institutions_with_run. Qed.

(** X20. On the city table that [create_dim_city] returned, whatever the
    state table was, [create_institutions] returns 350,000 rows numbered
    1..350000, each referring to a city id of that table (1..252). *)
Theorem institutions_reference_cities state_df city_df s g :
  DimCity.create_dim_city state_df = Some city_df →
  exists rows,
    (create_institutions city_df s g).1.1 = inr rows ∧
    institution_id <$> rows = seqZ 1 350000 ∧
    Forall (fun r => 1 ≤ city_id r ≤ 252 ∧
                     city_id r ∈ DimCity.city_id <$> city_df) rows.
Proof.
  intros (Hne & Hids & Htiers)%DimCityFacts.create_dim_city_cities.
  destruct (create_institutions_with_run OTHER_TABLE_RECORDS city_df s g)
    as (rows & Hrun & Hrows & Hall); [done..|].
  exists rows. split; [done|]. split; [done|].
  eapply Forall_impl; [exact Hall|].
  intros r (city & Hcity & -> & _).
  assert (DimCity.city_id city ∈ DimCity.city_id <$> city_df) as Hin
    by (by apply list_elem_of_fmap_2).
  split; [|done]. rewrite Hids in Hin. apply elem_of_seqZ in Hin. lia.
Qed.

(** X19. [create_institutions] raises [KeyError] exactly when some city of the
    table has a tier other than Tier1, Tier2 and Tier3, whatever the
    samples are; the key is such a tier. *)
Theorem create_institutions_with_KeyError_iff total city_df s g :
  (exists key, (create_institutions_with total city_df s g).1.1
               = inl (KeyError key))
  ↔ Exists (fun city =>
              DimCity.tier_classification city
              ∉ ["Tier1"; "Tier2"; "Tier3"]%string) city_df.
Proof.
  unfold create_institutions_with. split.
  - intros [key Hkey].
    destruct (city_weights_of tier_weights city_df) as [e|ws] eqn:Hws.
    + destruct (city_weights_of_inl _ _ _ Hws) as (city & Hcity & _ & Hnone).
      apply Exists_exists. exists city. split; [done|].
      rewrite <- institution_tier_weights_lookup, Hnone. by intros [? [=]].
    + by apply institutions_batches_error in Hkey.
  - intros Hex.
    destruct (city_weights_of tier_weights city_df) as [e|ws] eqn:Hws.
    + destruct (city_weights_of_inl _ _ _ Hws) as (city & _ & -> & _).
      by eexists.
    + exfalso. revert ws Hws.
      induction Hex as [city city_df Hcity|city city_df _ IH]; intros ws;
        cbn [city_weights_of].
      * rewrite <- institution_tier_weights_lookup in Hcity.
        destruct (tier_weights !! _); [|done]. destruct Hcity. by eexists.
      * destruct (tier_weights !! _); [|done].
        destruct (city_weights_of tier_weights city_df); [done|].
        intros _. by eapply IH.
Qed.

End WithSource.

Lemma create_institutions_with_rows_witness :
  let city_df := [DimCity.mk_row 1 "Mumbai" 14 "Tier1"] in
  exists rows,
    (@create_institutions_with scripted cyclic 3 city_df 0 []).1.1
    = inr rows ∧
    institution_id <$> rows = seqZ 1 3 ∧
    Forall (fun r => exists city, city ∈ city_df ∧ row_of city r) rows.
Proof.
  apply (@create_institutions_with_rows scripted cyclic); [done| |lia].
  constructor; [|constructor]. apply list_elem_of_here.
Defined.

Lemma institutions_reference_cities_witness :
  let city_df :=
    default [] (DimCity.create_dim_city DimState.create_dim_state) in
  exists rows,
    (@create_institutions scripted cyclic city_df 0 []).1.1 = inr rows ∧
    institution_id <$> rows = seqZ 1 350000 ∧
    Forall (fun r => 1 ≤ city_id r ≤ 252 ∧
                     city_id r ∈ DimCity.city_id <$> city_df) rows.
Proof.
  apply (@institutions_reference_cities scripted cyclic
           DimState.create_dim_state).
  by vm_compute.
Defined.

End InstitutionsFacts.

(** ** The customers table *)

Lemma py_date_valid (y m d : Z) :
  1 ≤ y ≤ 9999 → 1 ≤ m ≤ 12 → 1 ≤ d ≤ 28 →
  py_date y m d = inr (mk_date y m d).
Proof.
  intros Hy Hm Hd. unfold py_date.
  assert (d ≤ days_in_month y m).
  { unfold days_in_month. repeat case_match; lia. }
  repeat (rewrite (proj2 (Z.leb_le _ _)) by lia). done.
Qed.

(** [int] of a float between two integers. *)
Lemma py_int_between (a b : Z) (x : Q) :
  0 ≤ a → (inject_Z a <= x <= inject_Z b)%Q → a ≤ py_int x ≤ b.
Proof.
  intros Ha [Hax Hxb].
  assert (0 <= x)%Q as Hx.
  { apply Qle_trans with (inject_Z a); [|done]. by rewrite <- (Zle_Qle 0). }
  destruct (py_int_floor x Hx) as (_ & Hlo & Hhi). split.
  - assert (inject_Z a < inject_Z (py_int x + 1))%Q as Hlt
      by (rewrite inject_Z_plus; change (inject_Z 1) with 1%Q; lra).
    rewrite <- Zlt_Qlt in Hlt. lia.
  - rewrite Zle_Qle. lra.
Qed.

Module CustomersFacts.
Import Customers.

(** The clamp of the score never applies: the score stays within 50
    points above the band of its base. *)
Lemma cibil_of_between (cibil_base annual_income lo hi : Q) :
  (300 <= lo)%Q → (hi <= 850)%Q → (lo <= cibil_base <= hi)%Q →
  (lo <= cibil_of cibil_base annual_income <= hi + 50)%Q ∧
  ((annual_income <= 1000000)%Q →
   (cibil_of cibil_base annual_income <= hi)%Q).
Proof.
  intros Hlo Hhi Hb. unfold cibil_of, py_min, py_max.
  repeat destruct (Qlt_le_dec _ _); split; intros; lra.
Qed.

Section WithSource.
Context `{RandomSource} `{Faker} `{StrLower}.

(** How the computations of the generator run. *)
Lemma gbind_draw {A B} (c : Rand A) (k : A → Gen B) fk g :
  gbind (draw c) k fk g = k (c g).1 fk (c g).2.
Proof. unfold gbind, draw, bind, ret. by destruct (c g). Qed.

Lemma gbind_fake {B} provider (k : string → Gen B) fk g :
  gbind (fake provider) k fk g = k (provider fk).1 (provider fk).2 g.
Proof. reflexivity. Qed.

Lemma gbind_gret {A B} (a : A) (k : A → Gen B) fk g :
  gbind (gret a) k fk g = k a fk g.
Proof. reflexivity. Qed.

Lemma gbind_graise {A B} e (k : A → Gen B) fk g :
  gbind (graise e) k fk g = (inl e, fk, g).
Proof. reflexivity. Qed.

Lemma fake_if {P Q : Prop} (d : {P} + {Q}) p1 p2 :
  (if d then fake p1 else fake p2) = fake (if d then p1 else p2).
Proof. by destruct d. Qed.

(** The base income of a tier. *)
Lemma base_income_range (tier : string) g :
  let q := ((if decide (tier = "Tier1"%string) then uniform 600000 1800000
             else if decide (tier = "Tier2"%string)
                  then uniform 400000 1200000
                  else uniform 250000 800000) g).1 in
  (250000 <= q <= 1800000)%Q ∧
  (tier ≠ "Tier1"%string → (q <= 1200000)%Q).
Proof.
  repeat destruct (decide _);
    match goal with
    | |- context [uniform ?a ?b g] =>
        pose proof (uniform_range a b g ltac:(lra))
    end; cbv zeta; split; first [lra | intros; first [done | lra]].
Qed.

End WithSource.

(** Run the next draw of a customer computation, keeping its range. *)
Ltac gdraw :=
  lazymatch goal with
  | |- context [gbind (draw ?c) ?k ?fk ?g] =>
      rewrite (gbind_draw c k fk g);
      first
        [ lazymatch c with
          | randint ?a ?b => pose proof (randint_range a b g ltac:(lia))
          | uniform ?a ?b => pose proof (uniform_range a b g ltac:(lra))
          | choice ?d ?l => pose proof (choice_elem d l g ltac:(done))
          | choices1 ?d ?l ?w =>
              pose proof (choices1_elem d l w g ltac:(done))
          | _ => pose proof (base_income_range _ g)
          end
        | idtac ];
      destruct (c g) as [? ?]; cbn [fst snd] in *; cbv beta
  | |- context [gbind (fake ?p) ?k ?fk ?g] =>
      rewrite (gbind_fake p k fk g);
      destruct (p fk) as [? ?]; cbn [fst snd]; cbv beta
  | |- context [gbind (gret ?a) ?k ?fk ?g] =>
      rewrite (gbind_gret a k fk g); cbv beta
  end.

Section WithSource.
Context `{RandomSource} `{Faker} `{StrLower}.

Lemma customer_row_spec now_year i city fk g :
  31 ≤ now_year ≤ 9999 →
  exists r fk',
    (customer_row now_year i city fk g).1 = (inr r, fk') ∧
    customer_id r = i ∧ row_of now_year city r.
Proof.
  intros Hyear.
  unfold customer_row. cbv zeta.
  gdraw. rewrite fake_if. do 5 gdraw.
  rewrite py_date_valid by lia. cbn [of_result]. do 2 gdraw.
  lazymatch goal with
  | |- context [gbind (draw ?c) _ _ ?g] =>
      pose proof (base_income_range (DimCity.tier_classification city) g)
        as Hbase; cbv zeta in Hbase
  end.
  do 6 gdraw.
  match goal with
  | Hin : _ ∈ employment_types |- _ => rename Hin into Hemp
  end.
  unfold employment_types in Hemp.
  repeat (apply elem_of_cons in Hemp as [->|Hemp]);
    [..|by apply elem_of_nil in Hemp].
  all: unfold getitem.
  all: lazymatch goal with
       | |- context [multipliers_of ?a ?b ?c ?d ?e !! ?k] =>
           let v := eval vm_compute in (multipliers_of a b c d e !! k) in
           replace (multipliers_of a b c d e !! k) with v by (by vm_compute)
       end.
  all: lazymatch goal with
       | |- context [employers !! ?k] =>
           let v := eval vm_compute in (employers !! k) in
           replace (employers !! k) with v by (by vm_compute)
       end.
  all: gdraw.
  all: repeat match goal with
       | |- context [decide (?a = ?b)] =>
           first [ rewrite (decide_True (P := a = b)) by reflexivity
                 | rewrite (decide_False (P := a = b)) by discriminate ]
       end.
  all: do 6 gdraw.
  all: eexists _, _; (split; [reflexivity|]); (split; [reflexivity|]).
  all: unfold row_of;
    cbn [city_id gender employment_type education_level employer_name
         full_name email_address customer_id phone_number date_of_birth
         cibil_score annual_income year month day].
  all: split; [reflexivity|]; split; [done|];
    split; [repeat first [apply list_elem_of_here
                         | apply list_elem_of_further]|];
    split; [done|];
    split; [eexists; split; [by vm_compute|done]|];
    split; [by eexists _, _|];
    split; [by eexists|];
    split; [lia|].
  all: destruct Hbase as [Hq Htier].
  all: lazymatch goal with
       | |- context [cibil_of ?b ?inc] =>
           lazymatch goal with
           | Hb : (?lo <= b <= ?hi)%Q |- _ =>
               destruct (cibil_of_between b inc lo hi
                           ltac:(lra) ltac:(lra) Hb) as [Hc Hc']
           end
       end.
  all: split;
    [apply (py_int_between 550 900); [lia|unfold inject_Z; lra]|].
  all: split; [apply round2_between; [done|done|split; nra]|].
  all: split;
    [intros Ht; specialize (Htier Ht); apply round2_le; [done|nra]|].
  all: split; intros Hemp; try discriminate Hemp.
  - split; [|apply round2_le; [done|nra]].
    apply (py_int_between 650 900); [lia|unfold inject_Z; lra].
  - split; [|apply round2_le; [done|nra]].
    apply (py_int_between 550 750); [lia|unfold inject_Z].
    assert (q * q4 <= 1000000)%Q as Hinc by nra. specialize (Hc' Hinc). lra.
Qed.


(** The inner loop appends one row per sampled city, numbered from
    [batch_start + k + 1]. *)
Lemma customers_rows_run year_at batch_start k cities customers_data fk g :
  (∀ i, 31 ≤ year_at i ≤ 9999) →
  exists new fk',
    (customers_rows_at year_at batch_start (enumerate k cities)
       customers_data fk g).1
    = (inr (customers_data ++ new), fk') ∧
    customer_id <$> new
    = seqZ (batch_start + k + 1) (Z.of_nat (length cities)) ∧
    Forall2 (fun city r => row_of (year_at (customer_id r)) city r)
            cities new.
Proof.
  intros Hyear. revert k customers_data fk g.
  induction cities as [|city cities IH]; intros k customers_data fk g.
  - exists [], fk. by rewrite app_nil_r.
  - cbn [enumerate customers_rows_at].
    destruct (customer_row_spec (year_at (batch_start + k + 1))
                (batch_start + k + 1) city fk g (Hyear _))
      as (r & fk1 & Hrun & Hid & Hrow).
    unfold gbind at 1. rewrite bind_run, Hrun.
    destruct (IH (k + 1) (customers_data ++ [r]) fk1
                 (customer_row (year_at (batch_start + k + 1))
                    (batch_start + k + 1) city fk g).2)
      as (new & fk' & -> & Hids & Hrows).
    exists (r :: new), fk'. split_and!.
    + by rewrite <- app_assoc.
    + cbn [fmap list_fmap length]. rewrite Hid.
      rewrite (seqZ_cons (batch_start + k + 1)) by lia.
      f_equal. rewrite Hids. f_equal; lia.
    + constructor; [by rewrite Hid|done].
Qed.

Lemma customer_tier_weights_lookup tier :
  is_Some (tier_weights !! tier)
  ↔ tier ∈ ["Tier1"; "Tier2"; "Tier3"]%string.
Proof.
  unfold tier_weights. rewrite !lookup_insert_is_Some, lookup_empty.
  rewrite !elem_of_cons, elem_of_nil. split.
  - intros [->|[_ [->|[_ [->|[_ [? [=]]]]]]]]; auto.
  - intros [->|[->|[->|[]]]].
    + by left.
    + right. split; [done|]. by left.
    + right. split; [done|]. right. split; [done|]. by left.
Qed.

Lemma customer_tier_weights_positive k w : tier_weights !! k = Some w → (0 < w)%Q.
Proof.
  unfold tier_weights. intros Hw.
  repeat (apply lookup_insert_Some in Hw as [[_ <-]|[_ Hw]]; [done|]).
  done.
Qed.

Context `{FrameSampler}.

(** In a valid year the batches never raise a [KeyError]. *)
Lemma customers_batches_error year_at total city_df city_weights starts
    data s fk g e :
  (∀ i, 31 ≤ year_at i ≤ 9999) →
  (customers_batches_at year_at total city_df city_weights starts data s fk
     g).1.1 = inl e →
  e = ValueError.
Proof.
  intros Hyear. revert data s fk g.
  induction starts as [|b starts IH]; intros data s fk g.
  - done.
  - cbn [customers_batches_at].
    destruct (df_sample city_df _ city_weights s) as [[batch|] s'].
    + destruct (customers_rows_run year_at b 0 batch data fk g Hyear)
        as (new & fk' & Hrun & _).
      unfold gbind at 1. rewrite bind_run, Hrun. apply IH.
    + cbn. by intros [= <-].
Qed.

(** The batches starting at [j * BATCH_SIZE]: every sample succeeds, and
    the rows are numbered on from [j * BATCH_SIZE + 1]. *)
Lemma customers_batches_run year_at total city_df city_weights (m : nat) j
    data s fk g :
  (∀ i, 31 ≤ year_at i ≤ 9999) →
  city_df ≠ [] → length city_weights = length city_df →
  Forall (fun w => (0 < w)%Q) city_weights →
  0 ≤ j → (m ≠ 0%nat → (j + Z.of_nat m - 1) * BATCH_SIZE < total) →
  exists new s' fk',
    (customers_batches_at year_at total city_df city_weights
       (map (fun k => 0 + k * BATCH_SIZE) (seqZ j (Z.of_nat m)))
       data s fk g).1
    = (inr (data ++ new, s'), fk') ∧
    customer_id <$> new
    = seqZ (j * BATCH_SIZE + 1)
        (Z.min ((j + Z.of_nat m) * BATCH_SIZE) total - j * BATCH_SIZE) ∧
    Forall (fun r => exists city,
              city ∈ city_df ∧ row_of (year_at (customer_id r)) city r)
           new.
Proof.
  intros Hyear Hne Hlen Hpos. revert j data s fk g.
  induction m as [|m IH]; intros j data s fk g Hj Hm.
  - exists [], s, fk. rewrite app_nil_r. split; [done|]. split; [|done].
    rewrite seqZ_nil; [done|]. lia.
  - assert (j * BATCH_SIZE < total) as Hstart.
    { specialize (Hm ltac:(done)). unfold BATCH_SIZE in *. lia. }
    rewrite seqZ_cons by lia. cbn [map customers_batches_at].
    set (batch_start := 0 + j * BATCH_SIZE).
    set (batch_size := Z.min (batch_start + BATCH_SIZE) total - batch_start).
    destruct (df_sample_rows _ city_df batch_size city_weights s)
      as (batch & Hsample & Hsize & Hbatch); [done| |done|done|].
    { unfold batch_size, batch_start, BATCH_SIZE in *. lia. }
    destruct (df_sample city_df batch_size city_weights s) as [sampled s1].
    cbn [fst] in Hsample. subst sampled.
    destruct (customers_rows_run year_at batch_start 0 batch data fk g Hyear)
      as (new1 & fk1 & Hrun1 & Hids1 & Hrows1).
    unfold gbind at 1. rewrite bind_run, Hrun1.
    replace (Z.pred (Z.of_nat (S m))) with (Z.of_nat m) by lia.
    destruct (IH (Z.succ j) (data ++ new1) s1 fk1
                (customers_rows_at year_at batch_start (enumerate 0 batch)
                   data fk g).2)
      as (new2 & s' & fk' & -> & Hids2 & Hrows2); [lia| |].
    { intros Hm0. specialize (Hm ltac:(done)).
      unfold BATCH_SIZE in *. lia. }
    exists (new1 ++ new2), s', fk'. split; [by rewrite app_assoc|]. split.
    + rewrite fmap_app, Hids1, Hids2, Hsize.
      unfold batch_size, batch_start.
      destruct (decide ((j + 1) * BATCH_SIZE ≤ total)) as [Hfull|Hpart].
      * replace (Z.succ j * BATCH_SIZE + 1)
          with (0 + j * BATCH_SIZE + 0 + 1
                + (Z.min (0 + j * BATCH_SIZE + BATCH_SIZE) total
                   - (0 + j * BATCH_SIZE)))
          by (unfold BATCH_SIZE in *; lia).
        rewrite <- seqZ_app by (unfold BATCH_SIZE in *; lia).
        f_equal; unfold BATCH_SIZE in *; lia.
      * assert (m = 0%nat) as ->.
        { destruct m; [done|]. specialize (Hm ltac:(done)).
          unfold BATCH_SIZE in *. lia. }
        rewrite (seqZ_nil (Z.succ j * BATCH_SIZE + 1))
          by (unfold BATCH_SIZE in *; lia).
        rewrite app_nil_r. f_equal; unfold BATCH_SIZE in *; lia.
    + apply Forall_app. split; [|done].
      clear -Hrows1 Hbatch.
      induction Hrows1 as [|city r batch new1 Hrow _ IH]; [done|].
      apply Forall_cons in Hbatch as [Hcity Hbatch].
      constructor; [by exists city|by apply IH].
Qed.

Lemma create_customers_at_run year_at total city_df s fk g :
  (∀ i, 31 ≤ year_at i ≤ 9999) →
  city_df ≠ [] →
  Forall (fun city =>
            DimCity.tier_classification city
            ∈ ["Tier1"; "Tier2"; "Tier3"]%string) city_df →
  0 ≤ total →
  exists rows s' fk',
    (create_customers_at year_at total city_df s fk g).1
    = (inr (rows, s'), fk') ∧
    customer_id <$> rows = seqZ 1 total ∧
    Forall (fun r => exists city,
              city ∈ city_df ∧ row_of (year_at (customer_id r)) city r)
           rows.
Proof.
  intros Hyear Hne Htiers Htotal. unfold create_customers_at.
  destruct (city_weights_of_inr tier_weights city_df)
    as (ws & -> & Hlen & Hws).
  { eapply Forall_impl; [exact Htiers|]. intros city.
    apply customer_tier_weights_lookup. }
  unfold py_range_step.
  set (n := (total - 0 + BATCH_SIZE - 1) / BATCH_SIZE).
  assert (0 ≤ n ∧ n * BATCH_SIZE - BATCH_SIZE < total ≤ n * BATCH_SIZE)
    as (Hn0 & Hn1 & Hn2).
  { unfold n, BATCH_SIZE.
    pose proof (Z.div_mod (total - 0 + 10000 - 1) 10000 ltac:(lia)).
    pose proof (Z.mod_pos_bound (total - 0 + 10000 - 1) 10000 ltac:(lia)).
    split; [apply Z.div_pos; lia|lia]. }
  destruct (customers_batches_run year_at total city_df ws (Z.to_nat n) 0
              [] s fk g)
    as (rows & s' & fk' & Hrun & Hids & Hrows); [done|done|done| |done| |].
  { eapply Forall_impl; [exact Hws|].
    intros w [k Hk]. by eapply customer_tier_weights_positive. }
  { intros _. lia. }
  rewrite Z2Nat.id in Hrun, Hids by done.
  exists rows, s', fk'. rewrite Hrun. split; [done|]. split; [|done].
  rewrite Hids. f_equal; lia.
Qed.

Lemma create_customers_with_run now_year total city_df s fk g :
  31 ≤ now_year ≤ 9999 →
  city_df ≠ [] →
  Forall (fun city =>
            DimCity.tier_classification city
            ∈ ["Tier1"; "Tier2"; "Tier3"]%string) city_df →
  0 ≤ total →
  exists rows s' fk',
    (create_customers_with now_year total city_df s fk g).1
    = (inr (rows, s'), fk') ∧
    customer_id <$> rows = seqZ 1 total ∧
    Forall (fun r => exists city, city ∈ city_df ∧ row_of now_year city r)
           rows.
Proof.
  intros Hyear. by apply (create_customers_at_run (fun _ => now_year)).
Qed.

(** X21. In a year from 31 to 9999, with a non-empty table of cities whose
    tiers are all known, [create_customers] raises nothing: for a target
    of [total >= 0] rows it returns rows numbered 1..[total] in order, and
    every row has the id of a city of the table and the values the loop
    body gives for that city: an employer from the list of its employment
    type, an e-mail address made of its lower-cased names and its id, a
    birth year 18 to 30 years back, a score from 550 to 900 (at most 750
    for a student), an income from 25,000 to 5,400,000. *)
Theorem create_customers_with_rows now_year total city_df s fk g :
  31 ≤ now_year ≤ 9999 →
  city_df ≠ [] →
  Forall (fun city =>
            DimCity.tier_classification city
            ∈ ["Tier1"; "Tier2"; "Tier3"]%string) city_df →
  0 ≤ total →
  exists rows s' fk',
    (create_customers_with now_year total city_df s fk g).1
    = (inr (rows, s'), fk') ∧
    customer_id <$> rows = seqZ 1 total ∧
    Forall (fun r => exists city, city ∈ city_df ∧ row_of now_year city r)
           rows.
Proof. apply create_customers_with_run. Qed.

(** X23. On the city table that [create_dim_city] returned, whatever the
    state table was, [create_customers] returns 500,000 rows numbered
    1..500000, each referring to a city id of that table (1..252). *)
Theorem customers_reference_cities now_year state_df city_df s fk g :
  31 ≤ now_year ≤ 9999 →
  DimCity.create_dim_city state_df = Some city_df →
  exists rows s' fk',
    (create_customers now_year city_df s fk g).1 = (inr (rows, s'), fk') ∧
    customer_id <$> rows = seqZ 1 500000 ∧
    Forall (fun r => 1 ≤ city_id r ≤ 252 ∧
                     city_id r ∈ DimCity.city_id <$> city_df) rows.
Proof.
  intros Hyear (Hne & Hids & Htiers)%DimCityFacts.create_dim_city_cities.
  destruct (create_customers_with_run now_year CUSTOMER_RECORDS city_df
              s fk g)
    as (rows & s' & fk' & Hrun & Hrows & Hall); [done..|].
  exists rows, s', fk'. split; [done|]. split; [done|].
  eapply Forall_impl; [exact Hall|].
  intros r (city & Hcity & -> & _).
  assert (DimCity.city_id city ∈ DimCity.city_id <$> city_df) as Hin
    by (by apply list_elem_of_fmap_2).
  split; [|done]. rewrite Hids in Hin. apply elem_of_seqZ in Hin. lia.
Qed.

(** X22. In a year from 31 to 9999 [create_customers] raises [KeyError]
    exactly when some city of the table has a tier other than Tier1, Tier2
    and Tier3: the lookups of the loop body ([multipliers], [employers])
    never miss. *)
Theorem create_customers_with_KeyError_iff now_year total city_df s fk g :
  31 ≤ now_year ≤ 9999 →
  (exists key, (create_customers_with now_year total city_df s fk g).1.1
               = inl (KeyError key))
  ↔ Exists (fun city =>
              DimCity.tier_classification city
              ∉ ["Tier1"; "Tier2"; "Tier3"]%string) city_df.
Proof.
  intros Hyear. unfold create_customers_with, create_customers_at. split.
  - intros [key Hkey].
    destruct (city_weights_of tier_weights city_df) as [e|ws] eqn:Hws.
    + destruct (city_weights_of_inl _ _ _ Hws)
        as (city & Hcity & _ & Hnone).
      apply Exists_exists. exists city. split; [done|].
      rewrite <- customer_tier_weights_lookup, Hnone. by intros [? [=]].
    + by apply customers_batches_error in Hkey.
  - intros Hex.
    destruct (city_weights_of tier_weights city_df) as [e|ws] eqn:Hws.
    + destruct (city_weights_of_inl _ _ _ Hws)
        as (city & _ & -> & _).
      by eexists.
    + exfalso. revert ws Hws.
      induction Hex as [city city_df Hcity|city city_df _ IH]; intros ws;
        cbn [city_weights_of].
      * rewrite <- customer_tier_weights_lookup in Hcity.
        destruct (tier_weights !! _); [|done]. destruct Hcity. by eexists.
      * destruct (tier_weights !! _); [|done].
        destruct (city_weights_of tier_weights city_df); [done|].
        intros _. by eapply IH.
Qed.

End WithSource.

Lemma create_customers_with_rows_witness :
  let city_df := [DimCity.mk_row 1 "Mumbai" 14 "Tier1"] in
  exists rows s' fk',
    (@create_customers_with scripted counting_faker ascii_str_lower cyclic
       2025 3 city_df 0 0%nat []).1
    = (inr (rows, s'), fk') ∧
    customer_id <$> rows = seqZ 1 3 ∧
    Forall (fun r => exists city,
              city ∈ city_df ∧ row_of (H := ascii_str_lower) 2025 city r)
           rows.
Proof.
  apply (@create_customers_with_rows scripted counting_faker
           ascii_str_lower cyclic); [lia|done| |lia].
  constructor; [|constructor]. apply list_elem_of_here.
Defined.

Lemma customers_reference_cities_witness :
  let city_df :=
    default [] (DimCity.create_dim_city DimState.create_dim_state) in
  exists rows s' fk',
    (@create_customers scripted counting_faker ascii_str_lower cyclic
       2025 city_df 0 0%nat []).1 = (inr (rows, s'), fk') ∧
    customer_id <$> rows = seqZ 1 500000 ∧
    Forall (fun r => 1 ≤ city_id r ≤ 252 ∧
                     city_id r ∈ DimCity.city_id <$> city_df) rows.
Proof.
  apply (@customers_reference_cities scripted counting_faker
           ascii_str_lower cyclic 2025 DimState.create_dim_state); [lia|].
  by vm_compute.
Defined.

Lemma create_customers_with_KeyError_iff_witness :
  let city_df := [DimCity.mk_row 1 "Mumbai" 14 "Metro"] in
  (exists key,
     (@create_customers_with scripted counting_faker ascii_str_lower cyclic
        2025 3 city_df 0 0%nat []).1.1 = inl (KeyError key))
  ↔ Exists (fun city =>
              DimCity.tier_classification city
              ∉ ["Tier1"; "Tier2"; "Tier3"]%string) city_df.
Proof.
  apply (@create_customers_with_KeyError_iff scripted counting_faker
           ascii_str_lower cyclic).
  lia.
Defined.

End CustomersFacts.

(** ** Two runs of the pipeline from the same seeds *)

Module FullRunFacts.
Import Customers CustomersFacts FullRun.

(** Run the next step of a customer computation; a draw met before gives
    the value it gave. *)
Ltac gdraw_again :=
  lazymatch goal with
  | |- context [gbind (draw ?c) ?k ?fk ?g] =>
      rewrite (gbind_draw c k fk g);
      first
        [ lazymatch goal with E : c g = _ |- _ => rewrite E end
        | first
            [ lazymatch c with
              | randint ?a ?b => pose proof (randint_range a b g ltac:(lia))
              | choices1 ?d ?l ?w =>
                  pose proof (choices1_elem d l w g ltac:(done))
              end
            | idtac ];
          let E := fresh "E" in destruct (c g) as [? ?] eqn:E ];
      cbn [fst snd] in *; cbv beta
  | |- context [gbind (fake ?p) ?k ?fk ?g] =>
      rewrite (gbind_fake p k fk g);
      first
        [ lazymatch goal with E : p fk = _ |- _ => rewrite E end
        | let E := fresh "E" in destruct (p fk) as [? ?] eqn:E ];
      cbn [fst snd]; cbv beta
  | |- context [gbind (gret ?a) ?k ?fk ?g] =>
      rewrite (gbind_gret a k fk g); cbv beta
  end.

(** One step of two runs of the loop body side by side. *)
Ltac both_step :=
  first
    [ progress (rewrite fake_if)
    | rewrite py_date_valid by lia; cbn [of_result]
    | lazymatch goal with
      | Hin : _ ∈ employment_types |- _ =>
          unfold employment_types in Hin;
          repeat (apply elem_of_cons in Hin as [->|Hin]);
          [..|by apply elem_of_nil in Hin]
      end
    | lazymatch goal with
      | |- context [getitem ?d (String ?a ?k)] =>
          let v := eval vm_compute in (d !! String a k) in
          replace (getitem d (String a k))
            with (match v with
                  | Some x => gret x
                  | None => graise (KeyError (String a k))
                  end)
            by (unfold getitem;
                replace (d !! String a k) with v by (by vm_compute);
                reflexivity);
          cbv beta iota
      end
    | lazymatch goal with
      | |- context [decide (String ?a ?k = String ?b ?l)] =>
          first
            [ rewrite (decide_True (P := String a k = String b l))
                by reflexivity
            | rewrite (decide_False (P := String a k = String b l))
                by discriminate ]
      end
    | gdraw_again ].

Section WithSource.
Context `{RandomSource} `{Faker} `{StrLower}.

(** The year read by the clock reaches a customer row through the birth
    year only, and has no part in what is drawn. *)
Lemma customer_row_shift y y' i city fk g :
  31 ≤ y ≤ 9999 → 31 ≤ y' ≤ 9999 →
  exists r fk' g',
    customer_row y i city fk g = (inr r, fk', g') ∧
    customer_row y' i city fk g = (inr (shift_birth (y' - y) r), fk', g') ∧
    customer_id r = i.
Proof.
  intros Hy Hy'.
  unfold customer_row. cbv zeta.
  repeat both_step.
  all: eexists _, _, _; (split; [reflexivity|]); (split; [|reflexivity]).
  all: unfold gret, ret, shift_birth;
    cbn [customer_id full_name phone_number email_address city_id
         current_address annual_income cibil_score employment_type
         employer_name date_of_birth gender education_level year month day].
  all: by replace (y - z + (y' - y)) with (y' - z) by lia.
Qed.

(** The rows of two runs of the inner loop that read the years [year_at]
    and [year_at']. *)
Lemma customers_rows_shift year_at year_at' batch_start k cities data fk g :
  (∀ i, 31 ≤ year_at i ≤ 9999) → (∀ i, 31 ≤ year_at' i ≤ 9999) →
  exists rows fk' g',
    customers_rows_at year_at batch_start (enumerate k cities) data fk g
    = (inr rows, fk', g') ∧
    customers_rows_at year_at' batch_start (enumerate k cities)
      (shift_customers year_at year_at' data) fk g
    = (inr (shift_customers year_at year_at' rows), fk', g').
Proof.
  intros Hy Hy'. revert k data fk g.
  induction cities as [|city cities IH]; intros k data fk g.
  - by exists data, fk, g.
  - cbn [enumerate customers_rows_at].
    destruct (customer_row_shift (year_at (batch_start + k + 1))
                (year_at' (batch_start + k + 1)) (batch_start + k + 1)
                city fk g (Hy _) (Hy' _))
      as (r & fk1 & g1 & Hrun & Hrun' & Hid).
    unfold gbind at 1 2. unfold bind at 1 2. rewrite Hrun, Hrun'.
    destruct (IH (k + 1) (data ++ [r]) fk1 g1)
      as (rows & fk' & g' & Hrows & Hrows').
    exists rows, fk', g'. split; [done|].
    rewrite <- Hrows'. f_equal.
    unfold shift_customers. rewrite fmap_app. cbn. by rewrite Hid.
Qed.

Context `{FrameSampler}.

Lemma customers_batches_shift year_at year_at' total city_df city_weights
    starts data s fk g :
  (∀ i, 31 ≤ year_at i ≤ 9999) → (∀ i, 31 ≤ year_at' i ≤ 9999) →
  customers_batches_at year_at' total city_df city_weights starts
    (shift_customers year_at year_at' data) s fk g
  = shifted year_at year_at'
      (customers_batches_at year_at total city_df city_weights starts
         data s fk g).
Proof.
  intros Hy Hy'. revert data s fk g.
  induction starts as [|b starts IH]; intros data s fk g; [done|].
  cbn [customers_batches_at].
  destruct (df_sample city_df _ city_weights s) as [[batch|] s1]; [|done].
  destruct (customers_rows_shift year_at year_at' b 0 batch data fk g
              Hy Hy') as (rows & fk1 & g1 & Hrun & Hrun').
  unfold gbind at 1 2. unfold bind at 1 2. rewrite Hrun, Hrun'.
  apply IH.
Qed.

Lemma create_customers_at_shift year_at year_at' total city_df s fk g :
  (∀ i, 31 ≤ year_at i ≤ 9999) → (∀ i, 31 ≤ year_at' i ≤ 9999) →
  create_customers_at year_at' total city_df s fk g
  = shifted year_at year_at'
      (create_customers_at year_at total city_df s fk g).
Proof.
  intros Hy Hy'. unfold create_customers_at.
  destruct (city_weights_of tier_weights city_df) as [e|ws]; [done|].
  by apply (customers_batches_shift year_at year_at' total city_df ws _ []).
Qed.

Lemma create_payments_shift d k g :
  Payments.create_payments (d + k) g
  = (Run.shift_payment k <$> (Payments.create_payments d g).1,
     (Payments.create_payments d g).2).
Proof.
  unfold Payments.create_payments.
  by rewrite (RunFacts.payments_rows_shift d k _ []).
Qed.

Lemma create_defaults_collections_shift d k g :
  Defaults.create_defaults_collections (d + k) g
  = (Run.shift_default k <$> (Defaults.create_defaults_collections d g).1,
     (Defaults.create_defaults_collections d g).2).
Proof.
  unfold Defaults.create_defaults_collections.
  by rewrite (RunFacts.defaults_rows_shift d k _ []).
Qed.

Lemma create_payments_nonempty d g : (Payments.create_payments d g).1 ≠ [].
Proof.
  unfold Payments.create_payments.
  destruct (PaymentsFacts.payments_rows_generated d
              (py_range 1 (OTHER_TABLE_RECORDS + 1)) [] g)
    as (rows & -> & Hids & _).
  intros E. cbn in E. subst rows. done.
Qed.

Lemma create_defaults_collections_nonempty d g :
  (Defaults.create_defaults_collections d g).1 ≠ [].
Proof.
  unfold Defaults.create_defaults_collections.
  destruct (DefaultsFacts.defaults_rows_generated d
              (py_range 1 (OTHER_TABLE_RECORDS + 1)) [] g)
    as (rows & -> & Hids & _).
  intros E. cbn in E. subst rows. done.
Qed.

Lemma shift_birth_moved k r : k ≠ 0 → shift_birth k r ≠ r.
Proof.
  intros Hk E. apply (f_equal (fun r => year (date_of_birth r))) in E.
  cbn in E. lia.
Qed.

Lemma fmap_fixed_elem {A} (f : A → A) (l : list A) x :
  f <$> l = l → x ∈ l → f x = x.
Proof.
  induction l as [|a l IH]; intros E Hx; [by apply elem_of_nil in Hx|].
  injection E as Ea El. apply elem_of_cons in Hx as [->|Hx]; auto.
Qed.

(** C7. Two runs of the whole pipeline from the same states of the three
    seeded generators, whatever the clock reads in each (years 31 to 9999
    at the customer rows): neither raises; both leave the three generators
    in the same states, so the clock has no part in what is drawn; the
    state, city, institution, demographics and indicator tables are the
    same; the customers differ only by their birth year, moved by the
    difference of the years read at their row; the loans, payments and
    defaults differ only by their date columns, moved by the difference of
    the dates read.  A table whose readings differ does differ. *)
Theorem same_seed_runs (c c' : clock) (src : sources) :
  (∀ i, 31 ≤ customers_year c i ≤ 9999) →
  (∀ i, 31 ≤ customers_year c' i ≤ 9999) →
  exists out out' final,
    pipeline c src = Some (out, final) ∧
    pipeline c' src = Some (out', final) ∧
    dim_state out' = dim_state out ∧
    dim_city out' = dim_city out ∧
    institutions out' = institutions out ∧
    geographic_demographics out' = geographic_demographics out ∧
    economic_indicators out' = economic_indicators out ∧
    customers out'
    = shift_customers (customers_year c) (customers_year c') (customers out) ∧
    loans out'
    = Run.shift_loan (loans_date c' - loans_date c) <$> loans out ∧
    payments out'
    = Run.shift_payment (payments_date c' - payments_date c)
        <$> payments out ∧
    defaults_collections out'
    = Run.shift_default (defaults_date c' - defaults_date c)
        <$> defaults_collections out ∧
    (∀ i, 1 ≤ i ≤ 500000 →
          customers_year c' i ≠ customers_year c i →
          customers out' ≠ customers out) ∧
    (loans_date c' ≠ loans_date c → loans out' ≠ loans out) ∧
    (payments_date c' ≠ payments_date c → payments out' ≠ payments out) ∧
    (defaults_date c' ≠ defaults_date c →
     defaults_collections out' ≠ defaults_collections out).
Proof.
  intros Hy Hy'. destruct src as [[g s] fk]. unfold pipeline.
  destruct (DimCity.create_dim_city DimState.create_dim_state)
    as [city_df|] eqn:Hcity; [|by vm_compute in Hcity].
  destruct (DimCityFacts.create_dim_city_cities _ _ Hcity)
    as (Hne & _ & Htiers).
  (* customers *)
  rewrite (create_customers_at_shift (customers_year c) (customers_year c'))
    by done.
  destruct (create_customers_at_run (customers_year c) CUSTOMER_RECORDS
              city_df s fk g) as (customers_df & s1 & fk1 & Hcust & Hids & _);
    [done..|].
  destruct (create_customers_at (customers_year c) CUSTOMER_RECORDS city_df
              s fk g) as [[res fk1'] g1].
  cbn [fst] in Hcust. injection Hcust as -> ->. cbn [shifted].
  (* institutions *)
  destruct (InstitutionsFacts.create_institutions_with_run
              OTHER_TABLE_RECORDS city_df s1 g1)
    as (institutions_df & Hinst & _); [done..|].
  unfold Institutions.create_institutions.
  destruct (Institutions.create_institutions_with OTHER_TABLE_RECORDS
              city_df s1 g1) as [[res s2] g2].
  cbn [fst] in Hinst. subst res.
  (* loans, payments, defaults *)
  pose proof (RunFacts.create_loans_shift (loans_date c)
                (loans_date c' - loans_date c) g2) as Hl.
  replace (loans_date c + (loans_date c' - loans_date c))
    with (loans_date c') in Hl by lia.
  rewrite Hl. clear Hl.
  destruct (LoansFacts.create_loans_run (loans_date c) g2)
    as (loans_df & g3 & -> & Hlen & _).
  cbn [fst snd fmap option_fmap option_map]. cbv beta iota.
  pose proof (create_payments_shift (payments_date c)
                (payments_date c' - payments_date c) g3) as Hp.
  replace (payments_date c + (payments_date c' - payments_date c))
    with (payments_date c') in Hp by lia.
  rewrite Hp. clear Hp.
  pose proof (create_payments_nonempty (payments_date c) g3) as Hpay.
  destruct (Payments.create_payments (payments_date c) g3)
    as [payments_df g4]. cbn [fst snd] in *.
  pose proof (create_defaults_collections_shift (defaults_date c)
                (defaults_date c' - defaults_date c) g4) as Hd.
  replace (defaults_date c + (defaults_date c' - defaults_date c))
    with (defaults_date c') in Hd by lia.
  rewrite Hd. clear Hd.
  pose proof (create_defaults_collections_nonempty (defaults_date c) g4)
    as Hdef.
  destruct (Defaults.create_defaults_collections (defaults_date c) g4)
    as [defaults_df g5]. cbn [fst snd] in *.
  destruct (Geo.create_geographic_demographics g5) as [geo_df g6].
  destruct (Economic.create_economic_indicators g6) as [economic_df g7].
  eexists _, _, _. split; [reflexivity|]. split; [reflexivity|].
  cbn [dim_state dim_city institutions geographic_demographics
       economic_indicators customers loans payments defaults_collections].
  do 9 (split; [reflexivity|]).
  split; [|split; [|split]].
  - intros i Hi Hdiff E.
    assert (i ∈ customer_id <$> customers_df) as Hin
      by (rewrite Hids; apply elem_of_seqZ; unfold CUSTOMER_RECORDS; lia).
    apply list_elem_of_fmap in Hin as (r & -> & Hr).
    apply (fmap_fixed_elem _ _ r) in E; [|done].
    revert E. apply shift_birth_moved. lia.
  - intros Hdiff. apply RunFacts.fmap_moved.
    + intros ->. done.
    + intros r. apply RunFacts.shift_loan_moved. lia.
  - intros Hdiff. apply RunFacts.fmap_moved; [done|].
    intros r. apply RunFacts.shift_payment_moved. lia.
  - intros Hdiff. apply RunFacts.fmap_moved; [done|].
    intros r. apply RunFacts.shift_default_moved. lia.
Qed.

End WithSource.

Lemma same_seed_runs_witness :
  let c := mk_clock (fun _ => 2025) 739923 739923 739923 in
  let c' := mk_clock (fun _ => 2026) 739924 739925 739926 in
  exists out out' final,
    @pipeline scripted counting_faker ascii_str_lower cyclic c
      ([], 0, 0%nat) = Some (out, final) ∧
    @pipeline scripted counting_faker ascii_str_lower cyclic c'
      ([], 0, 0%nat) = Some (out', final) ∧
    dim_state out' = dim_state out ∧
    dim_city out' = dim_city out ∧
    institutions out' = institutions out ∧
    geographic_demographics out' = geographic_demographics out ∧
    economic_indicators out' = economic_indicators out ∧
    customers out'
    = shift_customers (customers_year c) (customers_year c') (customers out) ∧
    loans out'
    = Run.shift_loan (loans_date c' - loans_date c) <$> loans out ∧
    payments out'
    = Run.shift_payment (payments_date c' - payments_date c)
        <$> payments out ∧
    defaults_collections out'
    = Run.shift_default (defaults_date c' - defaults_date c)
        <$> defaults_collections out ∧
    (∀ i, 1 ≤ i ≤ 500000 →
          customers_year c' i ≠ customers_year c i →
          customers out' ≠ customers out) ∧
    (loans_date c' ≠ loans_date c → loans out' ≠ loans out) ∧
    (payments_date c' ≠ payments_date c → payments out' ≠ payments out) ∧
    (defaults_date c' ≠ defaults_date c →
     defaults_collections out' ≠ defaults_collections out).
Proof.
  apply (@same_seed_runs scripted counting_faker ascii_str_lower cyclic);
    intros i; cbn; lia.
Defined.

End FullRunFacts.
